(** * LocalAgent: the unified agent loop of [src/lib/agent/LocalAgent.ts]

    A shallow embedding of the orchestration loop ([_executeDynamic],
    [_executePredefined], [_runDynamicAgent], [_runPredefinedAgent]), of the
    execution-history context builder ([_buildExecutionHistoryContext],
    [_summarizeExecutionHistory]), of the streaming filter
    ([_invokeLLMWithStreaming]), of the tool dispatcher ([_processToolCalls])
    and of the human-input wait ([_waitForHumanInput]).

    The agent's own fields are an explicit record that is threaded through
    every method; everything the class reaches through [executionContext],
    the tool registry, the language model, the clock and pubsub is an
    external collaborator, gathered in the record [Collaborators] over an
    abstract type of worlds.  JavaScript exceptions are an outcome of the
    monad [M]; a thrown exception keeps the mutations made before it. *)

From Stdlib Require Import ZArith List String Ascii Bool Lia QArith Qround DecimalString.
From Stdlib Require Import Sorted.
Import ListNotations.
Set Warnings "-register-all".
Close Scope Q_scope.
Open Scope string_scope.
Open Scope Z_scope.

(** ** JavaScript text and JSON helpers *)

Module JS.

(** The double-quote character and the line feed, as one-character strings. *)
Definition dq : string := String "034"%char EmptyString.
Definition nl : string := String "010"%char EmptyString.

(** Template-literal rendering of an integral number. *)
Definition string_of_Z (z : Z) : string := NilZero.string_of_int (Z.to_int z).

(** [String.prototype.includes]. *)
Fixpoint includes (s sub : string) : bool :=
  if prefix sub s then true
  else match s with
       | EmptyString => false
       | String _ s' => includes s' sub
       end.

(** Truthiness of a string: non-empty. *)
Definition truthy (s : string) : bool :=
  match s with EmptyString => false | String _ _ => true end.

(** White space removed by [String.prototype.trim], on the ASCII range
    (strings are byte strings here). *)
Definition is_white_space (c : ascii) : bool :=
  let n := nat_of_ascii c in
  ((9 <=? n) && (n <=? 13) || (n =? 32))%nat.

Fixpoint trim_start (s : string) : string :=
  match s with
  | EmptyString => EmptyString
  | String c s' => if is_white_space c then trim_start s' else s
  end.

Fixpoint rev_string (acc s : string) : string :=
  match s with
  | EmptyString => acc
  | String c s' => rev_string (String c acc) s'
  end.

Definition trim (s : string) : string :=
  rev_string EmptyString (trim_start (rev_string EmptyString (trim_start s))).

(** [Array.prototype.join]. *)
Definition join (sep : string) (l : list string) : string := String.concat sep l.

(** [Array.prototype.slice(-n)]: the last [n] elements. *)
Definition slice_last {A} (n : nat) (l : list A) : list A :=
  skipn (List.length l - n)%nat l.

(** JSON values; numbers are the integral ones. *)
Inductive json :=
| JNull
| JBool (b : bool)
| JNum (z : Z)
| JStr (s : string)
| JArr (items : list json)
| JObj (fields : list (string * json)).

Definition hex_digit (n : nat) : ascii :=
  nth n ["0"; "1"; "2"; "3"; "4"; "5"; "6"; "7"; "8"; "9";
         "a"; "b"; "c"; "d"; "e"; "f"]%char "0"%char.

(** Escaping of one character inside a JSON string literal. *)
Definition escape_char (c : ascii) : string :=
  let n := nat_of_ascii c in
  if (n =? 34)%nat then "\" ++ dq
  else if (n =? 92)%nat then "\\"
  else if (n =? 8)%nat then "\b"
  else if (n =? 9)%nat then "\t"
  else if (n =? 10)%nat then "\n"
  else if (n =? 12)%nat then "\f"
  else if (n =? 13)%nat then "\r"
  else if (n <? 32)%nat then
    "\u00" ++ String (hex_digit (n / 16)%nat) (String (hex_digit (n mod 16)%nat) EmptyString)
  else String c EmptyString.

Fixpoint escape (s : string) : string :=
  match s with
  | EmptyString => EmptyString
  | String c s' => escape_char c ++ escape s'
  end.

Definition quote (s : string) : string := dq ++ escape s ++ dq.

(** [JSON.stringify] on a JSON value. *)
Fixpoint JSON_stringify (j : json) : string :=
  match j with
  | JNull => "null"
  | JBool b => if b then "true" else "false"
  | JNum z => string_of_Z z
  | JStr s => quote s
  | JArr items => "[" ++ join "," (map JSON_stringify items) ++ "]"
  | JObj fields =>
      "{" ++ join "," (map (fun kv => let '(k, v) := kv in
                                       quote k ++ ":" ++ JSON_stringify v) fields)
          ++ "}"
  end.

End JS.
Import JS.

(** ** Constants of the unified agent *)

Definition MAX_UNIFIED_ITERATIONS : Z := 30.
Definition MAX_RETRIES : Z := 3.
Definition HUMAN_INPUT_TIMEOUT : Z := 600000.
Definition HUMAN_INPUT_CHECK_INTERVAL : Z := 500.

Definition GLOW_ENABLED_TOOLS : list string :=
  ["click"; "type"; "clear"; "moondream_visual_click"; "moondream_visual_type";
   "scroll"; "navigate"; "key"; "tab_open"; "tab_focus"; "tab_close"; "extract"].

Definition PROHIBITED_TAGS : list string :=
  ["<browser-state>"; "<system-reminder>"; "</browser-state>"; "</system-reminder>"].

(** ** Data model *)

(** [SimpleExecutionEntry]: one entry per tool call, or a summary. *)
Record SimpleExecutionEntry := {
  iteration : Z;
  tool : option string;
  args : option json;
  result : option string;
  summary : option string;
  timestamp : Z
}.

Record UnifiedResult := {
  doneToolCalled : bool;
  requiresHumanInput : bool
}.

(** A tool call of the model's structured output. *)
Record ToolCall := {
  tc_name : string;
  tc_args : json;
  tc_id : option string
}.

(** What [jsonParseToolOutput] yields, as far as the agent reads it: the
    truthiness of the fields [ok] and [requiresHumanInput]. *)
Record ParsedResult := {
  parsed_ok : bool;
  parsed_requiresHumanInput : bool
}.

Inductive MessageType := thinking | assistant | error.

(** A message handed to [pubsub.publishMessage]; [msgId] is [None] when
    [PubSub.createMessage] picks the identifier itself. *)
Record PubSubMessage := {
  msgId : option string;
  content : string;
  msgType : MessageType
}.

Record PredefinedPlan := {
  plan_name : string;
  plan_goal : string;
  plan_steps : list string
}.

Inductive ExecutionMode :=
| Dynamic
| Predefined (plan : PredefinedPlan).

(** The parts of the three messages sent to the model that vary from one
    invocation to the next (the fixed template text is left out). *)
Record Prompt := {
  prompt_mode : ExecutionMode;
  prompt_task : string;
  prompt_iterations : Z;
  prompt_errors : Z;
  prompt_executionHistory : string;
  prompt_browserState : string
}.

(** A promise, once settled. *)
Inductive Settled (A : Type) :=
| Fulfilled (a : A)
| Rejected (reason : string).
Arguments Fulfilled {A} a.
Arguments Rejected {A} reason.

Inductive HumanAction := action_done | action_abort.
Inductive HumanInputOutcome := human_done | human_abort | human_timeout.

(** How one tool call was dispatched. *)
Inductive Dispatch :=
| UnknownTool
| HandlerReturned (output : string)
| HandlerThrew (message : string).

(** Ghost trace of the interactions with the collaborators, oldest first. *)
Inductive Event :=
| EvPublish (m : PubSubMessage)
| EvModelCall (p : Prompt)
| EvDispatch (name : string) (arguments : json) (d : Dispatch)
| EvSummarize (maxTokens : Z) (task history : string)
| EvQueueReminder (text : string).

(** The fields of a [LocalAgent] instance, the two metrics it increments
    and the ghost trace.  [metric_observations] and [metric_errors] count
    the agent's own calls of [incrementMetric], and the trace holds the
    agent's own publications: the tools are given the same execution
    context and channel, and what a tool counts or publishes itself is
    part of what its handler does to the world. *)
Record Agent := {
  iterations : Z;
  consecutiveNoToolCalls : Z;
  executionHistory : list SimpleExecutionEntry;
  metric_observations : Z;
  metric_errors : Z;
  trace : list Event
}.

Definition new_agent : Agent :=
  {| iterations := 0; consecutiveNoToolCalls := 0; executionHistory := [];
     metric_observations := 0; metric_errors := 0; trace := [] |}.

Definition set_iterations (n : Z) (a : Agent) : Agent :=
  {| iterations := n; consecutiveNoToolCalls := consecutiveNoToolCalls a;
     executionHistory := executionHistory a;
     metric_observations := metric_observations a;
     metric_errors := metric_errors a; trace := trace a |}.

Definition set_consecutiveNoToolCalls (n : Z) (a : Agent) : Agent :=
  {| iterations := iterations a; consecutiveNoToolCalls := n;
     executionHistory := executionHistory a;
     metric_observations := metric_observations a;
     metric_errors := metric_errors a; trace := trace a |}.

Definition set_executionHistory (h : list SimpleExecutionEntry) (a : Agent) : Agent :=
  {| iterations := iterations a; consecutiveNoToolCalls := consecutiveNoToolCalls a;
     executionHistory := h;
     metric_observations := metric_observations a;
     metric_errors := metric_errors a; trace := trace a |}.

Definition incr_observations (a : Agent) : Agent :=
  {| iterations := iterations a; consecutiveNoToolCalls := consecutiveNoToolCalls a;
     executionHistory := executionHistory a;
     metric_observations := metric_observations a + 1;
     metric_errors := metric_errors a; trace := trace a |}.

Definition incr_errors (a : Agent) : Agent :=
  {| iterations := iterations a; consecutiveNoToolCalls := consecutiveNoToolCalls a;
     executionHistory := executionHistory a;
     metric_observations := metric_observations a;
     metric_errors := metric_errors a + 1; trace := trace a |}.

Definition record_event (e : Event) (a : Agent) : Agent :=
  {| iterations := iterations a; consecutiveNoToolCalls := consecutiveNoToolCalls a;
     executionHistory := executionHistory a;
     metric_observations := metric_observations a;
     metric_errors := metric_errors a; trace := trace a ++ [e] |}.

(** ** Rendering of the execution history *)

Definition or_undefined (o : option string) : string :=
  match o with Some s => s | None => "undefined" end.

Definition is_summary (entry : SimpleExecutionEntry) : bool :=
  match summary entry with Some s => truthy s | None => false end.

(** The callback of [executionHistory.map] in [_buildExecutionHistoryContext]. *)
Definition render_entry (entry : SimpleExecutionEntry) : string :=
  if is_summary entry then
    "=== ITERATIONS 1-" ++ string_of_Z (iteration entry) ++ " SUMMARY ===" ++ nl
      ++ or_undefined (summary entry)
  else
    "Iteration " ++ string_of_Z (iteration entry) ++ ": Tool Call: "
      ++ or_undefined (tool entry) ++ "("
      ++ or_undefined (option_map JSON_stringify (args entry))
      ++ ") Tool Result: " ++ or_undefined (result entry).

Definition render_history (h : list SimpleExecutionEntry) : string :=
  join (nl ++ nl) (map render_entry h).

(** [JSON.stringify({ ok: false, error: errorMsg })]. *)
Definition error_result (errorMsg : string) : string :=
  JSON_stringify (JObj [("ok", JBool false); ("error", JStr errorMsg)]).

(** The tool result recorded for a dispatch. *)
Definition result_of_dispatch (name : string) (d : Dispatch) : string :=
  match d with
  | UnknownTool => error_result ("Unknown tool: " ++ name)
  | HandlerReturned output => output
  | HandlerThrew message => error_result ("Tool execution failed: " ++ message)
  end.

(** ** Exceptions and outcomes *)

Inductive Exn :=
| AbortError (message : option string)
| Error (message : string).

(** [Unfinished]: the poll loop of the human-input wait was cut off by the
    bound put on the number of polls; no handler catches it. *)
Inductive Outcome (A : Type) :=
| Returned (value : A)
| Thrown (e : Exn)
| Unfinished.
Arguments Returned {A} value.
Arguments Thrown {A} e.
Arguments Unfinished {A}.

Definition exn_message (e : Exn) : string :=
  match e with
  | AbortError (Some m) => m
  | AbortError None => EmptyString
  | Error m => m
  end.

(** ** External collaborators

    What the agent reaches outside its own fields: the execution context
    (cancellation signal, human-input state, metrics being kept with the
    agent), the clock, the tool registry, the model and the summarizer.
    [ToolManager], [TokenCounter], [jsonParseToolOutput],
    [invokeWithRetry], [PubSub] and the LangChain chunk operations are not
    among the sources: they are parameters, with the types the agent
    uses them at.  The construction of the browser-state message and of
    the prompt texts, which no property below depends on, is taken as a
    whole: the first as a collaborator that may fail, the second as the
    record [Prompt] of the values interpolated in the templates. *)

Inductive ChunkContent :=
| ContentString (s : string)
| ContentOther.

(** What iterating the model's stream yields: chunks, then the end of the
    stream or a failure. *)
Record LLMStream (Chunk : Type) := {
  stream_chunks : list Chunk;
  stream_failure : option string
}.
Arguments stream_chunks {Chunk} _.
Arguments stream_failure {Chunk} _.

Record SummaryRequest := {
  sum_maxTokens : Z;
  sum_task : string;
  sum_history : string;
  sum_retries : Z
}.

Record Collaborators (World Chunk : Type) := {
  (* executionContext *)
  abortSignal_aborted : World -> bool;
  shouldAbort : World -> bool;
  getMaxTokens : Z;
  getHumanInputRequestId : World -> option string;
  getHumanInputResponse : World -> option HumanAction;
  clearHumanInputState : World -> World;
  (* clock and timers *)
  Date_now : World -> Z;
  setTimeout : Z -> World -> World;
  (* configuration *)
  isDevelopmentMode : bool;
  (* tool registry, glow service, result parser *)
  toolManager_get : string -> option (json -> World -> Settled string * World);
  startGlow : World -> World;
  jsonParseToolOutput : string -> ParsedResult;
  (* token counter, prompts, browser state *)
  TokenCounter_countMessage : string -> Z;
  systemPromptTokens : ExecutionMode -> Z;
  getBrowserStateMessage : World -> Settled string * World;
  (* language model and LangChain chunks *)
  llm_stream : Prompt -> World -> Settled (LLMStream Chunk) * World;
  next_chunk : World -> World;
  chunk_content : Chunk -> ChunkContent;
  chunk_tool_calls : Chunk -> list ToolCall;
  chunk_concat : Chunk -> Chunk -> Chunk;
  PubSub_generateId : string -> World -> string * World;
  (* summarizer: getLLM followed by invokeWithRetry *)
  invokeWithRetry : SummaryRequest -> World -> Settled (option string) * World
}.
Arguments abortSignal_aborted {World Chunk} _ _.
Arguments shouldAbort {World Chunk} _ _.
Arguments getMaxTokens {World Chunk} _.
Arguments getHumanInputRequestId {World Chunk} _ _.
Arguments getHumanInputResponse {World Chunk} _ _.
Arguments clearHumanInputState {World Chunk} _ _.
Arguments Date_now {World Chunk} _ _.
Arguments setTimeout {World Chunk} _ _ _.
Arguments isDevelopmentMode {World Chunk} _.
Arguments toolManager_get {World Chunk} _ _.
Arguments startGlow {World Chunk} _ _.
Arguments jsonParseToolOutput {World Chunk} _ _.
Arguments TokenCounter_countMessage {World Chunk} _ _.
Arguments systemPromptTokens {World Chunk} _ _.
Arguments getBrowserStateMessage {World Chunk} _ _.
Arguments llm_stream {World Chunk} _ _ _.
Arguments next_chunk {World Chunk} _ _.
Arguments chunk_content {World Chunk} _ _.
Arguments chunk_tool_calls {World Chunk} _ _.
Arguments chunk_concat {World Chunk} _ _ _.
Arguments PubSub_generateId {World Chunk} _ _ _.
Arguments invokeWithRetry {World Chunk} _ _ _.

(** The dispatches recorded in a piece of trace. *)
Fixpoint dispatches (tr : list Event) : list (string * json * Dispatch) :=
  match tr with
  | [] => []
  | EvDispatch name arguments d :: tr' => (name, arguments, d) :: dispatches tr'
  | _ :: tr' => dispatches tr'
  end.

(** The model invocations recorded in a piece of trace. *)
Fixpoint model_calls (tr : list Event) : list Prompt :=
  match tr with
  | [] => []
  | EvModelCall p :: tr' => p :: model_calls tr'
  | _ :: tr' => model_calls tr'
  end.

(** The messages published in a piece of trace. *)
Fixpoint publications (tr : list Event) : list PubSubMessage :=
  match tr with
  | [] => []
  | EvPublish m :: tr' => m :: publications tr'
  | _ :: tr' => publications tr'
  end.

Section LocalAgent.

Context {World Chunk : Type}.
Variable C : Collaborators World Chunk.

(** *** The agent monad: agent fields and world threaded, exceptions *)

Definition M (A : Type) : Type := Agent -> World -> Outcome A * Agent * World.

Definition ret {A} (x : A) : M A := fun a w => (Returned x, a, w).

Definition bind {A B} (c : M A) (k : A -> M B) : M B :=
  fun a w =>
    match c a w with
    | (Returned x, a', w') => k x a' w'
    | (Thrown e, a', w') => (Thrown e, a', w')
    | (Unfinished, a', w') => (Unfinished, a', w')
    end.

Definition throw {A} (e : Exn) : M A := fun a w => (Thrown e, a, w).

Definition try_catch {A} (c : M A) (handler : Exn -> M A) : M A :=
  fun a w =>
    match c a w with
    | (Thrown e, a', w') => handler e a' w'
    | r => r
    end.

Definition get : M Agent := fun a w => (Returned a, a, w).
Definition modify (f : Agent -> Agent) : M unit := fun a w => (Returned tt, f a, w).
Definition observe {A} (f : World -> A) : M A := fun a w => (Returned (f w), a, w).
Definition step (f : World -> World) : M unit := fun a w => (Returned tt, a, f w).
Definition call {A} (f : World -> A * World) : M A :=
  fun a w => let '(x, w') := f w in (Returned x, a, w').

(** Awaiting a promise: a rejection is thrown. *)
Definition await {A} (f : World -> Settled A * World) : M A :=
  fun a w =>
    match f w with
    | (Fulfilled x, w') => (Returned x, a, w')
    | (Rejected reason, w') => (Thrown (Error reason), a, w')
    end.

Notation "x <- c1 ;; c2" := (bind c1 (fun x => c2))
  (at level 61, c1 at next level, right associativity).
Notation "c1 ;; c2" := (bind c1 (fun _ => c2))
  (at level 61, right associativity).

(** *** Small methods *)

Definition checkIfAborted : M unit :=
  aborted <- observe (abortSignal_aborted C) ;;
  if aborted then throw (AbortError None) else ret tt.

Definition publishMessage (m : PubSubMessage) : M unit :=
  modify (record_event (EvPublish m)).

(** [_publishMessage(content, type)]. *)
Definition _publishMessage (text : string) (type : MessageType) : M unit :=
  publishMessage {| msgId := None; content := text; msgType := type |}.

(** [_emitDevModeDebug(action, details)] with [maxLength = 60]; the
    length is counted in the characters of the byte string. *)
Definition _emitDevModeDebug (action : string) (details : option string) : M unit :=
  if isDevelopmentMode C then
    let message :=
      match details with
      | Some d =>
          if truthy d then
            action ++ ": " ++
              (if (60 <? String.length d)%nat then substring 0 60 d ++ "..." else d)
          else action
      | None => action
      end in
    _publishMessage ("[DEV MODE] " ++ message) thinking
  else ret tt.

Definition _maybeStartGlowAnimation (toolName : string) : M unit :=
  if existsb (String.eqb toolName) GLOW_ENABLED_TOOLS
  then step (startGlow C) else ret tt.

(** *** Tool dispatch: [_processToolCalls] *)

(** Lookup and execution of one tool, yielding [toolResult]; the handler,
    wrapped for metrics or not, is the function the registry gives. *)
Definition invokeTool (toolName : string) (arguments : json) : M string :=
  match toolManager_get C toolName with
  | None =>
      let errorMsg := "Unknown tool: " ++ toolName in
      modify (record_event (EvDispatch toolName arguments UnknownTool)) ;;
      _emitDevModeDebug "Error" (Some errorMsg) ;;
      ret (error_result errorMsg)
  | Some toolFunc =>
      try_catch
        (fun a w =>
           match toolFunc arguments w with
           | (Fulfilled output, w') =>
               (Returned output,
                record_event (EvDispatch toolName arguments (HandlerReturned output)) a, w')
           | (Rejected message, w') =>
               (Thrown (Error message),
                record_event (EvDispatch toolName arguments (HandlerThrew message)) a, w')
           end)
        (fun e =>
           let errorMsg := "Tool execution failed: " ++ exn_message e in
           modify incr_errors ;;
           _emitDevModeDebug ("Error executing " ++ toolName) (Some errorMsg) ;;
           ret (error_result errorMsg))
  end.

(** The two checks for special tool outcomes that end the loop body. *)
Definition noteSpecialOutcome (toolName : string) (parsedResult : ParsedResult)
           (result : UnifiedResult) : UnifiedResult :=
  let result1 :=
    if (toolName =? "done")%string && parsed_ok parsedResult
    then {| doneToolCalled := true; requiresHumanInput := requiresHumanInput result |}
    else result in
  if (toolName =? "human_input")%string && parsed_ok parsedResult
     && parsed_requiresHumanInput parsedResult
  then {| doneToolCalled := doneToolCalled result1; requiresHumanInput := true |}
  else result1.

(** The body of the [for] loop over the batch. *)
Definition processToolCall (toolCall : ToolCall) (result : UnifiedResult)
  : M UnifiedResult :=
  checkIfAborted ;;
  let toolName := tc_name toolCall in
  let arguments := tc_args toolCall in
  _emitDevModeDebug ("Calling tool " ++ toolName ++ " with args")
                   (Some (JSON_stringify arguments)) ;;
  _maybeStartGlowAnimation toolName ;;
  toolResult <- invokeTool toolName arguments ;;
  let parsedResult := jsonParseToolOutput C toolResult in
  now <- observe (Date_now C) ;;
  modify (fun a =>
            set_executionHistory
              (executionHistory a ++
                 [{| iteration := iterations a; tool := Some toolName;
                     args := Some arguments; result := Some toolResult;
                     summary := None; timestamp := now |}]) a) ;;
  ret (noteSpecialOutcome toolName parsedResult result).

Fixpoint processToolCalls_from (toolCalls : list ToolCall) (result : UnifiedResult)
  : M UnifiedResult :=
  match toolCalls with
  | [] => ret result
  | toolCall :: rest =>
      result' <- processToolCall toolCall result ;;
      processToolCalls_from rest result'
  end.

Definition _processToolCalls (toolCalls : list ToolCall) : M UnifiedResult :=
  processToolCalls_from toolCalls
    {| doneToolCalled := false; requiresHumanInput := false |}.

(** *** Context budget: [_buildExecutionHistoryContext] *)

Definition Qltb (x y : Q) : bool := negb (Qle_bool y x).

(** [_summarizeExecutionHistory]; [getLLM] and [invokeWithRetry] are one
    collaborator, asked for at most [tokenLimit] tokens of output. *)
Definition _summarizeExecutionHistory (history userTask : string) (tokenLimit : Q)
  : M string :=
  let tokenLimit1 := if Qltb tokenLimit (inject_Z 100) then inject_Z 100 else tokenLimit in
  let tokenLimit2 := Qfloor tokenLimit1 in
  modify (record_event (EvSummarize tokenLimit2 userTask history)) ;;
  result <- await (invokeWithRetry C
                     {| sum_maxTokens := tokenLimit2; sum_task := userTask;
                        sum_history := history; sum_retries := MAX_RETRIES |}) ;;
  ret (match result with Some text => text | None => EmptyString end).

Definition _buildExecutionHistoryContext (tokenLimit : Q) (userTask : string)
  : M string :=
  a <- get ;;
  match executionHistory a with
  | [] => ret "No previous actions attempted"
  | _ :: _ =>
      let fullHistory := render_history (executionHistory a) in
      let fullHistoryTokens := TokenCounter_countMessage C fullHistory in
      if Qltb tokenLimit (inject_Z fullHistoryTokens) then
        try_catch
          (summaryText <- _summarizeExecutionHistory fullHistory userTask tokenLimit ;;
           now <- observe (Date_now C) ;;
           modify (fun a =>
                     set_executionHistory
                       [{| iteration := iterations a - 1; tool := None; args := None;
                           result := None; summary := Some summaryText;
                           timestamp := now |}] a) ;;
           ret summaryText)
          (fun _ =>
             a' <- get ;;
             ret (render_history (slice_last 5 (executionHistory a'))))
      else ret fullHistory
  end.

(** *** Streaming filter: [_invokeLLMWithStreaming] *)

Record StreamState := {
  accumulatedChunk : option Chunk;
  accumulatedText : string;
  hasStartedThinking : bool;
  currentMsgId : option string;
  hasProhibitedContent : bool
}.

Definition initial_stream_state : StreamState :=
  {| accumulatedChunk := None; accumulatedText := EmptyString;
     hasStartedThinking := false; currentMsgId := None;
     hasProhibitedContent := false |}.

Definition SYSTEM_REMINDER : string :=
  "I will never output <browser-state> or <system-reminder> tags or their contents. These are for my internal reference only. If I have completed all actions, I will complete the task and call 'done' tool.".

Definition detect_prohibited (text : string) : option string :=
  find (fun tag => includes text tag) PROHIBITED_TAGS.

(** The part of the loop body guarded by
    [chunk.content && typeof chunk.content === "string"]. *)
Definition streamText (text : string) (s : StreamState) : M StreamState :=
  let accText := accumulatedText s ++ text in
  prohibited <-
    (if negb (hasProhibitedContent s) then
       match detect_prohibited accText with
       | Some _ =>
           match currentMsgId s with
           | Some id =>
               publishMessage {| msgId := Some id; content := "Processing...";
                                 msgType := thinking |}
           | None => ret tt
           end ;;
           modify (record_event (EvQueueReminder SYSTEM_REMINDER)) ;;
           modify incr_errors ;;
           ret true
       | None => ret false
       end
     else ret true) ;;
  if negb prohibited then
    started <-
      (if negb (hasStartedThinking s) then
         id <- call (PubSub_generateId C "msg_assistant") ;;
         ret (true, Some id)
       else ret (hasStartedThinking s, currentMsgId s)) ;;
    match snd started with
    | Some id =>
        publishMessage {| msgId := Some id; content := accText; msgType := thinking |}
    | None => ret tt
    end ;;
    ret {| accumulatedChunk := accumulatedChunk s; accumulatedText := accText;
           hasStartedThinking := fst started; currentMsgId := snd started;
           hasProhibitedContent := false |}
  else
    ret {| accumulatedChunk := accumulatedChunk s; accumulatedText := accText;
           hasStartedThinking := hasStartedThinking s; currentMsgId := currentMsgId s;
           hasProhibitedContent := true |}.

(** [accumulatedChunk = !accumulatedChunk ? chunk : accumulatedChunk.concat(chunk)]. *)
Definition accumulate (acc : option Chunk) (chunk : Chunk) : option Chunk :=
  match acc with
  | None => Some chunk
  | Some c => Some (chunk_concat C c chunk)
  end.

(** The body of the [for await] loop. *)
Definition streamChunk (chunk : Chunk) (s : StreamState) : M StreamState :=
  checkIfAborted ;;
  s1 <- match chunk_content C chunk with
        | ContentString text => if truthy text then streamText text s else ret s
        | ContentOther => ret s
        end ;;
  ret {| accumulatedChunk := accumulate (accumulatedChunk s1) chunk;
         accumulatedText := accumulatedText s1;
         hasStartedThinking := hasStartedThinking s1;
         currentMsgId := currentMsgId s1;
         hasProhibitedContent := hasProhibitedContent s1 |}.

Fixpoint streamChunks (chunks : list Chunk) (s : StreamState) : M StreamState :=
  match chunks with
  | [] => ret s
  | chunk :: rest =>
      step (next_chunk C) ;;
      s' <- streamChunk chunk s ;;
      streamChunks rest s'
  end.

Record AIMessage := {
  ai_content : ChunkContent;
  ai_tool_calls : list ToolCall
}.

Definition _invokeLLMWithStreaming (prompt : Prompt) : M AIMessage :=
  modify (record_event (EvModelCall prompt)) ;;
  stream <- await (llm_stream C prompt) ;;
  s <- streamChunks (stream_chunks stream) initial_stream_state ;;
  match stream_failure stream with
  | Some reason => throw (Error reason)
  | None => ret tt
  end ;;
  match currentMsgId s with
  | Some id =>
      if hasStartedThinking s && negb (hasProhibitedContent s)
         && truthy (trim (accumulatedText s))
      then publishMessage {| msgId := Some id; content := accumulatedText s;
                             msgType := thinking |}
      else ret tt
  | None => ret tt
  end ;;
  match accumulatedChunk s with
  | None => ret {| ai_content := ContentString EmptyString; ai_tool_calls := [] |}
  | Some acc => ret {| ai_content := chunk_content C acc;
                       ai_tool_calls := chunk_tool_calls C acc |}
  end.

(** *** One iteration: [_runDynamicAgent] and [_runPredefinedAgent]

    The two methods differ in the prompt only, which [mode] selects.
    The token limit handed to the context builder is the exact product
    by 7/10, where the source multiplies floating-point numbers by 0.7;
    the builder is stated for every limit. *)

Definition NO_TOOL_CALLS_ERROR : string :=
  "Executor failed for " ++ string_of_Z MAX_RETRIES ++ " retries - no tool calls generated".

Definition no_result : UnifiedResult :=
  {| doneToolCalled := false; requiresHumanInput := false |}.

Definition runAgent (mode : ExecutionMode) (task : string) : M UnifiedResult :=
  try_catch
    (modify incr_observations ;;
     executionHistoryContext <-
       _buildExecutionHistoryContext
         (Qmult (inject_Z (getMaxTokens C - systemPromptTokens C mode)) (7 # 10)) task ;;
     browserState <- await (getBrowserStateMessage C) ;;
     a <- get ;;
     llmResponse <-
       _invokeLLMWithStreaming
         {| prompt_mode := mode; prompt_task := task;
            prompt_iterations := iterations a; prompt_errors := metric_errors a;
            prompt_executionHistory := executionHistoryContext;
            prompt_browserState := browserState |} ;;
     match ai_tool_calls llmResponse with
     | _ :: _ =>
         modify (set_consecutiveNoToolCalls 0) ;;
         result <- _processToolCalls (ai_tool_calls llmResponse) ;;
         ret {| doneToolCalled := doneToolCalled result;
                requiresHumanInput := requiresHumanInput result |}
     | [] =>
         modify (fun a => set_consecutiveNoToolCalls (consecutiveNoToolCalls a + 1) a) ;;
         a' <- get ;;
         if MAX_RETRIES <=? consecutiveNoToolCalls a'
         then throw (Error NO_TOOL_CALLS_ERROR)
         else ret no_result
     end)
    (fun _ => modify incr_errors ;; ret no_result).

Definition _runDynamicAgent (task : string) : M UnifiedResult := runAgent Dynamic task.

Definition _runPredefinedAgent (task : string) (predefinedPlan : PredefinedPlan)
  : M UnifiedResult := runAgent (Predefined predefinedPlan) task.

(** *** Human-input wait: [_waitForHumanInput]

    [polls] bounds the number of timer waits of the poll loop. *)

Definition unfinished {A} : M A := fun a w => (Unfinished, a, w).

Fixpoint pollHumanInput (polls : nat) (startTime : Z) : M HumanInputOutcome :=
  aborted <- observe (shouldAbort C) ;;
  if aborted then ret human_abort
  else
    response <- observe (getHumanInputResponse C) ;;
    match response with
    | Some action_done => ret human_done
    | Some action_abort => ret human_abort
    | None =>
        now <- observe (Date_now C) ;;
        if HUMAN_INPUT_TIMEOUT <? now - startTime then
          _publishMessage "⏱️ Human input timed out after 10 minutes" error ;;
          ret human_timeout
        else
          match polls with
          | O => unfinished
          | S polls' =>
              step (setTimeout C HUMAN_INPUT_CHECK_INTERVAL) ;;
              pollHumanInput polls' startTime
          end
    end.

Definition _waitForHumanInput (polls : nat) : M HumanInputOutcome :=
  startTime <- observe (Date_now C) ;;
  requestId <- observe (getHumanInputRequestId C) ;;
  match requestId with
  | None => ret human_abort
  | Some _ => pollHumanInput polls startTime
  end.

(** The [if (result.requiresHumanInput)] block shared by both loops. *)
Definition handleHumanInput (polls : nat) (result : UnifiedResult) : M unit :=
  if requiresHumanInput result then
    humanResponse <- _waitForHumanInput polls ;;
    match humanResponse with
    | human_abort =>
        _publishMessage "❌ Task aborted by human" assistant ;;
        throw (AbortError (Some "Task aborted by human"))
    | _ =>
        _publishMessage "✅ Human completed manual action. Continuing..." thinking ;;
        step (clearHumanInputState C)
    end
  else ret tt.

(** *** The loops: [_executeDynamic] and [_executePredefined]

    [fuel] bounds the number of passes of the [while] loop; the methods
    start it with the number of iterations left to the cap. *)

Fixpoint _executeDynamic_loop (polls fuel : nat) (task : string) : M bool :=
  a <- get ;;
  if iterations a <? MAX_UNIFIED_ITERATIONS then
    match fuel with
    | O => unfinished
    | S fuel' =>
        checkIfAborted ;;
        modify (fun a => set_iterations (iterations a + 1) a) ;;
        result <- _runDynamicAgent task ;;
        handleHumanInput polls result ;;
        if doneToolCalled result then
          _publishMessage "Task completed successfully" assistant ;;
          ret true
        else _executeDynamic_loop polls fuel' task
    end
  else ret false.

Definition iterations_left (a : Agent) : nat :=
  Z.to_nat (MAX_UNIFIED_ITERATIONS - iterations a).

Definition MAX_ITERATIONS_ERROR : string :=
  "Maximum unified iterations (" ++ string_of_Z MAX_UNIFIED_ITERATIONS ++ ") reached".

Definition _executeDynamic (polls : nat) (task : string) : M unit :=
  _publishMessage "Starting unified task execution..." thinking ;;
  a0 <- get ;;
  done <- _executeDynamic_loop polls (iterations_left a0) task ;;
  a <- get ;;
  if negb done && (MAX_UNIFIED_ITERATIONS <=? iterations a) then
    _publishMessage ("Task did not complete within " ++ string_of_Z MAX_UNIFIED_ITERATIONS
               ++ " iterations") error ;;
    throw (Error MAX_ITERATIONS_ERROR)
  else ret tt.

Fixpoint _executePredefined_loop (polls fuel : nat) (task : string)
         (predefinedPlan : PredefinedPlan) : M bool :=
  a <- get ;;
  if iterations a <? MAX_UNIFIED_ITERATIONS then
    match fuel with
    | O => unfinished
    | S fuel' =>
        checkIfAborted ;;
        modify (fun a => set_iterations (iterations a + 1) a) ;;
        result <- _runPredefinedAgent task predefinedPlan ;;
        if doneToolCalled result then
          _publishMessage "Predefined task completed successfully" assistant ;;
          ret true
        else
          handleHumanInput polls result ;;
          _executePredefined_loop polls fuel' task predefinedPlan
    end
  else ret false.

Definition _executePredefined (polls : nat) (task : string)
           (predefinedPlan : PredefinedPlan) : M unit :=
  _publishMessage ("Starting predefined task: " ++ plan_name predefinedPlan) thinking ;;
  a0 <- get ;;
  done <- _executePredefined_loop polls (iterations_left a0) task predefinedPlan ;;
  a <- get ;;
  if negb done && (MAX_UNIFIED_ITERATIONS <=? iterations a) then
    _publishMessage ("Predefined task did not complete within "
               ++ string_of_Z MAX_UNIFIED_ITERATIONS ++ " iterations") error ;;
    throw (Error MAX_ITERATIONS_ERROR)
  else ret tt.

(** *** [execute]: error reporting around a run *)

Definition _handleExecutionError (e : Exn) : M unit :=
  match e with
  | AbortError _ => ret tt
  | Error errorMessage => _publishMessage ("Error: " ++ errorMessage) error
  end.

(** [_cleanup]; [_initialize] resets the same three fields. *)
Definition _cleanup (a : Agent) : Agent :=
  set_iterations 0 (set_consecutiveNoToolCalls 0 (set_executionHistory [] a)).

(** [execute] once the mode is settled and the tools are registered and
    bound, that is from the point where [_initialize] has returned: the
    state is reset before the run, errors are reported by
    [_handleExecutionError] and rethrown, and [_cleanup] runs at the end.
    The time stamps put on the execution metrics, the current task set
    on the execution context, the logging and the stopping of the glow
    animations in the [finally] block are left out; a failure of
    [_initialize] itself is reported like any other error and is not
    among the outcomes below. *)
Definition execute (polls : nat) (mode : ExecutionMode) (task : string) : M unit :=
  fun a w =>
    let run :=
      modify _cleanup ;;
      match mode with
      | Dynamic => _executeDynamic polls task
      | Predefined predefinedPlan => _executePredefined polls task predefinedPlan
      end in
    match run a w with
    | (Thrown e, a1, w1) =>
        match _handleExecutionError e a1 w1 with
        | (_, a2, w2) => (Thrown e, _cleanup a2, w2)
        end
    | (Returned x, a1, w1) => (Returned x, _cleanup a1, w1)
    | (Unfinished, a1, w1) => (Unfinished, a1, w1)
    end.

End LocalAgent.

(** * Vocabulary of the properties *)

(** An entry without its timestamp. *)
Definition entry_view (e : SimpleExecutionEntry)
  : Z * option string * option json * option string * option string :=
  (iteration e, tool e, args e, result e, summary e).

(** The history entry that records a dispatch made during iteration [it]. *)
Definition recorded (it : Z) (x : string * json * Dispatch)
  : Z * option string * option json * option string * option string :=
  let '(name, arguments, d) := x in
  (it, Some name, Some arguments, Some (result_of_dispatch name d), None).

Definition call_of (x : string * json * Dispatch) : string * json :=
  let '(name, arguments, _) := x in (name, arguments).

Definition call_sig (toolCall : ToolCall) : string * json :=
  (tc_name toolCall, tc_args toolCall).

(** The text every [ok:false] result starts with. *)
Definition OK_FALSE : string := "{" ++ quote "ok" ++ ":false,".

Definition add_trace (tr : list Event) (a : Agent) : Agent :=
  {| iterations := iterations a; consecutiveNoToolCalls := consecutiveNoToolCalls a;
     executionHistory := executionHistory a;
     metric_observations := metric_observations a;
     metric_errors := metric_errors a; trace := trace a ++ tr |}.

(** The [n] most recent entries of a sequence: its last [n] elements, in
    the order they were appended; all of them when there are fewer. *)
Definition most_recent {A : Type} (n : nat) (l : list A) : list A :=
  rev (firstn n (rev l)).

(** An entry in full.  A summary record gives the iterations it covers
    and its text; any other entry is a call record and gives its
    iteration number, the name of the tool, the arguments as JSON and
    the result payload as it was recorded, a field that is absent being
    shown as [undefined]. *)
Definition verbatim (e : SimpleExecutionEntry) : string :=
  match summary e with
  | Some (String c text) =>
      "=== ITERATIONS 1-" ++ JS.string_of_Z (iteration e) ++ " SUMMARY ==="
        ++ String "010"%char (String c text)
  | _ =>
      "Iteration " ++ JS.string_of_Z (iteration e) ++ ": Tool Call: "
        ++ match tool e with Some name => name | None => "undefined" end
        ++ "("
        ++ match args e with
           | Some arguments => JS.JSON_stringify arguments
           | None => "undefined"
           end
        ++ ") Tool Result: "
        ++ match result e with Some payload => payload | None => "undefined" end
  end.

(** Texts separated by one empty line. *)
Definition paragraphs (texts : list string) : string :=
  String.concat (String "010"%char (String "010"%char EmptyString)) texts.

Section Vocabulary.

Context {World Chunk : Type}.
Variable C : Collaborators World Chunk.

(** A dispatch event agrees with the registry and with what the handler did. *)
Definition dispatch_faithful (x : string * json * Dispatch) : Prop :=
  let '(name, arguments, d) := x in
  match d with
  | UnknownTool => toolManager_get C name = None
  | HandlerReturned output =>
      exists toolFunc w1 w2, toolManager_get C name = Some toolFunc
                             /\ toolFunc arguments w1 = (Fulfilled output, w2)
  | HandlerThrew message =>
      exists toolFunc w1 w2, toolManager_get C name = Some toolFunc
                             /\ toolFunc arguments w1 = (Rejected message, w2)
  end.

(** The counters a step leaves alone. *)
Definition same_counters (a a' : Agent) : Prop :=
  iterations a' = iterations a
  /\ consecutiveNoToolCalls a' = consecutiveNoToolCalls a.

(** A recorded entry signals completion: a [done] call whose parsed
    result is ok. *)
Definition signals_done (e : SimpleExecutionEntry) : bool :=
  match tool e, result e with
  | Some name, Some toolResult =>
      (name =? "done")%string && parsed_ok (jsonParseToolOutput C toolResult)
  | _, _ => false
  end.

(** A recorded entry signals the need for human input. *)
Definition signals_human_input (e : SimpleExecutionEntry) : bool :=
  match tool e, result e with
  | Some name, Some toolResult =>
      (name =? "human_input")%string
      && parsed_ok (jsonParseToolOutput C toolResult)
      && parsed_requiresHumanInput (jsonParseToolOutput C toolResult)
  | _, _ => false
  end.

(** The rendered history counts more tokens than [tokenLimit]. *)
Definition history_exceeds (tokenLimit : Q) (a : Agent) : bool :=
  Qltb tokenLimit
       (inject_Z (TokenCounter_countMessage C (render_history (executionHistory a)))).

(** The output budget the summarizer is given: at least 100 tokens. *)
Definition summary_budget (tokenLimit : Q) : Z :=
  Qfloor (if Qltb tokenLimit (inject_Z 100) then inject_Z 100 else tokenLimit).

(** The request [_summarizeExecutionHistory] sends for the history of [a]. *)
Definition summary_request (tokenLimit : Q) (userTask : string) (a : Agent)
  : SummaryRequest :=
  {| sum_maxTokens := summary_budget tokenLimit; sum_task := userTask;
     sum_history := render_history (executionHistory a);
     sum_retries := MAX_RETRIES |}.

(** The summary record that replaces the history. *)
Definition summary_entry (a : Agent) (text : string) (now : Z) : SimpleExecutionEntry :=
  {| iteration := iterations a - 1; tool := None; args := None; result := None;
     summary := Some text; timestamp := now |}.

(** The chunk accumulated from a whole stream. *)
Definition accumulated (chunks : list Chunk) : option Chunk :=
  fold_left (accumulate C) chunks None.

Definition tool_calls_of (acc : option Chunk) : list ToolCall :=
  match acc with
  | Some c => chunk_tool_calls C c
  | None => []
  end.

(** The chunks of a stream joined by [concat] in the order received: the
    first chunk, to which each later one is concatenated in turn; no
    chunk for an empty stream. *)
Definition concatenated (chunks : list Chunk) : option Chunk :=
  match chunks with
  | [] => None
  | first :: rest => Some (fold_left (chunk_concat C) rest first)
  end.

(** [concat] keeps the tool calls of both chunks, in order. *)
Definition concat_keeps_tool_calls : Prop :=
  forall c1 c2,
    chunk_tool_calls C (chunk_concat C c1 c2)
    = (chunk_tool_calls C c1 ++ chunk_tool_calls C c2)%list.

(** The placeholder published over the partial output, when some was shown. *)
Definition placeholder_for (currentMsgId : option string) : list Event :=
  match currentMsgId with
  | Some id => [EvPublish {| msgId := Some id; content := "Processing...";
                             msgType := thinking |}]
  | None => []
  end.

(** The cancellation signal is never raised. *)
Definition never_cancelled : Prop := forall w, abortSignal_aborted C w = false.



(** A computation never changes the iteration counter, whatever its outcome. *)
Definition keeps_iterations {A : Type} (c : @M World A) : Prop :=
  forall a w, iterations (snd (fst (c a w))) = iterations a.

(** A computation is never cut off: it returns or throws. *)
Definition finishes {A : Type} (c : @M World A) : Prop :=
  forall a w, fst (fst (c a w)) <> Unfinished.

End Vocabulary.

(** * Scripted collaborators

    A concrete world in which the model, the tools, the summarizer, the
    human and the cancelling user follow a script; the runs of the agent
    in it are computed. *)

Module Scenario.

Record SWorld := {
  clock : Z;
  model_invocations : nat;
  tool_invocations : nat;
  cancelled : bool;
  humanInputRequestId : option string;
  humanInputResponse : option HumanAction
}.

Definition initial_world : SWorld :=
  {| clock := 0; model_invocations := 0; tool_invocations := 0; cancelled := false;
     humanInputRequestId := None; humanInputResponse := None |}.

(** A chunk: its text and the tool calls it carries. *)
Definition SChunk : Type := string * list ToolCall.

Inductive ToolBehaviour :=
| Succeeds (output : string)
| Fails (message : string)
| AsksHuman (requestId output : string).

Record Script := {
  script_maxTokens : Z;
  script_systemPromptTokens : Z;
  (* the stream of the n-th model invocation *)
  script_model : nat -> Settled (LLMStream SChunk);
  script_tools : list (string * ToolBehaviour);
  script_summarizer : SummaryRequest -> Settled (option string);
  (* what the human answers while the agent waits on its first timer *)
  script_human : option HumanAction;
  (* the user cancels while the n-th tool call is in flight *)
  script_cancel_during_tool : option nat
}.

Fixpoint lookup (name : string) (table : list (string * ToolBehaviour))
  : option ToolBehaviour :=
  match table with
  | [] => None
  | (n, b) :: table' => if (n =? name)%string then Some b else lookup name table'
  end.

Definition run_tool (s : Script) (b : ToolBehaviour) (w : SWorld)
  : Settled string * SWorld :=
  let n := S (tool_invocations w) in
  let cancel :=
    match script_cancel_during_tool s with
    | Some k => (k =? n)%nat
    | None => false
    end in
  let w' := {| clock := clock w; model_invocations := model_invocations w;
               tool_invocations := n; cancelled := cancelled w || cancel;
               humanInputRequestId :=
                 match b with
                 | AsksHuman requestId _ => Some requestId
                 | _ => humanInputRequestId w
                 end;
               humanInputResponse := humanInputResponse w |} in
  match b with
  | Succeeds output => (Fulfilled output, w')
  | Fails message => (Rejected message, w')
  | AsksHuman _ output => (Fulfilled output, w')
  end.

(** A parser of tool outputs that reads the two flags off the text. *)
Definition parse_flags (output : string) : ParsedResult :=
  {| parsed_ok := includes output (quote "ok" ++ ":true");
     parsed_requiresHumanInput :=
       includes output (quote "requiresHumanInput" ++ ":true") |}.

(** A token counter of four characters to the token. *)
Definition count_tokens (text : string) : Z :=
  (Z.of_nat (String.length text) + 3) / 4.

Definition scripted (s : Script) : Collaborators SWorld SChunk :=
  {| abortSignal_aborted := cancelled;
     shouldAbort := cancelled;
     getMaxTokens := script_maxTokens s;
     getHumanInputRequestId := humanInputRequestId;
     getHumanInputResponse := humanInputResponse;
     clearHumanInputState := fun w =>
       {| clock := clock w; model_invocations := model_invocations w;
          tool_invocations := tool_invocations w; cancelled := cancelled w;
          humanInputRequestId := None; humanInputResponse := None |};
     Date_now := clock;
     setTimeout := fun ms w =>
       {| clock := clock w + ms; model_invocations := model_invocations w;
          tool_invocations := tool_invocations w; cancelled := cancelled w;
          humanInputRequestId := humanInputRequestId w;
          humanInputResponse :=
            match humanInputResponse w with
            | Some action => Some action
            | None => script_human s
            end |};
     isDevelopmentMode := false;
     toolManager_get := fun name =>
       match lookup name (script_tools s) with
       | Some b => Some (fun _ w => run_tool s b w)
       | None => None
       end;
     startGlow := fun w => w;
     jsonParseToolOutput := parse_flags;
     TokenCounter_countMessage := count_tokens;
     systemPromptTokens := fun _ => script_systemPromptTokens s;
     getBrowserStateMessage := fun w => (Fulfilled "[1] <button> Submit", w);
     llm_stream := fun _ w =>
       (script_model s (model_invocations w),
        {| clock := clock w; model_invocations := S (model_invocations w);
           tool_invocations := tool_invocations w; cancelled := cancelled w;
           humanInputRequestId := humanInputRequestId w;
           humanInputResponse := humanInputResponse w |});
     next_chunk := fun w => w;
     chunk_content := fun c => ContentString (fst c);
     chunk_tool_calls := snd;
     chunk_concat := fun c1 c2 => ((fst c1 ++ fst c2)%string, (snd c1 ++ snd c2)%list);
     PubSub_generateId := fun prefix w =>
       ((prefix ++ "_" ++ string_of_Z (Z.of_nat (model_invocations w)))%string, w);
     invokeWithRetry := fun request w => (script_summarizer s request, w) |}.

(** Building blocks of scripts. *)

Definition ok_output : string :=
  JSON_stringify (JObj [("ok", JBool true); ("output", JStr "ok")]).


Definition human_output : string :=
  JSON_stringify (JObj [("ok", JBool true); ("requiresHumanInput", JBool true)]).

Definition tool_call (name : string) : ToolCall :=
  {| tc_name := name; tc_args := JObj []; tc_id := None |}.

(** A stream of one chunk carrying [text] and [calls]. *)
Definition says (text : string) (calls : list ToolCall) : Settled (LLMStream SChunk) :=
  Fulfilled {| stream_chunks := [(text, calls)]; stream_failure := None |}.

Definition tools : list (string * ToolBehaviour) :=
  [("click", Succeeds ok_output);
   ("extract", Fails "page crashed");
   ("human_input", AsksHuman "request-1" human_output);
   ("done", Succeeds ok_output)].

Definition no_summarizer (_ : SummaryRequest) : Settled (option string) :=
  Rejected "summarizer unavailable".

Definition base_script (model : nat -> Settled (LLMStream SChunk)) : Script :=
  {| script_maxTokens := 8192; script_systemPromptTokens := 2000;
     script_model := model; script_tools := tools;
     script_summarizer := no_summarizer;
     script_human := None; script_cancel_during_tool := None |}.

(** The model never calls a tool. *)
Definition silent_model : Script :=
  base_script (fun _ => says "Let me think about this." []).


(** The model asks for human input, nobody answers, then it calls [done]. *)
Definition unanswered_request : Script :=
  base_script (fun n => match n with
                        | O => says "I need help." [tool_call "human_input"]
                        | _ => says "Finishing." [tool_call "done"]
                        end).

(** The model calls [done] at once. *)
Definition done_at_once : Script :=
  base_script (fun _ => says "Finishing." [tool_call "done"]).

(** One batch asks for human input and calls [done]; the human aborts. *)
Definition done_with_aborted_request : Script :=
  {| script_maxTokens := 8192; script_systemPromptTokens := 2000;
     script_model := fun _ => says "Almost there."
                                   [tool_call "human_input"; tool_call "done"];
     script_tools := tools; script_summarizer := no_summarizer;
     script_human := Some action_abort; script_cancel_during_tool := None |}.

(** Two clicks per iteration; the user cancels during the 59th tool
    call, the first of the batch of iteration 30. *)
Definition late_cancellation : Script :=
  {| script_maxTokens := 8192; script_systemPromptTokens := 2000;
     script_model := fun _ => says "Clicking." [tool_call "click"; tool_call "click"];
     script_tools := tools; script_summarizer := no_summarizer;
     script_human := None; script_cancel_during_tool := Some 59%nat |}.

(** The same, with the cancellation during the third tool call, the first
    of the batch of iteration 2. *)
Definition early_cancellation : Script :=
  {| script_maxTokens := 8192; script_systemPromptTokens := 2000;
     script_model := fun _ => says "Clicking." [tool_call "click"; tool_call "click"];
     script_tools := tools; script_summarizer := no_summarizer;
     script_human := None; script_cancel_during_tool := Some 3%nat |}.


(** A batch with a known tool, an unknown one, a throwing one and [done]. *)
Definition mixed_batch : list ToolCall :=
  [tool_call "click"; tool_call "fly"; tool_call "extract"; tool_call "done"].

(** A stream that leaks an internal marker across two chunks and carries
    a tool call after it. *)
Definition leaking_stream : LLMStream SChunk :=
  {| stream_chunks := [("Looking at ", [tool_call "click"]); ("the page <browser-", []);
                       ("state>[1] button", []); (" now", [tool_call "done"])];
     stream_failure := None |}.

Definition leaking_model : Script :=
  base_script (fun _ => Fulfilled leaking_stream).

Definition call_entry (i : Z) (name : string) : SimpleExecutionEntry :=
  {| iteration := i; tool := Some name; args := Some (JObj []);
     result := Some ok_output; summary := None; timestamp := 0 |}.

(** An agent in its eighth iteration with a history of seven calls. *)
Definition seasoned_agent : Agent :=
  {| iterations := 8; consecutiveNoToolCalls := 0;
     executionHistory := map (fun i => call_entry i "click") [1; 2; 3; 4; 5; 6; 7];
     metric_observations := 7; metric_errors := 0; trace := [] |}.

Definition plain_entry (i : Z) (name : string) : SimpleExecutionEntry :=
  {| iteration := i; tool := Some name; args := Some (JObj []);
     result := Some (name ++ " went through"); summary := None; timestamp := 0 |}.

(** An agent in its fifth iteration with a history of seven calls of
    various tools. *)
Definition busy_agent : Agent :=
  {| iterations := 5; consecutiveNoToolCalls := 0;
     executionHistory :=
       [plain_entry 1 "navigate"; plain_entry 1 "click"; plain_entry 2 "type";
        plain_entry 3 "click"; plain_entry 3 "scroll"; plain_entry 4 "key";
        plain_entry 4 "extract"];
     metric_observations := 4; metric_errors := 0; trace := [] |}.

(** A model whose context leaves a history budget of 35 tokens. *)
Definition small_context (summarizer : SummaryRequest -> Settled (option string))
  : Script :=
  {| script_maxTokens := 2050; script_systemPromptTokens := 2000;
     script_model := fun _ => says "Clicking." [tool_call "click"];
     script_tools := tools; script_summarizer := summarizer;
     script_human := None; script_cancel_during_tool := None |}.

(** A summary of 41 tokens, within the 100 the summarizer is allowed. *)
Definition wordy_summary : string :=
  "The user wanted to submit the form. Iterations 1 to 7 clicked the submit button; every click succeeded but the page did not change, so another approach is needed.".

Definition wordy_summarizer (request : SummaryRequest) : Settled (option string) :=
  if sum_maxTokens request <? count_tokens wordy_summary
  then Rejected "output budget too small"
  else Fulfilled (Some wordy_summary).


(** The same collaborators with a cancellation signal that is never raised. *)
Definition without_cancellation {World Chunk : Type} (C : Collaborators World Chunk)
  : Collaborators World Chunk :=
  {| abortSignal_aborted := fun _ => false;
     shouldAbort := fun _ => false;
     getMaxTokens := getMaxTokens C;
     getHumanInputRequestId := getHumanInputRequestId C;
     getHumanInputResponse := getHumanInputResponse C;
     clearHumanInputState := clearHumanInputState C;
     Date_now := Date_now C;
     setTimeout := setTimeout C;
     isDevelopmentMode := isDevelopmentMode C;
     toolManager_get := toolManager_get C;
     startGlow := startGlow C;
     jsonParseToolOutput := jsonParseToolOutput C;
     TokenCounter_countMessage := TokenCounter_countMessage C;
     systemPromptTokens := systemPromptTokens C;
     getBrowserStateMessage := getBrowserStateMessage C;
     llm_stream := llm_stream C;
     next_chunk := next_chunk C;
     chunk_content := chunk_content C;
     chunk_tool_calls := chunk_tool_calls C;
     chunk_concat := chunk_concat C;
     PubSub_generateId := PubSub_generateId C;
     invokeWithRetry := invokeWithRetry C |}.

Definition sample_prompt : Prompt :=
  {| prompt_mode := Dynamic; prompt_task := "submit the form"; prompt_iterations := 1;
     prompt_errors := 0; prompt_executionHistory := "No previous actions attempted";
     prompt_browserState := "[1] <button> Submit" |}.

Definition sample_plan : PredefinedPlan :=
  {| plan_name := "Form filler"; plan_goal := "Submit the form";
     plan_steps := ["Fill the form"; "Click submit"] |}.

(** The world in which a human-input request is pending. *)
Definition waiting_world : SWorld :=
  {| clock := 0; model_invocations := 1; tool_invocations := 1; cancelled := false;
     humanInputRequestId := Some "request-1"; humanInputResponse := None |}.

Definition outcome_of {A : Type} (run : Outcome A * Agent * SWorld) : Outcome A :=
  fst (fst run).
Definition agent_of {A : Type} (run : Outcome A * Agent * SWorld) : Agent :=
  snd (fst run).
Definition world_of {A : Type} (run : Outcome A * Agent * SWorld) : SWorld :=
  snd run.

(** The texts published during a run, in order. *)
Definition published_texts (a : Agent) : list string :=
  map content (publications (trace a)).

End Scenario.

(** * Further vocabulary: what a computation adds to the trace, what it
    keeps of the agent *)

(** The reminders queued in a piece of trace. *)
Fixpoint reminders (tr : list Event) : list string :=
  match tr with
  | [] => []
  | EvQueueReminder text :: tr' => text :: reminders tr'
  | _ :: tr' => reminders tr'
  end.

(** No message of the trace carries one of the prohibited tags. *)
Definition clean_publications (tr : list Event) : Prop :=
  Forall (fun m => detect_prohibited (content m) = None) (publications tr).

(** A summary record can only be the first entry of the history, and it
    then covers iterations strictly before [now] and before every entry
    that follows it. *)
Definition summary_leads (now : Z) (h : list SimpleExecutionEntry) : Prop :=
  match h with
  | [] => True
  | e :: rest =>
      Forall (fun e' => summary e' = None) rest
      /\ (summary e <> None ->
          iteration e < now /\ Forall (fun e' => iteration e < iteration e') rest)
  end.

(** The history is in iteration order, no entry is ahead of the iteration
    counter, and a summary record comes first. *)
Definition history_ordered (a : Agent) : Prop :=
  Sorted Z.le (map iteration (executionHistory a))
  /\ Forall (fun e => iteration e <= iterations a) (executionHistory a)
  /\ summary_leads (iterations a) (executionHistory a).

Section TraceVocabulary.

Context {World : Type}.

(** Whatever its outcome, a computation only appends to the trace, and
    what it appends satisfies [P]. *)
Definition emits {A : Type} (P : list Event -> Prop) (c : @M World A) : Prop :=
  forall a w, exists tr, trace (snd (fst (c a w))) = (trace a ++ tr)%list /\ P tr.

(** Whatever its outcome, a computation keeps the property [I] of the agent. *)
Definition preserves {A : Type} (I : Agent -> Prop) (c : @M World A) : Prop :=
  forall a w, I a -> I (snd (fst (c a w))).

End TraceVocabulary.

(** Each timer moves the clock forward by at least its delay. *)
Definition clock_advances {World Chunk : Type} (C : Collaborators World Chunk) : Prop :=
  forall ms w, Date_now C w + ms <= Date_now C (setTimeout C ms w).

(** The trace of a computation that does not invoke the model. *)
Definition no_model_call (tr : list Event) : Prop := model_calls tr = [].

(** The model invocations of a piece of trace carry strictly increasing
    iteration numbers, all above [lo] and none above the cap, and the
    given mode and task. *)
Definition calls_within (mode : ExecutionMode) (task : string) (lo : Z)
           (tr : list Event) : Prop :=
  StronglySorted Z.lt (map prompt_iterations (model_calls tr))
  /\ Forall (fun p => lo < prompt_iterations p <= MAX_UNIFIED_ITERATIONS
                      /\ prompt_mode p = mode /\ prompt_task p = task)
            (model_calls tr).

(** The message a loop publishes when the model has called [done]. *)
Definition completion_message (mode : ExecutionMode) : PubSubMessage :=
  {| msgId := None;
     content := match mode with
                | Dynamic => "Task completed successfully"
                | Predefined _ => "Predefined task completed successfully"
                end;
     msgType := assistant |}.

(** The message a loop publishes when the iteration cap is reached. *)
Definition limit_message (mode : ExecutionMode) : PubSubMessage :=
  {| msgId := None;
     content := match mode with
                | Dynamic => "Task did not complete within 30 iterations"
                | Predefined _ => "Predefined task did not complete within 30 iterations"
                end;
     msgType := error |}.

(** The two cancellation errors: the one of [checkIfAborted] and the one
    raised when the human aborts. *)
Definition is_cancellation (e : Exn) : Prop :=
  e = AbortError None \/ e = AbortError (Some "Task aborted by human").

(** How a loop can end: with the completion message as the last event,
    at the iteration cap, or by a cancellation. *)
Definition loop_outcome (mode : ExecutionMode) (o : Outcome bool) (a' : Agent) : Prop :=
  match o with
  | Returned true => exists tr, trace a' = (tr ++ [EvPublish (completion_message mode)])%list
  | Returned false => MAX_UNIFIED_ITERATIONS <= iterations a'
  | Thrown e => is_cancellation e
  | Unfinished => True
  end.

(** The message a run starts with. *)
Definition start_message (mode : ExecutionMode) : PubSubMessage :=
  {| msgId := None;
     content := match mode with
                | Dynamic => "Starting unified task execution..."
                | Predefined predefinedPlan =>
                    "Starting predefined task: " ++ plan_name predefinedPlan
                end;
     msgType := thinking |}.

(** A dispatch whose handler threw. *)
Definition threw (x : string * json * Dispatch) : bool :=
  match snd x with
  | HandlerThrew _ => true
  | _ => false
  end.

(** The number of handlers that threw in a piece of trace. *)
Definition handler_failures (tr : list Event) : nat :=
  List.length (filter threw (dispatches tr)).

Section ErrorAccounting.

Context {World : Type}.

(** Whatever its outcome, a computation only appends to the trace and,
    of its own doing, counts one error for each handler that threw, and
    no other. *)
Definition accounts {A : Type} (c : @M World A) : Prop :=
  forall a w,
  exists tr,
    trace (snd (fst (c a w))) = (trace a ++ tr)%list
    /\ metric_errors (snd (fst (c a w)))
       = metric_errors a + Z.of_nat (handler_failures tr)
    /\ metric_observations (snd (fst (c a w))) = metric_observations a.

End ErrorAccounting.

(** A message of type [error]. *)
Definition is_error_message (m : PubSubMessage) : bool :=
  match msgType m with
  | error => true
  | _ => false
  end.

(** The messages of type [error] published in a piece of trace. *)
Definition error_messages (tr : list Event) : list PubSubMessage :=
  filter is_error_message (publications tr).

(** An event that is neither a model invocation nor an error message. *)
Definition quiet (e : Event) : bool :=
  match e with
  | EvModelCall _ => false
  | EvPublish m => negb (is_error_message m)
  | _ => true
  end.

(** The message of the human-input wait when it times out. *)
Definition timeout_message : PubSubMessage :=
  {| msgId := None; content := "⏱️ Human input timed out after 10 minutes";
     msgType := error |}.

(** The message of [_handleExecutionError]. *)
Definition error_report (message : string) : PubSubMessage :=
  {| msgId := None; content := "Error: " ++ message; msgType := error |}.

(** Every message of the trace is a [thinking] message with the given
    identifier; without an identifier, nothing was published. *)
Definition shown_under (id : option string) (tr : list Event) : Prop :=
  match id with
  | Some i => Forall (fun m => msgId m = Some i /\ msgType m = thinking) (publications tr)
  | None => publications tr = []
  end.

Section StreamVocabulary.

Context {Chunk : Type}.

(** The identifier is created when the filter starts to show text. *)
Definition started_ok (s : @StreamState Chunk) : Prop :=
  hasStartedThinking s = false -> currentMsgId s = None.

End StreamVocabulary.

(** The browser state can never be read. *)
Definition browser_state_unavailable {World Chunk : Type} (C : Collaborators World Chunk)
  : Prop :=
  forall w, exists reason w', getBrowserStateMessage C w = (Rejected reason, w').

(** * The execution singleton of [src/lib/execution/Execution.ts]

    The caller of the agent: it owns the abort controller whose signal
    the agent reads in [checkIfAborted].  [run] is asynchronous; the
    statements between two of its [await]s run without interleaving, and
    are given here as the segments [run_enter] (the cancellation of the
    previous run), [_ensureInitialized] (awaited next, given by what it
    leaves once it has settled), [run_arm] (the creation of the fresh
    controller) and [run_finally] (the [finally] block).  [cancel],
    [reset] and [isRunning] are synchronous. *)

Module Exec.

(** The reason of [AbortController.abort]: the default one, or the
    object [{ userInitiated: true, message }]. *)
Inductive AbortReason :=
| DefaultReason
| UserInitiated (message : string).

(** What the singleton does to its collaborators. *)
Inductive ExecEvent :=
| Published (msgId content role : string)
| MessagesCleared
| BufferCleared
| Unlocked.

(** The fields of the singleton.  [controllers] holds the signal of every
    [AbortController] created so far, [None] while it is not aborted;
    [currentAbortController] points into it.  The three persistent
    resources are given by whether they are non-null. *)
Record Execution := {
  controllers : list (option AbortReason);
  currentAbortController : option nat;
  browserContext : bool;
  messageManager : bool;
  pubsub : bool;
  log : list ExecEvent
}.

Definition set_controllers (cs : list (option AbortReason)) (x : Execution) : Execution :=
  {| controllers := cs; currentAbortController := currentAbortController x;
     browserContext := browserContext x; messageManager := messageManager x;
     pubsub := pubsub x; log := log x |}.

Definition set_currentAbortController (c : option nat) (x : Execution) : Execution :=
  {| controllers := controllers x; currentAbortController := c;
     browserContext := browserContext x; messageManager := messageManager x;
     pubsub := pubsub x; log := log x |}.

Definition record (e : ExecEvent) (x : Execution) : Execution :=
  {| controllers := controllers x; currentAbortController := currentAbortController x;
     browserContext := browserContext x; messageManager := messageManager x;
     pubsub := pubsub x; log := (log x ++ [e])%list |}.

(** Aborting a signal: a signal already aborted keeps its reason. *)
Definition abort_signal (reason : AbortReason) (signal : option AbortReason)
  : option AbortReason :=
  match signal with
  | None => Some reason
  | Some r => Some r
  end.

Fixpoint abort_at (c : nat) (reason : AbortReason) (cs : list (option AbortReason))
  : list (option AbortReason) :=
  match cs, c with
  | [], _ => []
  | signal :: cs', O => abort_signal reason signal :: cs'
  | signal :: cs', S c' => signal :: abort_at c' reason cs'
  end.

(** [controller.abort(reason)]. *)
Definition abort (c : nat) (reason : AbortReason) (x : Execution) : Execution :=
  set_controllers (abort_at c reason (controllers x)) x.

(** [signal.aborted] of the controller [c]. *)
Definition aborted (c : nat) (x : Execution) : bool :=
  match nth_error (controllers x) c with
  | Some (Some _) => true
  | _ => false
  end.

Definition USER_CANCELLED : AbortReason := UserInitiated "User cancelled execution".

Definition PAUSE_MESSAGE : string :=
  "âœ‹ Task paused. To continue this task, just type your next request OR use ðŸ”„ to start a new task!".

(** [isRunning()]. *)
Definition isRunning (x : Execution) : bool :=
  match currentAbortController x with Some _ => true | None => false end.

(** The first statement of [run]: cancel any current execution. *)
Definition run_enter (x : Execution) : Execution :=
  match currentAbortController x with
  | Some c => set_currentAbortController None (abort c DefaultReason x)
  | None => x
  end.

(** [_ensureInitialized()], settled: the browser context and the message
    manager exist. *)
Definition _ensureInitialized (x : Execution) : Execution :=
  {| controllers := controllers x; currentAbortController := currentAbortController x;
     browserContext := true; messageManager := true;
     pubsub := pubsub x; log := log x |}.

(** [this.currentAbortController = new AbortController()]. *)
Definition run_arm (x : Execution) : Execution :=
  set_currentAbortController (Some (List.length (controllers x)))
    (set_controllers (controllers x ++ [None])%list x).

(** The [finally] block of [run]. *)
Definition run_finally (x : Execution) : Execution :=
  let x1 := set_currentAbortController None x in
  if browserContext x1 then record Unlocked x1 else x1.

(** [cancel()]. *)
Definition cancel (x : Execution) : Execution :=
  match currentAbortController x with
  | None => x
  | Some c =>
      let x1 := if pubsub x
                then record (Published "pause_message_id" PAUSE_MESSAGE "assistant") x
                else x in
      set_currentAbortController None (abort c USER_CANCELLED x1)
  end.

(** [reset()]. *)
Definition reset (x : Execution) : Execution :=
  let x1 := match currentAbortController x with
            | Some c => set_currentAbortController None (abort c USER_CANCELLED x)
            | None => x
            end in
  let x2 := if messageManager x1 then record MessagesCleared x1 else x1 in
  if pubsub x2 then record BufferCleared x2 else x2.

(** The synchronous steps of the singleton that the event loop can
    interleave. *)
Inductive Action := RunEnter | RunInitialized | RunArm | RunFinally | Cancel | Reset.

Definition perform (act : Action) (x : Execution) : Execution :=
  match act with
  | RunEnter => run_enter x
  | RunInitialized => _ensureInitialized x
  | RunArm => run_arm x
  | RunFinally => run_finally x
  | Cancel => cancel x
  | Reset => reset x
  end.

Definition schedule (acts : list Action) (x : Execution) : Execution :=
  fold_left (fun x act => perform act x) acts x.

(** The singleton as its constructor leaves it: only the channel is set. *)
Definition created : Execution :=
  {| controllers := []; currentAbortController := None;
     browserContext := false; messageManager := false; pubsub := true;
     log := [] |}.

(** The controller that [currentAbortController] points to exists and its
    signal is not aborted. *)
Definition current_is_live (x : Execution) : Prop :=
  forall c, currentAbortController x = Some c -> nth_error (controllers x) c = Some None.

End Exec.

(** A world in which the user has cancelled before the run starts. *)
Definition cancelled_world : Scenario.SWorld :=
  {| Scenario.clock := 0; Scenario.model_invocations := 0;
     Scenario.tool_invocations := 0; Scenario.cancelled := true;
     Scenario.humanInputRequestId := None; Scenario.humanInputResponse := None |}.

(** The same collaborators with a browser whose state cannot be read. *)
Definition with_unreadable_browser {World Chunk : Type} (C : Collaborators World Chunk)
  : Collaborators World Chunk :=
  {| abortSignal_aborted := abortSignal_aborted C;
     shouldAbort := shouldAbort C;
     getMaxTokens := getMaxTokens C;
     getHumanInputRequestId := getHumanInputRequestId C;
     getHumanInputResponse := getHumanInputResponse C;
     clearHumanInputState := clearHumanInputState C;
     Date_now := Date_now C;
     setTimeout := setTimeout C;
     isDevelopmentMode := isDevelopmentMode C;
     toolManager_get := toolManager_get C;
     startGlow := startGlow C;
     jsonParseToolOutput := jsonParseToolOutput C;
     TokenCounter_countMessage := TokenCounter_countMessage C;
     systemPromptTokens := systemPromptTokens C;
     getBrowserStateMessage := fun w => (Rejected "No active page", w);
     llm_stream := llm_stream C;
     next_chunk := next_chunk C;
     chunk_content := chunk_content C;
     chunk_tool_calls := chunk_tool_calls C;
     chunk_concat := chunk_concat C;
     PubSub_generateId := PubSub_generateId C;
     invokeWithRetry := invokeWithRetry C |}.

(** * Properties *)

Ltac munfold :=
  unfold bind, ret, throw, modify, observe, step, call, await, get, try_catch,
    _publishMessage, publishMessage, unfinished in *.

Section Properties.

Context {World Chunk : Type}.
Variable C : Collaborators World Chunk.

Local Open Scope list_scope.

Lemma error_result_ok_false (errorMsg : string) :
  prefix OK_FALSE (error_result errorMsg) = true.
Proof. reflexivity. Qed.

Lemma emitDevModeDebug_spec action details a w :
  exists tr, _emitDevModeDebug C action details a w = (Returned tt, add_trace tr a, w)
             /\ dispatches tr = [] /\ model_calls tr = [].
Proof.
  unfold _emitDevModeDebug. destruct (isDevelopmentMode C).
  - eexists [_]. munfold. split; [reflexivity | split; reflexivity].
  - exists []. munfold. unfold add_trace. rewrite app_nil_r.
    destruct a; auto.
Qed.

(** *** Tool dispatch *)

Lemma dispatches_app tr1 tr2 : dispatches (tr1 ++ tr2) = (dispatches tr1 ++ dispatches tr2)%list.
Proof.
  induction tr1 as [|e tr1 IH]; [reflexivity|].
  destruct e; cbn; rewrite IH; reflexivity.
Qed.

Lemma model_calls_app tr1 tr2 : model_calls (tr1 ++ tr2) = (model_calls tr1 ++ model_calls tr2)%list.
Proof.
  induction tr1 as [|e tr1 IH]; [reflexivity|].
  destruct e; cbn; rewrite IH; reflexivity.
Qed.

Lemma publications_app tr1 tr2 :
  publications (tr1 ++ tr2) = (publications tr1 ++ publications tr2)%list.
Proof.
  induction tr1 as [|e tr1 IH]; [reflexivity|].
  destruct e; cbn; rewrite IH; reflexivity.
Qed.

Lemma invokeTool_spec name arguments a w :
  exists d a' w' tr,
    invokeTool C name arguments a w = (Returned (result_of_dispatch name d), a', w')
    /\ trace a' = (trace a ++ tr)%list
    /\ dispatches tr = [(name, arguments, d)]
    /\ model_calls tr = []
    /\ dispatch_faithful C (name, arguments, d)
    /\ executionHistory a' = executionHistory a
    /\ same_counters a a'.
Proof.
  unfold invokeTool, same_counters.
  destruct (toolManager_get C name) as [toolFunc|] eqn:Hget.
  - unfold try_catch.
    destruct (toolFunc arguments w) as [[output|message] w1] eqn:Hrun.
    + exists (HandlerReturned output). do 2 eexists. eexists [_].
      split; [reflexivity|]. cbn. repeat split; try reflexivity.
      exists toolFunc, w, w1. auto.
    + destruct (emitDevModeDebug_spec
                  ("Error executing " ++ name)%string
                  (Some ("Tool execution failed: " ++ message)%string)
                  (incr_errors (record_event
                     (EvDispatch name arguments (HandlerThrew message)) a)) w1)
        as (tr & Hdev & Hd & Hm).
      exists (HandlerThrew message). do 2 eexists.
      exists (EvDispatch name arguments (HandlerThrew message) :: tr).
      munfold. cbv beta iota. unfold exn_message. rewrite Hdev.
      split; [reflexivity|]. cbn.
      rewrite Hd, Hm, <- app_assoc. repeat split; try reflexivity.
      exists toolFunc, w, w1. auto.
  - destruct (emitDevModeDebug_spec "Error" (Some ("Unknown tool: " ++ name)%string)
                (record_event (EvDispatch name arguments UnknownTool) a) w)
      as (tr & Hdev & Hd & Hm).
    exists UnknownTool. do 2 eexists.
    exists (EvDispatch name arguments UnknownTool :: tr).
    munfold. rewrite Hdev. split; [reflexivity|]. cbn.
    rewrite Hd, Hm, <- app_assoc. repeat split; try reflexivity. exact Hget.
Qed.

Lemma processToolCall_aborted toolCall r a w :
  abortSignal_aborted C w = true ->
  processToolCall C toolCall r a w = (Thrown (AbortError None), a, w).
Proof.
  intros H. unfold processToolCall, checkIfAborted. munfold. rewrite H. reflexivity.
Qed.

Lemma processToolCall_spec toolCall r a w :
  abortSignal_aborted C w = false ->
  exists d now a' w' tr,
    processToolCall C toolCall r a w =
      (Returned (noteSpecialOutcome (tc_name toolCall)
                   (jsonParseToolOutput C (result_of_dispatch (tc_name toolCall) d)) r),
       a', w')
    /\ executionHistory a' =
         (executionHistory a ++
            [{| iteration := iterations a; tool := Some (tc_name toolCall);
                args := Some (tc_args toolCall);
                result := Some (result_of_dispatch (tc_name toolCall) d);
                summary := None; timestamp := now |}])%list
    /\ trace a' = (trace a ++ tr)%list
    /\ dispatches tr = [(tc_name toolCall, tc_args toolCall, d)]
    /\ model_calls tr = []
    /\ dispatch_faithful C (tc_name toolCall, tc_args toolCall, d)
    /\ same_counters a a'.
Proof.
  intros Hab. unfold processToolCall, checkIfAborted.
  destruct (emitDevModeDebug_spec
              ("Calling tool " ++ tc_name toolCall ++ " with args")%string
              (Some (JSON_stringify (tc_args toolCall))) a w)
    as (tr0 & Hdev & Hd0 & Hm0).
  set (w1 := if existsb (String.eqb (tc_name toolCall)) GLOW_ENABLED_TOOLS
             then startGlow C w else w).
  destruct (invokeTool_spec (tc_name toolCall) (tc_args toolCall) (add_trace tr0 a) w1)
    as (d & a1 & w2 & tr1 & Hinv & Htr & Hd1 & Hm1 & Hf & Hh & Hi & Hc).
  exists d, (Date_now C w2). do 2 eexists. exists (tr0 ++ tr1).
  unfold bind at 1. unfold observe at 1. unfold bind at 1. rewrite Hab.
  unfold ret at 1. unfold bind at 1. rewrite Hdev.
  unfold bind at 1. unfold _maybeStartGlowAnimation.
  assert (Hglow : (if existsb (String.eqb (tc_name toolCall)) GLOW_ENABLED_TOOLS
                   then step (startGlow C) else ret tt) (add_trace tr0 a) w
                  = (Returned tt, add_trace tr0 a, w1)).
  { subst w1. destruct (existsb _ _); reflexivity. }
  rewrite Hglow. unfold bind at 1. rewrite Hinv. munfold.
  split; [reflexivity|]. cbn.
  rewrite Hh, Hi, Htr. cbn. rewrite dispatches_app, model_calls_app, Hd0, Hd1, Hm0, Hm1.
  rewrite app_assoc. unfold same_counters. cbn. rewrite Hi, Hc.
  repeat split; auto.
Qed.

Lemma noteSpecialOutcome_flags name p r :
  doneToolCalled (noteSpecialOutcome name p r)
    = doneToolCalled r || ((name =? "done")%string && parsed_ok p)
  /\ requiresHumanInput (noteSpecialOutcome name p r)
     = requiresHumanInput r
       || ((name =? "human_input")%string && parsed_ok p && parsed_requiresHumanInput p).
Proof.
  unfold noteSpecialOutcome.
  destruct (name =? "done")%string, (name =? "human_input")%string,
    (parsed_ok p), (parsed_requiresHumanInput p), r as [[] []]; cbn; auto.
Qed.

(** The batch: one entry per dispatched call, in order; the batch stops
    early only by the cancellation check. *)
Lemma processToolCalls_from_spec calls :
  forall r a w,
  exists n new tr o a' w',
    processToolCalls_from C calls r a w = (o, a', w')
    /\ executionHistory a' = executionHistory a ++ new
    /\ trace a' = trace a ++ tr
    /\ same_counters a a'
    /\ model_calls tr = []
    /\ map call_of (dispatches tr) = map call_sig (firstn n calls)
    /\ map entry_view new = map (recorded (iterations a)) (dispatches tr)
    /\ Forall (dispatch_faithful C) (dispatches tr)
    /\ match o with
       | Returned r' =>
           n = List.length calls
           /\ doneToolCalled r' = doneToolCalled r || existsb (signals_done C) new
           /\ requiresHumanInput r'
              = requiresHumanInput r || existsb (signals_human_input C) new
       | Thrown (AbortError _) =>
           (n < List.length calls)%nat /\ abortSignal_aborted C w' = true
       | _ => False
       end.
Proof.
  induction calls as [|toolCall rest IH]; intros r a w.
  - exists 0%nat, [], []. do 3 eexists. cbn. unfold ret.
    split; [reflexivity|]. rewrite !app_nil_r, !orb_false_r.
    unfold same_counters. repeat split; auto.
  - destruct (abortSignal_aborted C w) eqn:Hab.
    + exists 0%nat, [], []. do 3 eexists. cbn [processToolCalls_from].
      unfold bind. rewrite (processToolCall_aborted _ _ _ _ Hab).
      split; [reflexivity|]. rewrite !app_nil_r. unfold same_counters. cbn.
      repeat split; auto. lia.
    + destruct (processToolCall_spec toolCall r a w Hab)
        as (d & now & a1 & w1 & tr0 & Hrun & Hh & Htr & Hd & Hm & Hf & Hi & Hc).
      set (r1 := noteSpecialOutcome (tc_name toolCall)
                   (jsonParseToolOutput C (result_of_dispatch (tc_name toolCall) d)) r)
        in *.
      destruct (IH r1 a1 w1)
        as (n & new & tr & o & a' & w' & Hrest & Hh' & Htr' & [Hi' Hc'] & Hm'
            & Hcalls & Hview & Hfaith & Hout).
      exists (S n).
      exists ({| iteration := iterations a; tool := Some (tc_name toolCall);
                 args := Some (tc_args toolCall);
                 result := Some (result_of_dispatch (tc_name toolCall) d);
                 summary := None; timestamp := now |} :: new).
      exists (tr0 ++ tr), o, a', w'.
      cbn [processToolCalls_from]. unfold bind at 1. rewrite Hrun, Hrest.
      split; [reflexivity|].
      rewrite Hh', Hh, Htr', Htr, <- !app_assoc.
      rewrite dispatches_app, model_calls_app, Hd, Hm, Hm'. cbn [app].
      split; [reflexivity|]. split; [reflexivity|].
      split; [unfold same_counters; split; congruence|].
      split; [reflexivity|].
      split; [cbn; rewrite Hcalls; reflexivity|].
      split; [cbn; rewrite Hview, Hi; reflexivity|].
      split; [constructor; assumption|].
      destruct o as [r'|[m|m]|]; try contradiction.
      * destruct Hout as (Hn & Hdone & Hhuman).
        destruct (noteSpecialOutcome_flags (tc_name toolCall)
                    (jsonParseToolOutput C (result_of_dispatch (tc_name toolCall) d)) r)
          as [Hf1 Hf2].
        fold r1 in Hf1, Hf2.
        split; [cbn; congruence|].
        cbn [existsb]. unfold signals_done at 1, signals_human_input at 1. cbn.
        rewrite Hdone, Hhuman, Hf1, Hf2, !orb_assoc. split; reflexivity.
      * destruct Hout as [Hn Hab']. split; [cbn; lia | exact Hab'].
Qed.

(** *** Context budget *)

Lemma summarizeExecutionHistory_run tokenLimit userTask a w :
  _summarizeExecutionHistory C (render_history (executionHistory a)) userTask tokenLimit a w
  = match invokeWithRetry C (summary_request tokenLimit userTask a) w with
    | (Fulfilled content, w') =>
        (Returned (match content with Some text => text | None => EmptyString end),
         record_event (EvSummarize (summary_budget tokenLimit) userTask
                         (render_history (executionHistory a))) a, w')
    | (Rejected reason, w') =>
        (Thrown (Error reason),
         record_event (EvSummarize (summary_budget tokenLimit) userTask
                         (render_history (executionHistory a))) a, w')
    end.
Proof.
  unfold _summarizeExecutionHistory, summary_request, summary_budget. munfold.
  destruct (invokeWithRetry C _ w) as [[content|reason] w']; reflexivity.
Qed.

Lemma buildExecutionHistoryContext_over_limit tokenLimit userTask a w :
  executionHistory a <> [] ->
  history_exceeds C tokenLimit a = true ->
  _buildExecutionHistoryContext C tokenLimit userTask a w
  = let a1 := record_event (EvSummarize (summary_budget tokenLimit) userTask
                              (render_history (executionHistory a))) a in
    match invokeWithRetry C (summary_request tokenLimit userTask a) w with
    | (Fulfilled content, w') =>
        let text := match content with Some text => text | None => EmptyString end in
        (Returned text,
         set_executionHistory [summary_entry a text (Date_now C w')] a1, w')
    | (Rejected reason, w') =>
        (Returned (render_history (slice_last 5 (executionHistory a))), a1, w')
    end.
Proof.
  intros Hne Hex. unfold _buildExecutionHistoryContext.
  unfold bind at 1, get at 1.
  destruct (executionHistory a) as [|e h] eqn:Hh; [congruence|].
  unfold history_exceeds in Hex. rewrite Hh in Hex. rewrite Hex.
  unfold try_catch, bind at 1. rewrite <- Hh.
  rewrite summarizeExecutionHistory_run.
  destruct (invokeWithRetry C _ w) as [[content|reason] w']; reflexivity.
Qed.

(** *** Streaming filter *)

Lemma checkIfAborted_quiet a w :
  never_cancelled C -> checkIfAborted C a w = (Returned tt, a, w).
Proof. intros H. unfold checkIfAborted. munfold. rewrite H. reflexivity. Qed.

Lemma streamText_total text s a w :
  exists s' a' w',
    streamText C text s a w = (Returned s', a', w')
    /\ accumulatedChunk s' = accumulatedChunk s.
Proof.
  unfold streamText.
  destruct (hasProhibitedContent s),
    (detect_prohibited (accumulatedText s ++ text)%string),
    (currentMsgId s), (hasStartedThinking s),
    (PubSub_generateId C "msg_assistant" w) as [id w1] eqn:Hid;
    munfold; cbn; try rewrite Hid; cbn; do 3 eexists; split; reflexivity.
Qed.

Lemma streamChunk_total chunk s a w :
  never_cancelled C ->
  exists s' a' w',
    streamChunk C chunk s a w = (Returned s', a', w')
    /\ accumulatedChunk s' = accumulate C (accumulatedChunk s) chunk.
Proof.
  intros Hq. unfold streamChunk. unfold bind at 1.
  rewrite (checkIfAborted_quiet _ _ Hq). unfold bind at 1.
  destruct (chunk_content C chunk) as [text|].
  - destruct (truthy text).
    + destruct (streamText_total text s a w) as (s1 & a1 & w1 & Hrun & Hacc).
      rewrite Hrun. unfold ret. do 3 eexists. split; [reflexivity|].
      cbn. rewrite Hacc. reflexivity.
    + unfold ret. do 3 eexists. split; reflexivity.
  - unfold ret. do 3 eexists. split; reflexivity.
Qed.

Lemma streamChunks_total chunks :
  never_cancelled C ->
  forall s a w,
  exists s' a' w',
    streamChunks C chunks s a w = (Returned s', a', w')
    /\ accumulatedChunk s' = fold_left (accumulate C) chunks (accumulatedChunk s).
Proof.
  intros Hq. induction chunks as [|chunk rest IH]; intros s a w.
  - do 3 eexists. split; reflexivity.
  - cbn [streamChunks fold_left]. unfold bind at 1, step at 1. unfold bind at 1.
    destruct (streamChunk_total chunk s a (next_chunk C w) Hq)
      as (s1 & a1 & w1 & Hrun & Hacc).
    rewrite Hrun. destruct (IH s1 a1 w1) as (s2 & a2 & w2 & Hrest & Hacc2).
    rewrite Hrest. do 3 eexists. split; [reflexivity|]. rewrite Hacc2, Hacc. reflexivity.
Qed.

(** Once a marker was detected, a chunk changes nothing but the
    accumulators. *)
Lemma streamChunk_after_detection chunk s a w :
  never_cancelled C ->
  hasProhibitedContent s = true ->
  exists s',
    streamChunk C chunk s a w = (Returned s', a, w)
    /\ hasProhibitedContent s' = true.
Proof.
  intros Hq Hp. unfold streamChunk. unfold bind at 1.
  rewrite (checkIfAborted_quiet _ _ Hq). unfold bind at 1.
  destruct (chunk_content C chunk) as [text|].
  - destruct (truthy text).
    + unfold streamText. munfold. rewrite Hp. cbn.
      eexists. split; reflexivity.
    + unfold ret. eexists. split; [reflexivity|]. exact Hp.
  - unfold ret. eexists. split; [reflexivity|]. exact Hp.
Qed.

Lemma streamChunks_after_detection chunks :
  never_cancelled C ->
  forall s a w,
  hasProhibitedContent s = true ->
  exists s' w',
    streamChunks C chunks s a w = (Returned s', a, w')
    /\ hasProhibitedContent s' = true.
Proof.
  intros Hq. induction chunks as [|chunk rest IH]; intros s a w Hp.
  - do 2 eexists. split; [reflexivity | exact Hp].
  - cbn [streamChunks]. unfold bind at 1, step at 1. unfold bind at 1.
    destruct (streamChunk_after_detection chunk s a (next_chunk C w) Hq Hp)
      as (s1 & Hrun & Hp1).
    rewrite Hrun. exact (IH s1 a _ Hp1).
Qed.

(** The step at which a marker is detected. *)
Lemma streamChunk_detection chunk text s a w :
  never_cancelled C ->
  hasProhibitedContent s = false ->
  chunk_content C chunk = ContentString text ->
  truthy text = true ->
  detect_prohibited (accumulatedText s ++ text)%string <> None ->
  exists s' a',
    streamChunk C chunk s a w = (Returned s', a', w)
    /\ hasProhibitedContent s' = true
    /\ trace a' = trace a ++ placeholder_for (currentMsgId s)
                          ++ [EvQueueReminder SYSTEM_REMINDER]
    /\ metric_errors a' = metric_errors a + 1.
Proof.
  intros Hq Hp Hc Ht Hd. unfold streamChunk. unfold bind at 1.
  rewrite (checkIfAborted_quiet _ _ Hq). unfold bind at 1.
  rewrite Hc, Ht. unfold streamText. rewrite Hp.
  destruct (detect_prohibited (accumulatedText s ++ text)%string); [|congruence].
  destruct (currentMsgId s); munfold; cbn.
  - do 2 eexists. split; [reflexivity|]. cbn. rewrite <- app_assoc.
    repeat split; reflexivity.
  - do 2 eexists. split; [reflexivity|]. cbn. repeat split; reflexivity.
Qed.

Lemma streamChunks_app chunks1 chunks2 :
  forall s a w,
  streamChunks C (chunks1 ++ chunks2) s a w
  = match streamChunks C chunks1 s a w with
    | (Returned s1, a1, w1) => streamChunks C chunks2 s1 a1 w1
    | r => r
    end.
Proof.
  induction chunks1 as [|chunk rest IH]; intros s a w.
  - reflexivity.
  - cbn [streamChunks app]. unfold bind, step.
    destruct (streamChunk C chunk s a (next_chunk C w)) as [[[s1|e|] a1] w1];
      [apply IH | reflexivity | reflexivity].
Qed.

(** *** Iterations in which the model invocation fails *)

Lemma buildExecutionHistoryContext_empty tokenLimit userTask a w :
  executionHistory a = [] ->
  _buildExecutionHistoryContext C tokenLimit userTask a w
  = (Returned "No previous actions attempted"%string, a, w).
Proof.
  intros H. unfold _buildExecutionHistoryContext. munfold. rewrite H. reflexivity.
Qed.



(** *** Two properties that compose along the monad *)

Lemma keeps_ret {A} (x : A) : keeps_iterations (World := World) (ret x).
Proof. intros a w. reflexivity. Qed.

Lemma keeps_throw {A} (e : Exn) : keeps_iterations (World := World) (@throw World A e).
Proof. intros a w. reflexivity. Qed.

Lemma keeps_unfinished {A} : keeps_iterations (World := World) (@unfinished World A).
Proof. intros a w. reflexivity. Qed.

Lemma keeps_get : keeps_iterations (World := World) get.
Proof. intros a w. reflexivity. Qed.

Lemma keeps_observe {A} (f : World -> A) : keeps_iterations (observe f).
Proof. intros a w. reflexivity. Qed.

Lemma keeps_step (f : World -> World) : keeps_iterations (step f).
Proof. intros a w. reflexivity. Qed.

Lemma keeps_call {A} (f : World -> A * World) : keeps_iterations (call f).
Proof. intros a w. unfold call. destruct (f w). reflexivity. Qed.

Lemma keeps_await {A} (f : World -> Settled A * World) : keeps_iterations (await f).
Proof. intros a w. unfold await. destruct (f w) as [[x|r] w']; reflexivity. Qed.

Lemma keeps_modify (f : Agent -> Agent) :
  (forall a, iterations (f a) = iterations a) ->
  keeps_iterations (World := World) (modify f).
Proof. intros H a w. apply H. Qed.

Lemma keeps_bind {A B} (c : @M World A) (k : A -> @M World B) :
  keeps_iterations c -> (forall x, keeps_iterations (k x)) ->
  keeps_iterations (bind c k).
Proof.
  intros Hc Hk a w. unfold bind. specialize (Hc a w).
  destruct (c a w) as [[[x|e|] a1] w1]; cbn in Hc |- *; try exact Hc.
  rewrite (Hk x a1 w1). exact Hc.
Qed.

Lemma keeps_try_catch {A} (c : @M World A) (handler : Exn -> @M World A) :
  keeps_iterations c -> (forall e, keeps_iterations (handler e)) ->
  keeps_iterations (try_catch c handler).
Proof.
  intros Hc Hh a w. unfold try_catch. specialize (Hc a w).
  destruct (c a w) as [[[x|e|] a1] w1]; cbn in Hc |- *; try exact Hc.
  rewrite (Hh e a1 w1). exact Hc.
Qed.

Lemma finishes_ret {A} (x : A) : finishes (World := World) (ret x).
Proof. intros a w. discriminate. Qed.

Lemma finishes_throw {A} (e : Exn) : finishes (World := World) (@throw World A e).
Proof. intros a w. discriminate. Qed.

Lemma finishes_get : finishes (World := World) get.
Proof. intros a w. discriminate. Qed.

Lemma finishes_observe {A} (f : World -> A) : finishes (observe f).
Proof. intros a w. discriminate. Qed.

Lemma finishes_step (f : World -> World) : finishes (step f).
Proof. intros a w. discriminate. Qed.

Lemma finishes_modify (f : Agent -> Agent) : finishes (World := World) (modify f).
Proof. intros a w. discriminate. Qed.

Lemma finishes_call {A} (f : World -> A * World) : finishes (call f).
Proof. intros a w. unfold call. destruct (f w). discriminate. Qed.

Lemma finishes_await {A} (f : World -> Settled A * World) : finishes (await f).
Proof. intros a w. unfold await. destruct (f w) as [[x|r] w']; discriminate. Qed.

Lemma finishes_bind {A B} (c : @M World A) (k : A -> @M World B) :
  finishes c -> (forall x, finishes (k x)) -> finishes (bind c k).
Proof.
  intros Hc Hk a w. unfold bind. specialize (Hc a w).
  destruct (c a w) as [[[x|e|] a1] w1]; cbn in Hc |- *;
    [apply Hk | discriminate | congruence].
Qed.

Lemma finishes_try_catch {A} (c : @M World A) (handler : Exn -> @M World A) :
  finishes c -> (forall e, finishes (handler e)) -> finishes (try_catch c handler).
Proof.
  intros Hc Hh a w. unfold try_catch. specialize (Hc a w).
  destruct (c a w) as [[[x|e|] a1] w1]; cbn in Hc |- *;
    [discriminate | apply Hh | congruence].
Qed.

Ltac compose_step :=
  first
    [ apply keeps_bind | apply keeps_try_catch | apply keeps_ret | apply keeps_throw
    | apply keeps_unfinished | apply keeps_get | apply keeps_observe | apply keeps_step
    | apply keeps_call | apply keeps_await
    | apply keeps_modify; intros; reflexivity
    | apply finishes_bind | apply finishes_try_catch | apply finishes_ret
    | apply finishes_throw | apply finishes_get | apply finishes_observe
    | apply finishes_step | apply finishes_call | apply finishes_await
    | apply finishes_modify
    | match goal with
      | |- forall _, _ => intro
      | |- keeps_iterations (if ?b then _ else _) => destruct b
      | |- keeps_iterations (match ?x with _ => _ end) => destruct x
      | |- finishes (if ?b then _ else _) => destruct b
      | |- finishes (match ?x with _ => _ end) => destruct x
      end ].

Ltac compose := repeat compose_step.

(** The same, with [known] tried first on the methods already treated. *)
Ltac compose_with known := repeat first [ known | compose_step ].

(** *** The methods keep the iteration counter and are never cut off *)

Lemma checkIfAborted_composes :
  keeps_iterations (checkIfAborted C) /\ finishes (checkIfAborted C).
Proof. unfold checkIfAborted. split; compose. Qed.

Lemma publishMessage_composes m :
  keeps_iterations (World := World) (publishMessage m)
  /\ finishes (World := World) (publishMessage m).
Proof. unfold publishMessage. split; compose. Qed.

Lemma emitDevModeDebug_composes action details :
  keeps_iterations (_emitDevModeDebug C action details)
  /\ finishes (_emitDevModeDebug C action details).
Proof.
  unfold _emitDevModeDebug, _publishMessage, publishMessage. split; compose.
Qed.

Lemma invokeTool_composes name arguments :
  keeps_iterations (invokeTool C name arguments)
  /\ finishes (invokeTool C name arguments).
Proof.
  pose proof emitDevModeDebug_composes as Hdev.
  unfold invokeTool. destruct (toolManager_get C name) as [toolFunc|].
  - split.
    + apply keeps_try_catch.
      * intros a w. destruct (toolFunc arguments w) as [[output|message] w']; reflexivity.
      * intros e. compose_with ltac:(apply Hdev).
    + apply finishes_try_catch.
      * intros a w. destruct (toolFunc arguments w) as [[output|message] w']; discriminate.
      * intros e. compose_with ltac:(apply Hdev).
  - split; compose_with ltac:(apply Hdev).
Qed.

Lemma processToolCall_composes toolCall result :
  keeps_iterations (processToolCall C toolCall result)
  /\ finishes (processToolCall C toolCall result).
Proof.
  pose proof checkIfAborted_composes as [? ?].
  pose proof emitDevModeDebug_composes as Hdev.
  pose proof invokeTool_composes as Hinv.
  unfold processToolCall, _maybeStartGlowAnimation.
  split; compose_with ltac:(first [apply Hdev | apply Hinv | assumption]).
Qed.

Lemma processToolCalls_composes toolCalls :
  keeps_iterations (_processToolCalls C toolCalls)
  /\ finishes (_processToolCalls C toolCalls).
Proof.
  unfold _processToolCalls.
  generalize {| doneToolCalled := false; requiresHumanInput := false |}.
  induction toolCalls as [|toolCall rest IH]; intros result; cbn [processToolCalls_from].
  - split; compose.
  - split; compose_with ltac:(first [apply processToolCall_composes | apply IH]).
Qed.

Lemma buildExecutionHistoryContext_composes tokenLimit userTask :
  keeps_iterations (_buildExecutionHistoryContext C tokenLimit userTask)
  /\ finishes (_buildExecutionHistoryContext C tokenLimit userTask).
Proof.
  unfold _buildExecutionHistoryContext, _summarizeExecutionHistory. split; compose.
Qed.

Lemma streamText_composes text s :
  keeps_iterations (streamText C text s) /\ finishes (streamText C text s).
Proof.
  unfold streamText, publishMessage. split; compose.
Qed.

Lemma streamChunks_composes chunks :
  forall s, keeps_iterations (streamChunks C chunks s) /\ finishes (streamChunks C chunks s).
Proof.
  pose proof checkIfAborted_composes as [? ?].
  induction chunks as [|chunk rest IH]; intros s; cbn [streamChunks].
  - split; compose.
  - unfold streamChunk.
    split; compose_with ltac:(first [assumption | apply streamText_composes | apply IH]).
Qed.

Lemma invokeLLMWithStreaming_composes prompt :
  keeps_iterations (_invokeLLMWithStreaming C prompt)
  /\ finishes (_invokeLLMWithStreaming C prompt).
Proof.
  unfold _invokeLLMWithStreaming, publishMessage.
  split; compose_with ltac:(apply streamChunks_composes).
Qed.

Lemma runAgent_composes mode task :
  keeps_iterations (runAgent C mode task) /\ finishes (runAgent C mode task).
Proof.
  unfold runAgent.
  split;
    compose_with ltac:(first [apply buildExecutionHistoryContext_composes
                             | apply invokeLLMWithStreaming_composes
                             | apply processToolCalls_composes]).
Qed.

(** Whatever is thrown inside an iteration, the stall error and the
    cancellation error included, is caught by the handler of the
    iteration: the agent call always returns. *)
Lemma runAgent_always_returns mode task a w :
  exists r a' w', runAgent C mode task a w = (Returned r, a', w').
Proof.
  destruct (runAgent_composes mode task) as [_ Hfin]. specialize (Hfin a w).
  revert Hfin. unfold runAgent, try_catch.
  match goal with
  | |- context [match ?body a w with _ => _ end] =>
      destruct (body a w) as [[[r|e|] a1] w1]
  end; cbn; intros Hfin.
  - do 3 eexists. reflexivity.
  - munfold. do 3 eexists. reflexivity.
  - congruence.
Qed.

Lemma pollHumanInput_keeps polls :
  forall startTime, keeps_iterations (pollHumanInput C polls startTime).
Proof.
  induction polls as [|polls IH]; intros startTime; cbn [pollHumanInput];
    unfold _publishMessage, publishMessage; compose_with ltac:(apply IH).
Qed.

Lemma handleHumanInput_keeps polls result :
  keeps_iterations (handleHumanInput C polls result).
Proof.
  unfold handleHumanInput, _waitForHumanInput, _publishMessage, publishMessage.
  compose_with ltac:(apply pollHumanInput_keeps).
Qed.

(** One pass of the dynamic loop. *)
Lemma executeDynamic_loop_pass polls fuel task a w :
  _executeDynamic_loop C polls (S fuel) task a w
  = if iterations a <? MAX_UNIFIED_ITERATIONS then
      match checkIfAborted C a w with
      | (Returned _, a0, w0) =>
          match _runDynamicAgent C task (set_iterations (iterations a0 + 1) a0) w0 with
          | (Returned r, a1, w1) =>
              match handleHumanInput C polls r a1 w1 with
              | (Returned _, a2, w2) =>
                  if doneToolCalled r then
                    (Returned true,
                     record_event
                       (EvPublish {| msgId := None;
                                     content := "Task completed successfully";
                                     msgType := assistant |}) a2,
                     w2)
                  else _executeDynamic_loop C polls fuel task a2 w2
              | (Thrown e, a2, w2) => (Thrown e, a2, w2)
              | (Unfinished, a2, w2) => (Unfinished, a2, w2)
              end
          | (Thrown e, a1, w1) => (Thrown e, a1, w1)
          | (Unfinished, a1, w1) => (Unfinished, a1, w1)
          end
      | (Thrown e, a0, w0) => (Thrown e, a0, w0)
      | (Unfinished, a0, w0) => (Unfinished, a0, w0)
      end
    else (Returned false, a, w).
Proof.
  cbn [_executeDynamic_loop]. unfold bind at 1, get at 1.
  destruct (iterations a <? MAX_UNIFIED_ITERATIONS); [|reflexivity].
  unfold bind at 1. destruct (checkIfAborted C a w) as [[[[]|e|] a0] w0]; try reflexivity.
  unfold bind at 1, modify at 1. unfold bind at 1.
  destruct (_runDynamicAgent C task (set_iterations (iterations a0 + 1) a0) w0)
    as [[[r|e|] a1] w1]; try reflexivity.
  unfold bind at 1.
  destruct (handleHumanInput C polls r a1 w1) as [[[[]|e|] a2] w2]; try reflexivity.
  destruct (doneToolCalled r); reflexivity.
Qed.

(** A cancellation seen at the top of an iteration below the cap ends the
    run at once: nothing is invoked, nothing is recorded. *)
Lemma executeDynamic_loop_cancelled polls fuel task a w :
  iterations a < MAX_UNIFIED_ITERATIONS ->
  abortSignal_aborted C w = true ->
  _executeDynamic_loop C polls (S fuel) task a w = (Thrown (AbortError None), a, w).
Proof.
  intros Hlt Hab. rewrite executeDynamic_loop_pass.
  apply Z.ltb_lt in Hlt. rewrite Hlt.
  unfold checkIfAborted. munfold. rewrite Hab. reflexivity.
Qed.

(** The bound on the passes of the loop cuts nothing off: any bound of at
    least the number of iterations left to the cap gives the same run. *)
Lemma executeDynamic_loop_fuel polls task :
  forall fuel a w,
    (iterations_left a <= fuel)%nat ->
    _executeDynamic_loop C polls fuel task a w
    = _executeDynamic_loop C polls (iterations_left a) task a w.
Proof.
  induction fuel as [|fuel IH]; intros a w Hle.
  - replace (iterations_left a) with 0%nat by lia. reflexivity.
  - destruct (iterations_left a) as [|left] eqn:Hleft.
    + unfold iterations_left, MAX_UNIFIED_ITERATIONS in Hleft.
      rewrite executeDynamic_loop_pass. cbn [_executeDynamic_loop]. unfold bind, get.
      replace (iterations a <? MAX_UNIFIED_ITERATIONS) with false; [reflexivity|].
      symmetry. apply Z.ltb_ge. unfold MAX_UNIFIED_ITERATIONS. lia.
    + rewrite !executeDynamic_loop_pass.
      destruct (iterations a <? MAX_UNIFIED_ITERATIONS); [|reflexivity].
      destruct (checkIfAborted C a w) as [[[[]|e|] a0] w0] eqn:Hc; try reflexivity.
      assert (Ha0 : iterations a0 = iterations a).
      { pose proof (proj1 checkIfAborted_composes a w) as H. rewrite Hc in H. exact H. }
      unfold _runDynamicAgent.
      destruct (runAgent C Dynamic task (set_iterations (iterations a0 + 1) a0) w0)
        as [[[r|e|] a1] w1] eqn:Hrun; try reflexivity.
      assert (Ha1 : iterations a1 = iterations a + 1).
      { pose proof (proj1 (runAgent_composes Dynamic task)
                      (set_iterations (iterations a0 + 1) a0) w0) as H.
        rewrite Hrun in H. cbn in H. lia. }
      destruct (handleHumanInput C polls r a1 w1) as [[[[]|e|] a2] w2] eqn:Hh;
        try reflexivity.
      assert (Ha2 : iterations a2 = iterations a + 1).
      { pose proof (handleHumanInput_keeps polls r a1 w1) as H.
        rewrite Hh in H. cbn in H. lia. }
      destruct (doneToolCalled r); [reflexivity|].
      assert (Hl2 : iterations_left a2 = left).
      { unfold iterations_left in *. rewrite Ha2. lia. }
      rewrite IH by lia. rewrite Hl2. reflexivity.
Qed.

(** *** The claims on dispatch, context budget and streaming *)

(** C1.  Every batch of tool calls is dispatched in the order received,
    and the execution history grows by exactly one entry per dispatched
    call, in that order, holding the call's name, its arguments and its
    result.  A name absent from the registry and a handler that throws
    both yield an [ok:false] result, never an exception: the only
    exception the batch can raise is the cancellation error, so a batch
    that is not cancelled is dispatched to its end ([n] is then the
    length of the batch). *)
Theorem processToolCalls_one_result_per_call :
  forall (toolCalls : list ToolCall) (a : Agent) (w : World),
  exists n new tr o a' w',
    _processToolCalls C toolCalls a w = (o, a', w')
    /\ executionHistory a' = executionHistory a ++ new
    /\ trace a' = trace a ++ tr
    /\ map call_of (dispatches tr) = map call_sig (firstn n toolCalls)
    /\ map entry_view new = map (recorded (iterations a)) (dispatches tr)
    /\ List.length new = n
    /\ Forall (dispatch_faithful C) (dispatches tr)
    /\ (forall name message,
           prefix OK_FALSE (result_of_dispatch name UnknownTool) = true
           /\ prefix OK_FALSE (result_of_dispatch name (HandlerThrew message)) = true)
    /\ match o with
       | Returned _ => n = List.length toolCalls
       | Thrown (AbortError _) =>
           (n < List.length toolCalls)%nat /\ abortSignal_aborted C w' = true
       | _ => False
       end.
Proof.
  intros toolCalls a w.
  destruct (processToolCalls_from_spec toolCalls
              {| doneToolCalled := false; requiresHumanInput := false |} a w)
    as (n & new & tr & o & a' & w' & Hrun & Hh & Htr & _ & _ & Hcalls & Hview & Hf & Hout).
  exists n, new, tr, o, a', w'. unfold _processToolCalls.
  repeat split; try assumption.
  - apply (f_equal (@List.length _)) in Hview, Hcalls.
    rewrite !length_map in Hview, Hcalls. rewrite Hview, Hcalls.
    rewrite length_firstn.
    destruct o as [r|[m|m]|]; try contradiction.
    + destruct Hout as [Hn _]. lia.
    + destruct Hout as [Hn _]. lia.
  - destruct o as [r|[m|m]|]; try contradiction; tauto.
Qed.


(** The last [n] elements, as [slice(-n)] takes them. *)
Lemma slice_last_most_recent {A : Type} (n : nat) (l : list A) :
  slice_last n l = most_recent n l.
Proof.
  unfold slice_last, most_recent. rewrite firstn_rev, rev_involutive. reflexivity.
Qed.

(** The rendering of an entry gives the entry in full. *)
Lemma render_entry_verbatim (e : SimpleExecutionEntry) : render_entry e = verbatim e.
Proof.
  unfold render_entry, verbatim, is_summary, or_undefined, nl.
  destruct (summary e) as [[|c text]|]; cbn [truthy];
    destruct (tool e), (args e), (result e); reflexivity.
Qed.

Lemma render_history_verbatim (h : list SimpleExecutionEntry) :
  render_history h = paragraphs (map verbatim h).
Proof.
  unfold render_history, paragraphs, join.
  rewrite (map_ext _ _ render_entry_verbatim). reflexivity.
Qed.

(** C7.  When the rendered history exceeds the token limit and the
    summarization sub-call fails, the context builder still returns: its
    result is made of the five most recent history entries (of all of
    them when there are fewer), oldest first, each given in full and
    separated from the next by an empty line; the history itself is left
    as it was. *)
Theorem summarization_failure_falls_back_to_recent_entries :
  forall tokenLimit userTask a w reason w',
    executionHistory a <> [] ->
    history_exceeds C tokenLimit a = true ->
    invokeWithRetry C (summary_request tokenLimit userTask a) w = (Rejected reason, w') ->
    exists a',
      _buildExecutionHistoryContext C tokenLimit userTask a w
        = (Returned (paragraphs (map verbatim (most_recent 5 (executionHistory a)))),
           a', w')
      /\ executionHistory a' = executionHistory a
      /\ same_counters a a'.
Proof.
  intros tokenLimit userTask a w reason w' Hne Hex Hsum.
  rewrite (buildExecutionHistoryContext_over_limit _ _ _ _ Hne Hex). cbv zeta.
  rewrite Hsum. rewrite render_history_verbatim, slice_last_most_recent.
  eexists. split; [reflexivity|].
  unfold same_counters. cbn. auto.
Qed.

(** C4, amended.  When the rendered history exceeds the token limit and
    the summarization sub-call succeeds, one compaction pass replaces
    the whole entry sequence with a single summary record labelled with
    the iteration before the current one, holding the summarizer's text,
    and returns that text; the summarizer was asked for at most
    [max(100, floor(tokenLimit))] tokens, and its text is returned as it
    is. *)
Theorem compaction_leaves_one_summary_entry :
  forall tokenLimit userTask a w content w',
    executionHistory a <> [] ->
    history_exceeds C tokenLimit a = true ->
    invokeWithRetry C (summary_request tokenLimit userTask a) w = (Fulfilled content, w') ->
    let text := match content with Some text => text | None => EmptyString end in
    exists a',
      _buildExecutionHistoryContext C tokenLimit userTask a w = (Returned text, a', w')
      /\ executionHistory a' = [summary_entry a text (Date_now C w')]
      /\ same_counters a a'
      /\ sum_maxTokens (summary_request tokenLimit userTask a)
         = Z.max 100 (Qfloor tokenLimit).
Proof.
  intros tokenLimit userTask a w content w' Hne Hex Hsum text.
  rewrite (buildExecutionHistoryContext_over_limit _ _ _ _ Hne Hex). cbv zeta.
  rewrite Hsum. eexists. split; [reflexivity|].
  unfold same_counters. cbn. repeat split.
  unfold summary_budget, Qltb.
  destruct (Qle_bool (inject_Z 100) tokenLimit) eqn:Hle; cbn [negb].
  - apply Qle_bool_iff in Hle. apply Qfloor_resp_le in Hle.
    rewrite Qfloor_Z in Hle. lia.
  - rewrite Qfloor_Z.
    assert (Hlt : (tokenLimit < inject_Z 100)%Q).
    { apply Qnot_le_lt. intros H. apply Qle_bool_iff in H. congruence. }
    apply Qlt_le_weak, Qfloor_resp_le in Hlt. rewrite Qfloor_Z in Hlt. lia.
Qed.

(** The chunk accumulated by the loop is the chunks joined in order. *)
Lemma accumulated_concatenated (chunks : list Chunk) :
  accumulated C chunks = concatenated C chunks.
Proof.
  unfold accumulated, concatenated. destruct chunks as [|first rest]; [reflexivity|].
  cbn [fold_left accumulate]. revert first.
  induction rest as [|chunk rest IH]; intros first; [reflexivity|].
  cbn [fold_left accumulate]. apply IH.
Qed.

Lemma concatenated_tool_calls (chunks : list Chunk) :
  concat_keeps_tool_calls C ->
  tool_calls_of C (concatenated C chunks) = flat_map (chunk_tool_calls C) chunks.
Proof.
  intros Hkeep. unfold concatenated. destruct chunks as [|first rest]; [reflexivity|].
  cbn [tool_calls_of flat_map]. revert first.
  induction rest as [|chunk rest IH]; intros first; cbn [fold_left flat_map].
  - rewrite app_nil_r. reflexivity.
  - rewrite IH, Hkeep, <- app_assoc. reflexivity.
Qed.

(** C6.  For every stream the model delivers (to the end, without the
    run being cancelled), the tool calls of the final message are those
    of all the chunks of the stream joined by [concat] in the order
    received, whether or not a marker was detected: where [concat] keeps
    the tool calls of both its chunks, they are the tool calls of every
    chunk, in order, those of the chunks before the marker and those of
    the chunks after it alike; and if a forbidden marker is detected in the
    accumulated text at some chunk, then from the state reached before
    that chunk the rest of the turn adds to the trace only the
    placeholder (published over the message shown so far, if any) and
    the queued corrective reminder: no further text is published; the
    error metric is incremented once. *)
Theorem marker_stops_text_and_keeps_tool_calls :
  forall prompt a w stream w0,
    never_cancelled C ->
    llm_stream C prompt w = (Fulfilled stream, w0) ->
    stream_failure stream = None ->
    exists message a' w',
      _invokeLLMWithStreaming C prompt a w = (Returned message, a', w')
      /\ ai_tool_calls message = tool_calls_of C (concatenated C (stream_chunks stream))
      /\ (concat_keeps_tool_calls C ->
          ai_tool_calls message = flat_map (chunk_tool_calls C) (stream_chunks stream))
      /\ forall pre chunk post text s1 a1 w1,
          stream_chunks stream = pre ++ chunk :: post ->
          streamChunks C pre initial_stream_state
                       (record_event (EvModelCall prompt) a) w0
            = (Returned s1, a1, w1) ->
          hasProhibitedContent s1 = false ->
          chunk_content C chunk = ContentString text ->
          truthy text = true ->
          detect_prohibited (accumulatedText s1 ++ text)%string <> None ->
          trace a' = trace a1 ++ placeholder_for (currentMsgId s1)
                              ++ [EvQueueReminder SYSTEM_REMINDER]
          /\ metric_errors a' = metric_errors a1 + 1.
Proof.
  intros prompt a w stream w0 Hq Hstream Hnofail.
  destruct (streamChunks_total (stream_chunks stream) Hq initial_stream_state
              (record_event (EvModelCall prompt) a) w0)
    as (s & a2 & w2 & Hrun & Hacc).
  assert (Hdet : forall pre chunk post text s1 a1 w1,
             stream_chunks stream = pre ++ chunk :: post ->
             streamChunks C pre initial_stream_state
                          (record_event (EvModelCall prompt) a) w0
               = (Returned s1, a1, w1) ->
             hasProhibitedContent s1 = false ->
             chunk_content C chunk = ContentString text ->
             truthy text = true ->
             detect_prohibited (accumulatedText s1 ++ text)%string <> None ->
             hasProhibitedContent s = true
             /\ trace a2 = trace a1 ++ placeholder_for (currentMsgId s1)
                                    ++ [EvQueueReminder SYSTEM_REMINDER]
             /\ metric_errors a2 = metric_errors a1 + 1).
  { intros pre chunk post text s1 a1 w1 Hsplit Hpre Hclean Hc Ht Hd.
    rewrite Hsplit, streamChunks_app, Hpre in Hrun.
    cbn [streamChunks] in Hrun. unfold bind at 1, step at 1 in Hrun.
    unfold bind at 1 in Hrun.
    destruct (streamChunk_detection chunk text s1 a1 (next_chunk C w1) Hq Hclean Hc Ht Hd)
      as (s2 & a3 & Hstep & Hp2 & Htr & He).
    rewrite Hstep in Hrun.
    destruct (streamChunks_after_detection post Hq s2 a3 (next_chunk C w1) Hp2)
      as (s3 & w3 & Hpost & Hp3).
    rewrite Hpost in Hrun. injection Hrun as <- <- <-. auto. }
  unfold _invokeLLMWithStreaming.
  unfold bind at 1, modify at 1. unfold bind at 1, await at 1. rewrite Hstream.
  unfold bind at 1. rewrite Hrun. rewrite Hnofail.
  unfold bind at 1, ret at 1. unfold bind at 1.
  assert (Htools : tool_calls_of C (accumulatedChunk s)
                   = tool_calls_of C (concatenated C (stream_chunks stream))).
  { rewrite <- accumulated_concatenated. unfold accumulated. cbn in Hacc.
    rewrite <- Hacc. reflexivity. }
  assert (Hall : concat_keeps_tool_calls C ->
                 tool_calls_of C (accumulatedChunk s)
                 = flat_map (chunk_tool_calls C) (stream_chunks stream)).
  { intros Hkeep. rewrite Htools. apply concatenated_tool_calls. exact Hkeep. }
  destruct (accumulatedChunk s) as [acc|] eqn:Hs;
    (destruct (currentMsgId s) as [id|] eqn:Hid;
     [ destruct (hasStartedThinking s && negb (hasProhibitedContent s)
                 && truthy (trim (accumulatedText s))) eqn:Hfinal | ]);
    munfold; do 3 eexists; (split; [reflexivity|]);
    (split; [exact Htools|]); (split; [exact Hall|]);
    intros pre chunk post text s1 a1 w1 H1 H2 H3 H4 H5 H6;
    destruct (Hdet pre chunk post text s1 a1 w1 H1 H2 H3 H4 H5 H6) as (Hp & Htr & He);
    try (rewrite Hp, andb_false_r in Hfinal; discriminate);
    auto.
Qed.

(** *** The claims on the loop *)


End Properties.

(** * The claims on the scripted scenarios *)

Import Scenario.

(** The batch of a known tool, an unknown one, a throwing one and [done]:
    four entries, in order. *)
Example mixed_batch_history :
  let run := _processToolCalls (scripted silent_model) mixed_batch new_agent initial_world in
  outcome_of run = Returned {| doneToolCalled := true; requiresHumanInput := false |}
  /\ map entry_view (executionHistory (agent_of run))
     = [(0, Some "click", Some (JObj []), Some ok_output, None);
        (0, Some "fly", Some (JObj []), Some (error_result "Unknown tool: fly"), None);
        (0, Some "extract", Some (JObj []),
         Some (error_result "Tool execution failed: page crashed"), None);
        (0, Some "done", Some (JObj []), Some ok_output, None)].
Proof. vm_compute. split; reflexivity. Qed.

(** C2, on the code.  With a model that never calls a tool, the stall
    error thrown at the third empty turn is caught by the handler of the
    same iteration: the run goes on to the iteration cap, invokes the
    model 30 times, lets the no-tool-call counter reach 30, and fails with
    the iteration-limit error; the stall reason is never published. *)
Theorem silent_model_runs_to_the_iteration_cap :
  let run := execute (scripted silent_model) 0 Dynamic "task" new_agent initial_world in
  let run' := _executeDynamic (scripted silent_model) 0 "task" new_agent initial_world in
  outcome_of run = Thrown (Error "Maximum unified iterations (30) reached")
  /\ List.length (model_calls (trace (agent_of run))) = 30%nat
  /\ consecutiveNoToolCalls (agent_of run') = 30
  /\ iterations (agent_of run') = 30
  /\ existsb (fun text => includes text "no tool calls generated")
             (published_texts (agent_of run)) = false
  /\ skipn 61 (published_texts (agent_of run))
     = ["Task did not complete within 30 iterations";
        "Error: Maximum unified iterations (30) reached"].
Proof. vm_compute. repeat split; reflexivity. Qed.

(** C3, on the code.  A human-input request that nobody answers makes the
    wait return the timeout outcome after the timeout message; the loop
    then publishes that the human completed the action and goes on: the
    model is invoked again and the run completes. *)
Theorem unanswered_request_is_resumed :
  let C := scripted unanswered_request in
  let run := _executeDynamic C 1300 "task" new_agent initial_world in
  outcome_of (_waitForHumanInput C 1300 new_agent waiting_world) = Returned human_timeout
  /\ outcome_of run = Returned tt
  /\ published_texts (agent_of run)
     = ["Starting unified task execution..."; "I need help."; "I need help.";
        "⏱️ Human input timed out after 10 minutes";
        "✅ Human completed manual action. Continuing...";
        "Finishing."; "Finishing."; "Task completed successfully"]
  /\ List.length (model_calls (trace (agent_of run))) = 2%nat.
Proof. vm_compute. repeat split; reflexivity. Qed.

(** C9, on the code.  The user cancels while the first tool call of the
    batch of iteration 30 is in flight.  The check before the second call
    raises the cancellation error and that call is not dispatched (59
    dispatches in all), but the handler of the iteration catches the
    error and counts it as an error; the loop is at its cap, so the run
    ends with the iteration-limit error and two error messages instead of
    the cancelled outcome.  When the same happens in iteration 2, the
    check at the top of iteration 3 raises the error again and the run
    ends cancelled, the caught error having been counted all the same. *)
Theorem late_cancellation_is_reported_as_failure :
  let run := execute (scripted late_cancellation) 0 Dynamic "task" new_agent initial_world in
  let run' := execute (scripted early_cancellation) 0 Dynamic "task" new_agent initial_world in
  outcome_of run = Thrown (Error "Maximum unified iterations (30) reached")
  /\ cancelled (world_of run) = true
  /\ List.length (dispatches (trace (agent_of run))) = 59%nat
  /\ List.length (model_calls (trace (agent_of run))) = 30%nat
  /\ metric_errors (agent_of run) = 1
  /\ skipn 61 (published_texts (agent_of run))
     = ["Task did not complete within 30 iterations";
        "Error: Maximum unified iterations (30) reached"]
  /\ outcome_of run' = Thrown (AbortError None)
  /\ List.length (dispatches (trace (agent_of run'))) = 3%nat
  /\ List.length (model_calls (trace (agent_of run'))) = 2%nat
  /\ metric_errors (agent_of run') = 1.
Proof. vm_compute. repeat split; reflexivity. Qed.

(** C4, counterexample.  A history of seven calls renders to 129 tokens
    against a limit of 35.  The summarizer is asked for at most 100 tokens
    and answers with 41: the text returned by the compaction pass, and the
    single summary entry it leaves, exceed the limit. *)
Lemma summary_exceeds_token_limit :
  let C := scripted (small_context wordy_summarizer) in
  let run := _buildExecutionHistoryContext C (35 # 1) "submit the form"
                                          seasoned_agent initial_world in
  history_exceeds C (35 # 1) seasoned_agent = true
  /\ outcome_of run = Returned wordy_summary
  /\ TokenCounter_countMessage C wordy_summary = 41
  /\ Qltb (35 # 1) (inject_Z (TokenCounter_countMessage C wordy_summary)) = true
  /\ history_exceeds C (35 # 1) (agent_of run) = true.
Proof. vm_compute. repeat split; reflexivity. Qed.

(** C4, amended: an instance. *)
Lemma compaction_leaves_one_summary_entry_witness :
  let C := scripted (small_context wordy_summarizer) in
  executionHistory seasoned_agent <> []
  /\ history_exceeds C (35 # 1) seasoned_agent = true
  /\ invokeWithRetry C (summary_request (35 # 1) "submit the form" seasoned_agent)
                     initial_world
     = (Fulfilled (Some wordy_summary), initial_world)
  /\ exists a',
      _buildExecutionHistoryContext C (35 # 1) "submit the form" seasoned_agent initial_world
        = (Returned wordy_summary, a', initial_world)
      /\ executionHistory a' = [summary_entry seasoned_agent wordy_summary 0]
      /\ same_counters seasoned_agent a'
      /\ sum_maxTokens (summary_request (35 # 1) "submit the form" seasoned_agent)
         = Z.max 100 (Qfloor (35 # 1)).
Proof.
  cbv zeta.
  assert (H1 : executionHistory seasoned_agent <> []) by discriminate.
  assert (H2 : history_exceeds (scripted (small_context wordy_summarizer)) (35 # 1)
                               seasoned_agent = true) by reflexivity.
  assert (H3 : invokeWithRetry (scripted (small_context wordy_summarizer))
                 (summary_request (35 # 1) "submit the form" seasoned_agent) initial_world
               = (Fulfilled (Some wordy_summary), initial_world)) by reflexivity.
  split; [exact H1|]. split; [exact H2|]. split; [exact H3|].
  exact (compaction_leaves_one_summary_entry
           (scripted (small_context wordy_summarizer)) (35 # 1) "submit the form"
           seasoned_agent initial_world (Some wordy_summary) initial_world H1 H2 H3).
Defined.

(** C7: an instance, with a summarizer that fails and a history of seven
    calls: the text returned is that of the last five. *)
Lemma summarization_failure_falls_back_to_recent_entries_witness :
  let C := scripted (small_context no_summarizer) in
  executionHistory busy_agent <> []
  /\ history_exceeds C (35 # 1) busy_agent = true
  /\ invokeWithRetry C (summary_request (35 # 1) "submit the form" busy_agent)
                     initial_world
     = (Rejected "summarizer unavailable", initial_world)
  /\ exists a',
      _buildExecutionHistoryContext C (35 # 1) "submit the form" busy_agent initial_world
        = (Returned
             ("Iteration 2: Tool Call: type({}) Tool Result: type went through"
              ++ nl ++ nl
              ++ "Iteration 3: Tool Call: click({}) Tool Result: click went through"
              ++ nl ++ nl
              ++ "Iteration 3: Tool Call: scroll({}) Tool Result: scroll went through"
              ++ nl ++ nl
              ++ "Iteration 4: Tool Call: key({}) Tool Result: key went through"
              ++ nl ++ nl
              ++ "Iteration 4: Tool Call: extract({}) Tool Result: extract went through")%string,
           a', initial_world)
      /\ executionHistory a' = executionHistory busy_agent
      /\ same_counters busy_agent a'.
Proof.
  cbv zeta.
  assert (H1 : executionHistory busy_agent <> []) by discriminate.
  assert (H2 : history_exceeds (scripted (small_context no_summarizer)) (35 # 1)
                               busy_agent = true) by reflexivity.
  assert (H3 : invokeWithRetry (scripted (small_context no_summarizer))
                 (summary_request (35 # 1) "submit the form" busy_agent) initial_world
               = (Rejected "summarizer unavailable", initial_world)) by reflexivity.
  split; [exact H1|]. split; [exact H2|]. split; [exact H3|].
  exact (summarization_failure_falls_back_to_recent_entries
           (scripted (small_context no_summarizer)) (35 # 1) "submit the form"
           busy_agent initial_world "summarizer unavailable" initial_world H1 H2 H3).
Defined.

(** C5.  The model calls [human_input] and [done] in the batch of
    iteration 1, both results are ok, and the human aborts the request.
    A recorded result signals done, and no second iteration occurs; but
    the dynamic loop handles the human-input request before the
    completion: it waits for the human and ends with the abort error,
    the completion message never published.  The predefined loop, on the
    same batch, tests the completion first: it reports the completion at
    once, without waiting.  With [done] alone in the batch the dynamic
    loop reports the completion too. *)
Theorem done_beside_human_input_is_not_completed :
  let C := scripted done_with_aborted_request in
  let dynamic := _executeDynamic C 10 "task" new_agent initial_world in
  let predefined := _executePredefined C 10 "task" sample_plan new_agent initial_world in
  let alone := _executeDynamic (scripted done_at_once) 10 "task" new_agent initial_world in
  (map tool (executionHistory (agent_of dynamic)) = [Some "human_input"; Some "done"]
   /\ existsb (signals_done C) (executionHistory (agent_of dynamic)) = true
   /\ iterations (agent_of dynamic) = 1
   /\ List.length (model_calls (trace (agent_of dynamic))) = 1%nat
   /\ outcome_of dynamic = Thrown (AbortError (Some "Task aborted by human"))
   /\ published_texts (agent_of dynamic)
      = ["Starting unified task execution..."; "Almost there."; "Almost there.";
         "❌ Task aborted by human"]
   /\ clock (world_of dynamic) = 500)
  /\ (map tool (executionHistory (agent_of predefined))
      = [Some "human_input"; Some "done"]
      /\ iterations (agent_of predefined) = 1
      /\ List.length (model_calls (trace (agent_of predefined))) = 1%nat
      /\ outcome_of predefined = Returned tt
      /\ published_texts (agent_of predefined)
         = ["Starting predefined task: Form filler"; "Almost there."; "Almost there.";
            "Predefined task completed successfully"]
      /\ clock (world_of predefined) = 0)
  /\ (map tool (executionHistory (agent_of alone)) = [Some "done"]
      /\ List.length (model_calls (trace (agent_of alone))) = 1%nat
      /\ outcome_of alone = Returned tt
      /\ published_texts (agent_of alone)
         = ["Starting unified task execution..."; "Finishing."; "Finishing.";
            "Task completed successfully"]).
Proof. vm_compute. repeat split; reflexivity. Qed.




(** C6: an instance.  The marker is completed by the third chunk; the two
    texts published before it are followed by the placeholder and the
    reminder only, and the final message holds the tool call of the first
    chunk, streamed before the marker, and that of the fourth, streamed
    after it. *)
Lemma marker_stops_text_and_keeps_tool_calls_witness :
  let C := without_cancellation (scripted leaking_model) in
  let w0 := snd (llm_stream C sample_prompt initial_world) in
  never_cancelled C
  /\ llm_stream C sample_prompt initial_world = (Fulfilled leaking_stream, w0)
  /\ stream_failure leaking_stream = None
  /\ exists message a' w',
      _invokeLLMWithStreaming C sample_prompt new_agent initial_world
        = (Returned message, a', w')
      /\ ai_tool_calls message = [tool_call "click"; tool_call "done"]
      /\ ai_tool_calls message = flat_map snd (stream_chunks leaking_stream)
      /\ published_texts a'
         = ["Looking at "; "Looking at the page <browser-"; "Processing..."]
      /\ metric_errors a' = 1.
Proof.
  cbv zeta.
  set (C := without_cancellation (scripted leaking_model)).
  set (w0 := snd (llm_stream C sample_prompt initial_world)).
  assert (H1 : never_cancelled C) by (intros w; reflexivity).
  assert (H2 : llm_stream C sample_prompt initial_world = (Fulfilled leaking_stream, w0))
    by reflexivity.
  assert (H3 : stream_failure leaking_stream = None) by reflexivity.
  split; [exact H1|]. split; [exact H2|]. split; [exact H3|].
  destruct (marker_stops_text_and_keeps_tool_calls C sample_prompt new_agent initial_world
              leaking_stream w0 H1 H2 H3)
    as (message & a' & w' & Hrun & Htools & Hall & Hdet).
  exists message, a', w'. split; [exact Hrun|]. split; [rewrite Htools; reflexivity|].
  split; [apply Hall; intros c1 c2; reflexivity|].
  set (pre := streamChunks C [("Looking at ", [tool_call "click"]);
                              ("the page <browser-", [])]
                initial_stream_state (record_event (EvModelCall sample_prompt) new_agent)
                w0).
  assert (Hpre : exists s1,
             pre = (Returned s1, agent_of pre, world_of pre)
             /\ hasProhibitedContent s1 = false
             /\ currentMsgId s1 = Some "msg_assistant_1"%string
             /\ accumulatedText s1 = "Looking at the page <browser-"%string).
  { eexists. vm_compute. repeat split; reflexivity. }
  destruct Hpre as (s1 & Hpre & Hclean & Hid & Htext).
  destruct (Hdet [("Looking at ", [tool_call "click"]); ("the page <browser-", [])]
                 ("state>[1] button", []) [(" now", [tool_call "done"])]
                 "state>[1] button"%string s1 (agent_of pre) (world_of pre)
                 eq_refl Hpre Hclean eq_refl eq_refl) as [Htr He].
  { rewrite Htext. discriminate. }
  unfold published_texts. rewrite Htr, Hid, He. split; reflexivity.
Defined.

(** * Further properties of the agent *)

Section Coverage.

Context {World Chunk : Type}.
Variable C : Collaborators World Chunk.

Local Open Scope list_scope.

(** *** What the streaming filter adds to the trace *)

Lemma reminders_app tr1 tr2 : reminders (tr1 ++ tr2) = reminders tr1 ++ reminders tr2.
Proof.
  induction tr1 as [|e tr1 IH]; [reflexivity|].
  destruct e; cbn; rewrite IH; reflexivity.
Qed.

Lemma clean_publications_app tr1 tr2 :
  clean_publications tr1 -> clean_publications tr2 -> clean_publications (tr1 ++ tr2).
Proof.
  unfold clean_publications. intros H1 H2.
  rewrite publications_app. apply Forall_app. split; assumption.
Qed.

Lemma clean_publications_nil : clean_publications [].
Proof. constructor. Qed.

Lemma streamText_report text s a w :
  exists s' a' w' tr,
    streamText C text s a w = (Returned s', a', w')
    /\ trace a' = trace a ++ tr
    /\ clean_publications tr /\ model_calls tr = [] /\ dispatches tr = []
    /\ (hasProhibitedContent s' = false -> detect_prohibited (accumulatedText s') = None)
    /\ (if hasProhibitedContent s
        then tr = [] /\ hasProhibitedContent s' = true
             /\ metric_errors a' = metric_errors a
        else reminders tr = (if hasProhibitedContent s' then [SYSTEM_REMINDER] else [])
             /\ metric_errors a'
                = metric_errors a + (if hasProhibitedContent s' then 1 else 0)).
Proof.
  unfold streamText.
  destruct (hasProhibitedContent s) eqn:Hp.
  - munfold. cbn. exists {| accumulatedChunk := accumulatedChunk s;
                           accumulatedText := (accumulatedText s ++ text)%string;
                           hasStartedThinking := hasStartedThinking s;
                           currentMsgId := currentMsgId s;
                           hasProhibitedContent := true |}, a, w, [].
    rewrite app_nil_r. cbn. repeat split; try constructor; discriminate.
  - destruct (detect_prohibited (accumulatedText s ++ text)%string) as [tag|] eqn:Hd.
    + destruct (currentMsgId s) as [id|]; munfold; cbn.
      * do 3 eexists. eexists [_; _]. split; [reflexivity|]. cbn.
        rewrite <- app_assoc. cbn.
        repeat split; try discriminate.
        repeat constructor.
      * do 3 eexists. eexists [_]. split; [reflexivity|]. cbn.
        repeat split; try discriminate. constructor.
    + destruct (hasStartedThinking s) eqn:Hs.
      * destruct (currentMsgId s) as [id|]; munfold; cbn.
        -- do 3 eexists. eexists [_]. split; [reflexivity|]. cbn.
           repeat split; try (intros _; exact Hd); try lia.
           repeat constructor. exact Hd.
        -- do 3 eexists. exists []. split; [reflexivity|]. cbn. rewrite app_nil_r.
           repeat split; try (intros _; exact Hd); try lia. constructor.
      * munfold. cbn.
        destruct (PubSub_generateId C "msg_assistant" w) as [id w1]. cbn.
        do 3 eexists. eexists [_]. split; [reflexivity|]. cbn.
        repeat split; try (intros _; exact Hd); try lia.
        repeat constructor. exact Hd.
Qed.

(** *** Properties of the agent that every report keeps *)

Section Preserves.

Variable I : Agent -> Prop.
Hypothesis I_event : forall e a, I a -> I (record_event e a).
Hypothesis I_errors : forall a, I a -> I (incr_errors a).

Lemma preserves_ret {A} (x : A) : preserves (World := World) I (ret x).
Proof. intros a w H. exact H. Qed.

Lemma preserves_throw {A} (e : Exn) : preserves (World := World) I (@throw World A e).
Proof. intros a w H. exact H. Qed.

Lemma preserves_unfinished {A} : preserves (World := World) I (@unfinished World A).
Proof. intros a w H. exact H. Qed.

Lemma preserves_get : preserves (World := World) I get.
Proof. intros a w H. exact H. Qed.

Lemma preserves_observe {A} (f : World -> A) : preserves I (observe f).
Proof. intros a w H. exact H. Qed.

Lemma preserves_step (f : World -> World) : preserves I (step f).
Proof. intros a w H. exact H. Qed.

Lemma preserves_call {A} (f : World -> A * World) : preserves I (call f).
Proof. intros a w H. unfold call. destruct (f w). exact H. Qed.

Lemma preserves_await {A} (f : World -> Settled A * World) : preserves I (await f).
Proof. intros a w H. unfold await. destruct (f w) as [[x|r] w']; exact H. Qed.

Lemma preserves_modify (f : Agent -> Agent) :
  (forall a, I a -> I (f a)) -> preserves (World := World) I (modify f).
Proof. intros Hf a w H. apply Hf. exact H. Qed.

Lemma preserves_bind {A B} (c : @M World A) (k : A -> @M World B) :
  preserves I c -> (forall x, preserves I (k x)) -> preserves I (bind c k).
Proof.
  intros Hc Hk a w H. unfold bind. specialize (Hc a w H).
  destruct (c a w) as [[[x|e|] a1] w1]; cbn in Hc |- *; try exact Hc.
  apply Hk. exact Hc.
Qed.

Lemma preserves_try_catch {A} (c : @M World A) (handler : Exn -> @M World A) :
  preserves I c -> (forall e, preserves I (handler e)) -> preserves I (try_catch c handler).
Proof.
  intros Hc Hh a w H. unfold try_catch. specialize (Hc a w H).
  destruct (c a w) as [[[x|e|] a1] w1]; cbn in Hc |- *; try exact Hc.
  apply Hh. exact Hc.
Qed.

Ltac preserve_step known :=
  first
    [ known
    | apply preserves_bind | apply preserves_try_catch | apply preserves_ret
    | apply preserves_throw | apply preserves_unfinished | apply preserves_get
    | apply preserves_observe | apply preserves_step | apply preserves_call
    | apply preserves_await
    | apply preserves_modify; intros ? ?;
      first [apply I_event; assumption | apply I_errors; assumption]
    | match goal with
      | |- forall _, _ => intro
      | |- preserves _ (if ?b then _ else _) => destruct b
      | |- preserves _ (match ?x with _ => _ end) => destruct x
      end ].

Ltac preserve_with known := repeat preserve_step known.

Lemma checkIfAborted_preserves : preserves I (checkIfAborted C).
Proof. unfold checkIfAborted. preserve_with fail. Qed.

Lemma publishMessage_preserves m : preserves (World := World) I (publishMessage m).
Proof. unfold publishMessage. preserve_with fail. Qed.

Lemma emitDevModeDebug_preserves action details :
  preserves I (_emitDevModeDebug C action details).
Proof. unfold _emitDevModeDebug, _publishMessage, publishMessage. preserve_with fail. Qed.

Lemma invokeTool_preserves name arguments : preserves I (invokeTool C name arguments).
Proof.
  unfold invokeTool. destruct (toolManager_get C name) as [toolFunc|].
  - apply preserves_try_catch.
    + intros a w H. destruct (toolFunc arguments w) as [[output|message] w'];
        apply I_event; exact H.
    + intros e. preserve_with ltac:(apply emitDevModeDebug_preserves).
  - preserve_with ltac:(apply emitDevModeDebug_preserves).
Qed.

Lemma streamChunks_preserves chunks :
  forall s, preserves I (streamChunks C chunks s).
Proof.
  induction chunks as [|chunk rest IH]; intros s; cbn [streamChunks].
  - apply preserves_ret.
  - unfold streamChunk, streamText.
    preserve_with ltac:(first [apply checkIfAborted_preserves
                              | apply publishMessage_preserves | apply IH]).
Qed.

Lemma invokeLLMWithStreaming_preserves prompt :
  preserves I (_invokeLLMWithStreaming C prompt).
Proof.
  unfold _invokeLLMWithStreaming.
  preserve_with ltac:(first [apply streamChunks_preserves
                            | apply publishMessage_preserves]).
Qed.

Lemma pollHumanInput_preserves polls :
  forall startTime, preserves I (pollHumanInput C polls startTime).
Proof.
  induction polls as [|polls IH]; intros startTime; cbn [pollHumanInput];
    unfold _publishMessage;
    preserve_with ltac:(first [apply publishMessage_preserves | apply IH]).
Qed.

Lemma handleHumanInput_preserves polls result :
  preserves I (handleHumanInput C polls result).
Proof.
  unfold handleHumanInput, _waitForHumanInput, _publishMessage.
  preserve_with ltac:(first [apply publishMessage_preserves
                            | apply pollHumanInput_preserves]).
Qed.

(** **** Properties kept by whole runs *)

Section PreservesRun.

Hypothesis I_observations : forall a, I a -> I (incr_observations a).
Hypothesis I_no_tool_calls : forall n a, I a -> I (set_consecutiveNoToolCalls n a).
Hypothesis I_next : forall a, I a -> I (set_iterations (iterations a + 1) a).
Hypothesis I_record :
  forall a toolName arguments toolResult now,
    I a ->
    I (set_executionHistory
         (executionHistory a ++
            [{| iteration := iterations a; tool := Some toolName;
                args := Some arguments; result := Some toolResult;
                summary := None; timestamp := now |}]) a).
Hypothesis I_compact :
  forall a summaryText now,
    I a ->
    I (set_executionHistory
         [{| iteration := iterations a - 1; tool := None; args := None;
             result := None; summary := Some summaryText; timestamp := now |}] a).

Ltac preserve_run known :=
  repeat first
    [ preserve_step known
    | apply preserves_modify; intros ? ?;
      first [ apply I_observations; assumption
            | apply I_no_tool_calls; assumption
            | apply I_next; assumption
            | apply I_record; assumption
            | apply I_compact; assumption ] ].

Lemma processToolCalls_preserves toolCalls : preserves I (_processToolCalls C toolCalls).
Proof.
  unfold _processToolCalls.
  generalize {| doneToolCalled := false; requiresHumanInput := false |}.
  induction toolCalls as [|toolCall rest IH]; intros result; cbn [processToolCalls_from].
  - apply preserves_ret.
  - unfold processToolCall, _maybeStartGlowAnimation.
    preserve_run ltac:(first [apply checkIfAborted_preserves | apply emitDevModeDebug_preserves
                             | apply invokeTool_preserves | apply IH]).
Qed.

Lemma buildExecutionHistoryContext_preserves tokenLimit userTask :
  preserves I (_buildExecutionHistoryContext C tokenLimit userTask).
Proof.
  unfold _buildExecutionHistoryContext, _summarizeExecutionHistory. preserve_run fail.
Qed.

(** An agent call keeps what holds once the observation is counted. *)
Lemma runAgent_counts mode task a w :
  I (incr_observations a) -> I (snd (fst (runAgent C mode task a w))).
Proof.
  intros H. unfold runAgent, try_catch. unfold bind at 1, modify at 1.
  match goal with
  | |- context [match ?c (incr_observations a) w with _ => _ end] =>
      assert (Hc : preserves I c)
        by (preserve_run ltac:(first [apply buildExecutionHistoryContext_preserves
                                     | apply invokeLLMWithStreaming_preserves
                                     | apply processToolCalls_preserves]));
      specialize (Hc (incr_observations a) w H);
      destruct (c (incr_observations a) w) as [[[r|e|] a1] w1]
  end; cbn in Hc |- *; try exact Hc.
  munfold. cbn. apply I_errors. exact Hc.
Qed.

Lemma runAgent_preserves mode task : preserves I (runAgent C mode task).
Proof.
  unfold runAgent.
  preserve_run ltac:(first [apply buildExecutionHistoryContext_preserves
                           | apply invokeLLMWithStreaming_preserves
                           | apply processToolCalls_preserves]).
Qed.

Lemma executeDynamic_loop_preserves polls task :
  forall fuel, preserves I (_executeDynamic_loop C polls fuel task).
Proof.
  induction fuel as [|fuel IH]; cbn [_executeDynamic_loop];
    unfold _runDynamicAgent, _publishMessage;
    preserve_run ltac:(first [apply checkIfAborted_preserves | apply runAgent_preserves
                             | apply handleHumanInput_preserves
                             | apply publishMessage_preserves | apply IH]).
Qed.

Lemma executePredefined_loop_preserves polls task plan :
  forall fuel, preserves I (_executePredefined_loop C polls fuel task plan).
Proof.
  induction fuel as [|fuel IH]; cbn [_executePredefined_loop];
    unfold _runPredefinedAgent, _publishMessage;
    preserve_run ltac:(first [apply checkIfAborted_preserves | apply runAgent_preserves
                             | apply handleHumanInput_preserves
                             | apply publishMessage_preserves | apply IH]).
Qed.

Lemma executeDynamic_preserves polls task : preserves I (_executeDynamic C polls task).
Proof.
  unfold _executeDynamic, _publishMessage.
  preserve_run ltac:(first [apply publishMessage_preserves
                           | apply executeDynamic_loop_preserves]).
Qed.

Lemma executePredefined_preserves polls task plan :
  preserves I (_executePredefined C polls task plan).
Proof.
  unfold _executePredefined, _publishMessage.
  preserve_run ltac:(first [apply publishMessage_preserves
                           | apply executePredefined_loop_preserves]).
Qed.

End PreservesRun.

End Preserves.

Lemma streamChunk_report chunk s a w :
  (hasProhibitedContent s = false -> detect_prohibited (accumulatedText s) = None) ->
  (abortSignal_aborted C w = true
   /\ streamChunk C chunk s a w = (Thrown (AbortError None), a, w))
  \/ exists s' a' w' tr,
      streamChunk C chunk s a w = (Returned s', a', w')
      /\ trace a' = trace a ++ tr
      /\ clean_publications tr /\ model_calls tr = [] /\ dispatches tr = []
      /\ (hasProhibitedContent s' = false -> detect_prohibited (accumulatedText s') = None)
      /\ (if hasProhibitedContent s
          then tr = [] /\ hasProhibitedContent s' = true
               /\ metric_errors a' = metric_errors a
          else reminders tr = (if hasProhibitedContent s' then [SYSTEM_REMINDER] else [])
               /\ metric_errors a'
                  = metric_errors a + (if hasProhibitedContent s' then 1 else 0)).
Proof.
  intros Hclean.
  assert (Hcheck : checkIfAborted C a w
                   = if abortSignal_aborted C w
                     then (Thrown (AbortError None), a, w)
                     else (Returned tt, a, w)).
  { unfold checkIfAborted. munfold. destruct (abortSignal_aborted C w); reflexivity. }
  destruct (abortSignal_aborted C w) eqn:Hab.
  - left. split; [reflexivity|].
    unfold streamChunk. unfold bind at 1. rewrite Hcheck. reflexivity.
  - right. unfold streamChunk. unfold bind at 1. rewrite Hcheck. unfold bind at 1.
    assert (Hsame : exists tr,
               trace a = trace a ++ tr
               /\ clean_publications tr /\ model_calls tr = [] /\ dispatches tr = []
               /\ (hasProhibitedContent s = false ->
                   detect_prohibited (accumulatedText s) = None)
               /\ (if hasProhibitedContent s
                   then tr = [] /\ hasProhibitedContent s = true
                        /\ metric_errors a = metric_errors a
                   else reminders tr
                        = (if hasProhibitedContent s then [SYSTEM_REMINDER] else [])
                        /\ metric_errors a
                           = metric_errors a
                             + (if hasProhibitedContent s then 1 else 0))).
    { exists []. rewrite app_nil_r.
      repeat split; try apply clean_publications_nil; try assumption.
      destruct (hasProhibitedContent s); repeat split; lia. }
    destruct (chunk_content C chunk) as [text|]; [destruct (truthy text)|].
    + destruct (streamText_report text s a w) as (s1 & a1 & w1 & tr & Hrun & Hrest).
      rewrite Hrun. unfold ret.
      eexists _, a1, w1, tr. split; [reflexivity|]. exact Hrest.
    + destruct Hsame as (tr & Hrest). unfold ret.
      eexists _, a, w, tr. split; [reflexivity|]. exact Hrest.
    + destruct Hsame as (tr & Hrest). unfold ret.
      eexists _, a, w, tr. split; [reflexivity|]. exact Hrest.
Qed.

(** The whole stream: [b] tells whether a marker was detected in it. *)
Lemma streamChunks_report chunks :
  forall s a w,
  (hasProhibitedContent s = false -> detect_prohibited (accumulatedText s) = None) ->
  exists o a' w' tr (b : bool),
    streamChunks C chunks s a w = (o, a', w')
    /\ trace a' = trace a ++ tr
    /\ clean_publications tr /\ model_calls tr = [] /\ dispatches tr = []
    /\ reminders tr
       = (if hasProhibitedContent s then [] else if b then [SYSTEM_REMINDER] else [])
    /\ metric_errors a'
       = metric_errors a + (if hasProhibitedContent s then 0 else if b then 1 else 0)
    /\ match o with
       | Returned s' =>
           hasProhibitedContent s' = hasProhibitedContent s || b
           /\ (hasProhibitedContent s' = false ->
               detect_prohibited (accumulatedText s') = None)
       | Thrown (AbortError _) => True
       | _ => False
       end.
Proof.
  induction chunks as [|chunk rest IH]; intros s a w Hclean.
  - exists (Returned s), a, w, [], false. cbn. unfold ret. rewrite app_nil_r, orb_false_r.
    repeat split; try apply clean_publications_nil; try assumption;
      destruct (hasProhibitedContent s); first [reflexivity | lia].
  - cbn [streamChunks]. unfold bind at 1, step at 1. unfold bind at 1.
    destruct (streamChunk_report chunk s a (next_chunk C w) Hclean)
      as [[Hab Hrun] | (s1 & a1 & w1 & tr1 & Hrun & Htr & Hc & Hm & Hd & Hclean1 & Hflag)].
    + rewrite Hrun. exists (Thrown (AbortError None)), a, (next_chunk C w), [], false.
      rewrite app_nil_r.
      repeat split; try apply clean_publications_nil;
        destruct (hasProhibitedContent s); first [reflexivity | lia].
    + rewrite Hrun.
      destruct (IH s1 a1 w1 Hclean1)
        as (o & a' & w' & tr2 & b & Hrest & Htr' & Hc' & Hm' & Hd' & Hr' & He' & Ho).
      rewrite Hrest.
      exists o, a', w', (tr1 ++ tr2), (hasProhibitedContent s1 || b).
      split; [reflexivity|].
      rewrite Htr', Htr, app_assoc. split; [reflexivity|].
      split; [apply clean_publications_app; assumption|].
      rewrite model_calls_app, dispatches_app, reminders_app, Hm, Hm', Hd, Hd'.
      split; [reflexivity|]. split; [reflexivity|].
      destruct (hasProhibitedContent s) eqn:Hp.
      * destruct Hflag as (-> & Hp1 & He1). rewrite Hp1 in *. cbn in *.
        split; [exact Hr'|]. split; [lia|].
        destruct o as [s'|[m|m]|]; try exact Ho.
      * destruct Hflag as (Hr1 & He1). rewrite Hr1, Hr'.
        destruct (hasProhibitedContent s1) eqn:Hp1; cbn.
        -- split; [reflexivity|]. split; [lia|].
           destruct o as [s'|[m|m]|]; try exact Ho.
        -- split; [reflexivity|]. split; [lia|].
           destruct o as [s'|[m|m]|]; try exact Ho.
Qed.

(** One invocation of the model: the call is recorded once, before the
    stream is awaited; [b] tells whether a marker was detected. *)
Lemma invokeLLMWithStreaming_report prompt a w :
  exists o a' w' tr (b : bool),
    _invokeLLMWithStreaming C prompt a w = (o, a', w')
    /\ trace a' = trace a ++ tr
    /\ clean_publications tr
    /\ model_calls tr = [prompt]
    /\ dispatches tr = []
    /\ reminders tr = (if b then [SYSTEM_REMINDER] else [])
    /\ metric_errors a' = metric_errors a + (if b then 1 else 0)
    /\ iterations a' = iterations a
    /\ executionHistory a' = executionHistory a.
Proof.
  unfold _invokeLLMWithStreaming.
  unfold bind at 1, modify at 1. unfold bind at 1, await at 1.
  destruct (llm_stream C prompt w) as [[stream|reason] w0].
  - unfold bind at 1.
    destruct (streamChunks_report (stream_chunks stream) initial_stream_state
                (record_event (EvModelCall prompt) a) w0)
      as (o & a1 & w1 & tr & b & Hrun & Htr & Hc & Hm & Hd & Hr & He & Ho);
      [intros _; reflexivity|].
    assert (Hframe : iterations a1 = iterations a
                     /\ executionHistory a1 = executionHistory a).
    { pose proof (streamChunks_preserves
                    (fun x => iterations x = iterations a
                              /\ executionHistory x = executionHistory a)
                    (fun e x H => H) (fun x H => H)
                    (stream_chunks stream) initial_stream_state
                    (record_event (EvModelCall prompt) a) w0 (conj eq_refl eq_refl)) as H.
      rewrite Hrun in H. exact H. }
    destruct Hframe as [Hi Hh].
    rewrite Hrun. cbn in Htr, Hr, He.
    assert (Hbase : trace a1 = trace a ++ EvModelCall prompt :: tr)
      by (rewrite Htr, <- app_assoc; reflexivity).
    assert (Hc1 : clean_publications (EvModelCall prompt :: tr)) by exact Hc.
    assert (Hm1 : model_calls (EvModelCall prompt :: tr) = [prompt])
      by (cbn; rewrite Hm; reflexivity).
    assert (Hd1 : dispatches (EvModelCall prompt :: tr) = []) by exact Hd.
    assert (Hr1 : reminders (EvModelCall prompt :: tr)
                  = (if b then [SYSTEM_REMINDER] else [])) by exact Hr.
    destruct o as [s|[m|m]|]; try contradiction.
    + destruct Ho as [Hflag Hclean]. cbn in Hflag.
      destruct (stream_failure stream) as [reason|].
      * cbn. eexists _, a1, _, (EvModelCall prompt :: tr), b.
        split; [reflexivity|]. repeat split; assumption.
      * unfold bind at 1, ret at 1. unfold bind at 1.
        destruct (accumulatedChunk s) as [acc|];
        (destruct (currentMsgId s) as [id|];
          [destruct (hasStartedThinking s && negb (hasProhibitedContent s)
                     && truthy (trim (accumulatedText s))) eqn:Hfinal|]).
        all: try (unfold ret at 1;
                  eexists _, a1, _, (EvModelCall prompt :: tr), b;
                  split; [reflexivity|]; repeat split; assumption).
        -- assert (Hp : hasProhibitedContent s = false).
           { destruct (hasProhibitedContent s); [|reflexivity].
             rewrite andb_false_r in Hfinal. discriminate. }
           unfold publishMessage, modify.
           eexists _, _, _,
             ((EvModelCall prompt :: tr)
                ++ [EvPublish {| msgId := Some id; content := accumulatedText s;
                                 msgType := thinking |}]), b.
           split; [reflexivity|].
           cbn [record_event trace metric_errors iterations executionHistory].
           rewrite Hbase, <- app_assoc.
           rewrite model_calls_app, dispatches_app, reminders_app, Hm1, Hd1, Hr1.
           cbn [model_calls dispatches reminders]. rewrite !app_nil_r.
           repeat split; try assumption.
           apply clean_publications_app; [exact Hc1|].
           repeat constructor. cbn. apply Hclean. exact Hp.
        -- assert (Hp : hasProhibitedContent s = false).
           { destruct (hasProhibitedContent s); [|reflexivity].
             rewrite andb_false_r in Hfinal. discriminate. }
           unfold publishMessage, modify.
           eexists _, _, _,
             ((EvModelCall prompt :: tr)
                ++ [EvPublish {| msgId := Some id; content := accumulatedText s;
                                 msgType := thinking |}]), b.
           split; [reflexivity|].
           cbn [record_event trace metric_errors iterations executionHistory].
           rewrite Hbase, <- app_assoc.
           rewrite model_calls_app, dispatches_app, reminders_app, Hm1, Hd1, Hr1.
           cbn [model_calls dispatches reminders]. rewrite !app_nil_r.
           repeat split; try assumption.
           apply clean_publications_app; [exact Hc1|].
           repeat constructor. cbn. apply Hclean. exact Hp.
    + cbn. eexists _, a1, _, (EvModelCall prompt :: tr), b.
      split; [reflexivity|]. repeat split; assumption.
  - cbn. eexists _, _, _, [EvModelCall prompt], false.
    split; [reflexivity|]. cbn.
    repeat split; try apply clean_publications_nil. lia.
Qed.

(** X1.  Whatever the model streams, and whether the stream ends, fails
    or is cut by a cancellation, no message published during
    [_invokeLLMWithStreaming] contains one of the four prohibited tags:
    the accumulated text is published only while no tag has been found
    in it, and the placeholder carries none. *)
Theorem streaming_never_publishes_a_prohibited_tag :
  forall prompt a w,
  exists o a' w' tr,
    _invokeLLMWithStreaming C prompt a w = (o, a', w')
    /\ trace a' = trace a ++ tr
    /\ Forall (fun m => detect_prohibited (content m) = None) (publications tr).
Proof.
  intros prompt a w.
  destruct (invokeLLMWithStreaming_report prompt a w)
    as (o & a' & w' & tr & b & Hrun & Htr & Hc & _).
  exists o, a', w', tr. repeat split; assumption.
Qed.

(** X2.  One invocation of the model records exactly one model call and
    dispatches no tool; the corrective reminder is queued at most once
    and the error metric is incremented by the same amount, however many
    chunks carry a marker after the first detection; the iteration
    counter and the execution history are left as they were. *)
Theorem marker_is_reported_at_most_once :
  forall prompt a w,
  exists o a' w' tr (detected : bool),
    _invokeLLMWithStreaming C prompt a w = (o, a', w')
    /\ trace a' = trace a ++ tr
    /\ model_calls tr = [prompt]
    /\ dispatches tr = []
    /\ reminders tr = (if detected then [SYSTEM_REMINDER] else [])
    /\ metric_errors a' = metric_errors a + (if detected then 1 else 0)
    /\ iterations a' = iterations a
    /\ executionHistory a' = executionHistory a.
Proof.
  intros prompt a w.
  destruct (invokeLLMWithStreaming_report prompt a w)
    as (o & a' & w' & tr & b & Hrun & Htr & Hc & Hm & Hd & Hr & He & Hi & Hh).
  exists o, a', w', tr, b. repeat split; assumption.
Qed.

(** *** What the methods add to the trace *)

Lemma emits_weaken {A} (P Q : list Event -> Prop) (c : @M World A) :
  emits P c -> (forall t, P t -> Q t) -> emits Q c.
Proof.
  intros Hc HPQ a w. destruct (Hc a w) as (tr & Htr & HP).
  exists tr. split; [exact Htr | apply HPQ; exact HP].
Qed.

Lemma emits_bind {A B} (P Q R : list Event -> Prop)
      (c : @M World A) (k : A -> @M World B) :
  emits P c -> (forall x, emits Q (k x)) ->
  (forall t, P t -> R t) ->
  (forall t1 t2, P t1 -> Q t2 -> R (t1 ++ t2)) ->
  emits R (bind c k).
Proof.
  intros Hc Hk HPR HPQR a w. unfold bind. destruct (Hc a w) as (tr & Htr & HP).
  destruct (c a w) as [[[x|e|] a1] w1]; cbn in Htr |- *.
  - destruct (Hk x a1 w1) as (tr2 & Htr2 & HQ).
    exists (tr ++ tr2). rewrite Htr2, Htr, app_assoc. split; [reflexivity|].
    apply HPQR; assumption.
  - exists tr. split; [exact Htr | apply HPR; exact HP].
  - exists tr. split; [exact Htr | apply HPR; exact HP].
Qed.

Lemma emits_try_catch {A} (P Q R : list Event -> Prop)
      (c : @M World A) (handler : Exn -> @M World A) :
  emits P c -> (forall e, emits Q (handler e)) ->
  (forall t, P t -> R t) ->
  (forall t1 t2, P t1 -> Q t2 -> R (t1 ++ t2)) ->
  emits R (try_catch c handler).
Proof.
  intros Hc Hh HPR HPQR a w. unfold try_catch. destruct (Hc a w) as (tr & Htr & HP).
  destruct (c a w) as [[[x|e|] a1] w1]; cbn in Htr |- *.
  - exists tr. split; [exact Htr | apply HPR; exact HP].
  - destruct (Hh e a1 w1) as (tr2 & Htr2 & HQ).
    exists (tr ++ tr2). rewrite Htr2, Htr, app_assoc. split; [reflexivity|].
    apply HPQR; assumption.
  - exists tr. split; [exact Htr | apply HPR; exact HP].
Qed.

Section Emits.

(** A property of traces that holds of the empty trace, of
    concatenations, of every single event that is neither a model
    invocation nor an error message, and of the timeout message. *)
Variable P : list Event -> Prop.
Hypothesis P_nil : P [].
Hypothesis P_app : forall t1 t2, P t1 -> P t2 -> P (t1 ++ t2).
Hypothesis P_quiet : forall e, quiet e = true -> P [e].
Hypothesis P_timeout : P [EvPublish timeout_message].

Lemma emits_same {A} (c : @M World A) :
  (forall a w, snd (fst (c a w)) = a) -> emits P c.
Proof.
  intros H a w. exists []. rewrite H, app_nil_r. split; [reflexivity | exact P_nil].
Qed.

Lemma emits_modify (f : Agent -> Agent) :
  (forall a, exists tr, trace (f a) = trace a ++ tr /\ P tr) ->
  emits (World := World) P (modify f).
Proof. intros H a w. apply H. Qed.

Lemma emits_seq {A B} (c : @M World A) (k : A -> @M World B) :
  emits P c -> (forall x, emits P (k x)) -> emits P (bind c k).
Proof.
  intros Hc Hk. apply (emits_bind P P P); auto.
Qed.

Lemma emits_catch {A} (c : @M World A) (handler : Exn -> @M World A) :
  emits P c -> (forall e, emits P (handler e)) -> emits P (try_catch c handler).
Proof.
  intros Hc Hh. apply (emits_try_catch P P P); auto.
Qed.

Ltac emit_leaf :=
  first
    [ apply emits_same; intros ? ?; reflexivity
    | apply emits_same; intros ? ?; unfold call, await;
      match goal with |- context [let '(_, _) := ?f ?w in _] => destruct (f w) end;
      reflexivity
    | apply emits_same; intros ? ?; unfold await;
      match goal with |- context [match ?f ?w with _ => _ end] =>
        destruct (f w) as [[?|?] ?] end;
      reflexivity
    | apply emits_modify; intros ?; exists []; split;
      [cbn; rewrite app_nil_r; reflexivity | exact P_nil]
    | apply emits_modify; intros ?; eexists [_]; split;
      [reflexivity | first [apply P_quiet; reflexivity | exact P_timeout]] ].

Ltac emit_step known :=
  first
    [ known
    | apply emits_seq | apply emits_catch
    | emit_leaf
    | match goal with
      | |- forall _, _ => intro
      | |- emits _ (if ?b then _ else _) => destruct b
      | |- emits _ (match ?x with _ => _ end) => destruct x
      end ].

Ltac emit_with known := repeat emit_step known.

Lemma checkIfAborted_emits : emits P (checkIfAborted C).
Proof. unfold checkIfAborted. emit_with fail. Qed.

Lemma emitDevModeDebug_emits action details :
  emits P (_emitDevModeDebug C action details).
Proof. unfold _emitDevModeDebug, _publishMessage, publishMessage. emit_with fail. Qed.

Lemma invokeTool_emits name arguments : emits P (invokeTool C name arguments).
Proof.
  unfold invokeTool. destruct (toolManager_get C name) as [toolFunc|].
  - apply emits_catch.
    + intros a w. destruct (toolFunc arguments w) as [[output|message] w'];
        eexists [_]; (split; [reflexivity | apply P_quiet; reflexivity]).
    + intros e. emit_with ltac:(apply emitDevModeDebug_emits).
  - emit_with ltac:(apply emitDevModeDebug_emits).
Qed.

Lemma processToolCalls_emits toolCalls : emits P (_processToolCalls C toolCalls).
Proof.
  unfold _processToolCalls.
  generalize {| doneToolCalled := false; requiresHumanInput := false |}.
  induction toolCalls as [|toolCall rest IH]; intros result; cbn [processToolCalls_from].
  - emit_with fail.
  - unfold processToolCall, _maybeStartGlowAnimation.
    emit_with ltac:(first [apply checkIfAborted_emits | apply emitDevModeDebug_emits
                          | apply invokeTool_emits | apply IH]).
Qed.

Lemma buildExecutionHistoryContext_emits tokenLimit userTask :
  emits P (_buildExecutionHistoryContext C tokenLimit userTask).
Proof.
  unfold _buildExecutionHistoryContext, _summarizeExecutionHistory. emit_with fail.
Qed.

Lemma pollHumanInput_emits polls :
  forall startTime, emits P (pollHumanInput C polls startTime).
Proof.
  induction polls as [|polls IH]; intros startTime; cbn [pollHumanInput];
    unfold _publishMessage, publishMessage, unfinished;
    emit_with ltac:(apply IH).
Qed.

Lemma handleHumanInput_emits polls result : emits P (handleHumanInput C polls result).
Proof.
  unfold handleHumanInput, _waitForHumanInput, _publishMessage, publishMessage.
  emit_with ltac:(apply pollHumanInput_emits).
Qed.

(** **** With the model invocations *)

Section EmitsRun.

Hypothesis P_model : forall p, P [EvModelCall p].
Hypothesis P_limit_dynamic : P [EvPublish (limit_message Dynamic)].
Hypothesis P_limit_predefined :
  forall predefinedPlan, P [EvPublish (limit_message (Predefined predefinedPlan))].

Lemma streamChunks_emits chunks : forall s, emits P (streamChunks C chunks s).
Proof.
  induction chunks as [|chunk rest IH]; intros s; cbn [streamChunks].
  - emit_with fail.
  - unfold streamChunk, streamText, publishMessage.
    emit_with ltac:(first [apply checkIfAborted_emits | apply IH]).
Qed.

Lemma invokeLLMWithStreaming_emits prompt : emits P (_invokeLLMWithStreaming C prompt).
Proof.
  unfold _invokeLLMWithStreaming, publishMessage.
  apply emits_seq.
  - apply emits_modify. intros a. eexists [_]. split; [reflexivity | apply P_model].
  - emit_with ltac:(apply streamChunks_emits).
Qed.

Lemma runAgent_emits mode task : emits P (runAgent C mode task).
Proof.
  unfold runAgent.
  emit_with ltac:(first [apply buildExecutionHistoryContext_emits
                        | apply invokeLLMWithStreaming_emits
                        | apply processToolCalls_emits]).
Qed.

Lemma executeDynamic_loop_emits polls task :
  forall fuel, emits P (_executeDynamic_loop C polls fuel task).
Proof.
  induction fuel as [|fuel IH]; cbn [_executeDynamic_loop];
    unfold _runDynamicAgent, _publishMessage, publishMessage, unfinished;
    emit_with ltac:(first [apply checkIfAborted_emits | apply runAgent_emits
                          | apply handleHumanInput_emits | apply IH]).
Qed.

Lemma executePredefined_loop_emits polls task plan :
  forall fuel, emits P (_executePredefined_loop C polls fuel task plan).
Proof.
  induction fuel as [|fuel IH]; cbn [_executePredefined_loop];
    unfold _runPredefinedAgent, _publishMessage, publishMessage, unfinished;
    emit_with ltac:(first [apply checkIfAborted_emits | apply runAgent_emits
                          | apply handleHumanInput_emits | apply IH]).
Qed.

Lemma executeDynamic_emits polls task : emits P (_executeDynamic C polls task).
Proof.
  unfold _executeDynamic, _publishMessage, publishMessage.
  emit_with ltac:(first [apply executeDynamic_loop_emits
                        | apply emits_modify; intros ?; eexists [_]; split;
                          [reflexivity | exact P_limit_dynamic]]).
Qed.

Lemma executePredefined_emits polls task plan :
  emits P (_executePredefined C polls task plan).
Proof.
  unfold _executePredefined, _publishMessage, publishMessage.
  emit_with ltac:(first [apply executePredefined_loop_emits
                        | apply emits_modify; intros ?; eexists [_]; split;
                          [reflexivity | exact (P_limit_predefined plan)]]).
Qed.

End EmitsRun.

End Emits.

Lemma quiet_no_model_call e : quiet e = true -> model_calls [e] = [].
Proof. destruct e; cbn; congruence. Qed.

(** *** Model invocations of an iteration and of a run *)

Lemma no_model_call_app tr1 tr2 :
  no_model_call tr1 -> no_model_call tr2 -> no_model_call (tr1 ++ tr2).
Proof.
  unfold no_model_call. intros H1 H2. rewrite (model_calls_app tr1 tr2), H1, H2. reflexivity.
Qed.

Lemma run_eta {A} (r : Outcome A * Agent * World) :
  r = (fst (fst r), snd (fst r), snd r).
Proof. destruct r as [[o a] w]. reflexivity. Qed.

(** One call of the agent invokes the model at most once, with a prompt
    that carries the mode, the task and the current iteration number. *)
Lemma runAgent_model_calls mode task a w :
  exists tr,
    trace (snd (fst (runAgent C mode task a w))) = trace a ++ tr
    /\ (model_calls tr = []
        \/ exists p, model_calls tr = [p]
                     /\ prompt_iterations p = iterations a
                     /\ prompt_mode p = mode /\ prompt_task p = task).
Proof.
  pose proof (fun t u => buildExecutionHistoryContext_emits no_model_call
                eq_refl no_model_call_app quiet_no_model_call t u) as Hbuild.
  pose proof (fun calls => processToolCalls_emits no_model_call
                eq_refl no_model_call_app quiet_no_model_call calls) as Hcalls.
  unfold runAgent, try_catch.
  unfold bind at 1. unfold modify at 1.
  unfold bind at 1.
  match goal with
  | |- context [_buildExecutionHistoryContext C ?lim task ?a1 w] =>
      destruct (Hbuild lim task a1 w) as (t1 & Ht1 & Hn1);
      pose proof (proj1 (buildExecutionHistoryContext_composes C lim task) a1 w) as Hi1;
      destruct (_buildExecutionHistoryContext C lim task a1 w) as [[[ctx|e|] a2] w2]
  end; cbn in Ht1, Hi1.
  2: { munfold. cbn. exists t1. split; [exact Ht1 | left; exact Hn1]. }
  2: { cbn. exists t1. split; [exact Ht1 | left; exact Hn1]. }
  unfold bind at 1. unfold await at 1.
  destruct (getBrowserStateMessage C w2) as [[state|reason] w3].
  2: { munfold. cbn. exists t1. split; [exact Ht1 | left; exact Hn1]. }
  unfold bind at 1. unfold get at 1. unfold bind at 1.
  match goal with
  | |- context [_invokeLLMWithStreaming C ?p a2 w3] =>
      destruct (invokeLLMWithStreaming_report p a2 w3)
        as (o & a4 & w4 & t2 & b & Hrun & Ht2 & _ & Hm2 & _ & _ & _ & Hi2 & _);
      rewrite Hrun
  end.
  assert (Hone : forall t3, no_model_call t3 ->
            model_calls ((t1 ++ t2) ++ t3) = []
            \/ exists p, model_calls ((t1 ++ t2) ++ t3) = [p]
                         /\ prompt_iterations p = iterations a
                         /\ prompt_mode p = mode /\ prompt_task p = task).
  { intros t3 Hn3. right. eexists. split.
    - rewrite !model_calls_app. unfold no_model_call in Hn1, Hn3.
      rewrite Hn1, Hm2, Hn3. reflexivity.
    - cbn. repeat split. exact Hi1. }
  assert (Htr : trace a4 = trace a ++ (t1 ++ t2)).
  { rewrite Ht2, Ht1. cbn. rewrite app_assoc. reflexivity. }
  destruct o as [resp|e|].
  2: { munfold. cbn. exists ((t1 ++ t2) ++ []). rewrite app_nil_r.
       split; [exact Htr|]. specialize (Hone [] eq_refl). rewrite app_nil_r in Hone.
       exact Hone. }
  2: { cbn. exists ((t1 ++ t2) ++ []). rewrite app_nil_r.
       split; [exact Htr|]. specialize (Hone [] eq_refl). rewrite app_nil_r in Hone.
       exact Hone. }
  destruct (ai_tool_calls resp) as [|toolCall rest].
  - munfold. cbn.
    destruct (MAX_RETRIES <=? consecutiveNoToolCalls a4 + 1); cbn;
      exists ((t1 ++ t2) ++ []); rewrite app_nil_r;
      (split; [exact Htr|]); specialize (Hone [] eq_refl);
      rewrite app_nil_r in Hone; exact Hone.
  - unfold bind at 1. unfold modify at 1. unfold bind at 1.
    destruct (Hcalls (toolCall :: rest) (set_consecutiveNoToolCalls 0 a4) w4)
      as (t3 & Ht3 & Hn3).
    destruct (_processToolCalls C (toolCall :: rest) (set_consecutiveNoToolCalls 0 a4) w4)
      as [[[r|e|] a5] w5]; cbn in Ht3; munfold; cbn;
      exists ((t1 ++ t2) ++ t3); (split; [|apply Hone; exact Hn3]);
      rewrite Ht3, Htr, !app_assoc; reflexivity.
Qed.

Lemma checkIfAborted_cases a w :
  checkIfAborted C a w = (Returned tt, a, w)
  \/ checkIfAborted C a w = (Thrown (AbortError None), a, w).
Proof.
  unfold checkIfAborted. munfold. destruct (abortSignal_aborted C w); auto.
Qed.

Lemma calls_within_quiet mode task lo tr : no_model_call tr -> calls_within mode task lo tr.
Proof.
  unfold no_model_call, calls_within. intros ->. split; constructor.
Qed.

(** The calls of one iteration followed by those of the later ones. *)
Lemma calls_within_iteration mode task i t1 t2 t3 :
  i < MAX_UNIFIED_ITERATIONS ->
  (model_calls t1 = []
   \/ exists p, model_calls t1 = [p] /\ prompt_iterations p = i + 1
                /\ prompt_mode p = mode /\ prompt_task p = task) ->
  no_model_call t2 ->
  calls_within mode task (i + 1) t3 ->
  calls_within mode task i ((t1 ++ t2) ++ t3).
Proof.
  unfold no_model_call, calls_within. intros Hi H1 H2 [Hs Hf].
  rewrite !model_calls_app, H2, app_nil_r.
  assert (Hf' : Forall (fun p => i < prompt_iterations p <= MAX_UNIFIED_ITERATIONS
                                 /\ prompt_mode p = mode /\ prompt_task p = task)
                       (model_calls t3)).
  { eapply Forall_impl; [|exact Hf]. cbv beta. intros p (Hp & Hm & Ht).
    repeat split; try assumption; lia. }
  destruct H1 as [-> | (p & -> & Hp & Hm & Ht)]; cbn [app map].
  - split; assumption.
  - split.
    + constructor; [exact Hs|]. rewrite Forall_map.
      eapply Forall_impl; [|exact Hf]. cbv beta. intros q (Hq & _). lia.
    + constructor; [|exact Hf']. repeat split; try assumption; lia.
Qed.

(** Strictly increasing integers of an interval are no more than its length. *)
Lemma increasing_in_range (l : list Z) :
  forall lo hi,
    lo <= hi ->
    StronglySorted Z.lt l -> Forall (fun x => lo < x <= hi) l ->
    Z.of_nat (List.length l) <= hi - lo.
Proof.
  induction l as [|x l IH]; intros lo hi Hle Hs Hf; cbn [List.length].
  - lia.
  - inversion Hs as [|? ? Hs' Hx]; subst. inversion Hf as [|? ? Hx' Hf']; subst.
    assert (H : Z.of_nat (List.length l) <= hi - x).
    { apply IH; [lia | exact Hs'|].
      rewrite Forall_forall in *. intros y Hy. specialize (Hx y Hy).
      specialize (Hf' y Hy). lia. }
    lia.
Qed.

Lemma calls_within_count mode task lo tr :
  lo <= MAX_UNIFIED_ITERATIONS ->
  calls_within mode task lo tr ->
  Z.of_nat (List.length (model_calls tr)) <= MAX_UNIFIED_ITERATIONS - lo.
Proof.
  intros Hlo [Hs Hf].
  rewrite <- (length_map prompt_iterations).
  apply increasing_in_range; [exact Hlo | exact Hs|].
  rewrite Forall_map. eapply Forall_impl; [|exact Hf]. cbv beta. intros p (Hp & _). exact Hp.
Qed.

Lemma handleHumanInput_quiet polls r a w :
  exists tr,
    trace (snd (fst (handleHumanInput C polls r a w))) = trace a ++ tr
    /\ no_model_call tr.
Proof.
  exact (handleHumanInput_emits no_model_call eq_refl no_model_call_app
           quiet_no_model_call eq_refl polls r a w).
Qed.

(** The model invocations of the dynamic loop. *)
Lemma executeDynamic_loop_calls polls task :
  forall fuel a w,
  exists tr,
    trace (snd (fst (_executeDynamic_loop C polls fuel task a w))) = trace a ++ tr
    /\ calls_within Dynamic task (iterations a) tr.
Proof.
  induction fuel as [|fuel IH]; intros a w.
  - cbn [_executeDynamic_loop]. munfold.
    destruct (iterations a <? MAX_UNIFIED_ITERATIONS); cbn;
      exists []; rewrite app_nil_r; (split; [reflexivity|]);
      apply calls_within_quiet; reflexivity.
  - rewrite executeDynamic_loop_pass.
    destruct (iterations a <? MAX_UNIFIED_ITERATIONS) eqn:Hlt.
    2: { cbn. exists []. rewrite app_nil_r. split; [reflexivity|].
         apply calls_within_quiet; reflexivity. }
    apply Z.ltb_lt in Hlt.
    destruct (checkIfAborted_cases a w) as [-> | ->].
    2: { cbn. exists []. rewrite app_nil_r. split; [reflexivity|].
         apply calls_within_quiet; reflexivity. }
    unfold _runDynamicAgent.
    destruct (runAgent_model_calls Dynamic task (set_iterations (iterations a + 1) a) w)
      as (t1 & Ht1 & Hc1).
    pose proof (proj1 (runAgent_composes C Dynamic task)
                  (set_iterations (iterations a + 1) a) w) as Hi1.
    destruct (runAgent C Dynamic task (set_iterations (iterations a + 1) a) w)
      as [[[r|e|] a1] w1]; cbn in Ht1, Hi1, Hc1.
    2,3: cbn; exists ((t1 ++ []) ++ []); rewrite !app_nil_r; (split; [exact Ht1|]);
      rewrite <- (app_nil_r t1), <- (app_nil_r (t1 ++ []));
      apply calls_within_iteration;
        [exact Hlt | exact Hc1 | reflexivity | apply calls_within_quiet; reflexivity].
    destruct (handleHumanInput_quiet polls r a1 w1) as (t2 & Ht2 & Hc2).
    pose proof (handleHumanInput_keeps C polls r a1 w1) as Hi2.
    destruct (handleHumanInput C polls r a1 w1) as [[[[]|e|] a2] w2]; cbn in Ht2, Hi2.
    2,3: cbn; exists ((t1 ++ t2) ++ []); rewrite app_nil_r;
      (split; [rewrite Ht2, Ht1, app_assoc; reflexivity|]);
      rewrite <- (app_nil_r (t1 ++ t2));
      apply calls_within_iteration;
        [exact Hlt | exact Hc1 | exact Hc2 | apply calls_within_quiet; reflexivity].
    destruct (doneToolCalled r).
    + cbn. eexists ((t1 ++ t2) ++ [_]). split.
      * rewrite Ht2, Ht1, !app_assoc. reflexivity.
      * apply calls_within_iteration;
          [exact Hlt | exact Hc1 | exact Hc2 | apply calls_within_quiet; reflexivity].
    + destruct (IH a2 w2) as (t3 & Ht3 & Hc3).
      exists ((t1 ++ t2) ++ t3). split.
      * rewrite Ht3, Ht2, Ht1, !app_assoc. reflexivity.
      * apply calls_within_iteration; [exact Hlt | exact Hc1 | exact Hc2 |].
        rewrite Hi2, Hi1 in Hc3. exact Hc3.
Qed.

(** One pass of the predefined loop. *)
Lemma executePredefined_loop_pass polls fuel task plan a w :
  _executePredefined_loop C polls (S fuel) task plan a w
  = if iterations a <? MAX_UNIFIED_ITERATIONS then
      match checkIfAborted C a w with
      | (Returned _, a0, w0) =>
          match _runPredefinedAgent C task plan (set_iterations (iterations a0 + 1) a0) w0 with
          | (Returned r, a1, w1) =>
              if doneToolCalled r then
                (Returned true,
                 record_event
                   (EvPublish {| msgId := None;
                                 content := "Predefined task completed successfully";
                                 msgType := assistant |}) a1,
                 w1)
              else
                match handleHumanInput C polls r a1 w1 with
                | (Returned _, a2, w2) => _executePredefined_loop C polls fuel task plan a2 w2
                | (Thrown e, a2, w2) => (Thrown e, a2, w2)
                | (Unfinished, a2, w2) => (Unfinished, a2, w2)
                end
          | (Thrown e, a1, w1) => (Thrown e, a1, w1)
          | (Unfinished, a1, w1) => (Unfinished, a1, w1)
          end
      | (Thrown e, a0, w0) => (Thrown e, a0, w0)
      | (Unfinished, a0, w0) => (Unfinished, a0, w0)
      end
    else (Returned false, a, w).
Proof.
  cbn [_executePredefined_loop]. unfold bind at 1, get at 1.
  destruct (iterations a <? MAX_UNIFIED_ITERATIONS); [|reflexivity].
  unfold bind at 1. destruct (checkIfAborted C a w) as [[[[]|e|] a0] w0]; try reflexivity.
  unfold bind at 1, modify at 1. unfold bind at 1.
  destruct (_runPredefinedAgent C task plan (set_iterations (iterations a0 + 1) a0) w0)
    as [[[r|e|] a1] w1]; try reflexivity.
  destruct (doneToolCalled r); [reflexivity|].
  unfold bind at 1.
  destruct (handleHumanInput C polls r a1 w1) as [[[[]|e|] a2] w2]; reflexivity.
Qed.

(** The model invocations of the predefined loop. *)
Lemma executePredefined_loop_calls polls task plan :
  forall fuel a w,
  exists tr,
    trace (snd (fst (_executePredefined_loop C polls fuel task plan a w))) = trace a ++ tr
    /\ calls_within (Predefined plan) task (iterations a) tr.
Proof.
  induction fuel as [|fuel IH]; intros a w.
  - cbn [_executePredefined_loop]. munfold.
    destruct (iterations a <? MAX_UNIFIED_ITERATIONS); cbn;
      exists []; rewrite app_nil_r; (split; [reflexivity|]);
      apply calls_within_quiet; reflexivity.
  - rewrite executePredefined_loop_pass.
    destruct (iterations a <? MAX_UNIFIED_ITERATIONS) eqn:Hlt.
    2: { cbn. exists []. rewrite app_nil_r. split; [reflexivity|].
         apply calls_within_quiet; reflexivity. }
    apply Z.ltb_lt in Hlt.
    destruct (checkIfAborted_cases a w) as [-> | ->].
    2: { cbn. exists []. rewrite app_nil_r. split; [reflexivity|].
         apply calls_within_quiet; reflexivity. }
    unfold _runPredefinedAgent.
    destruct (runAgent_model_calls (Predefined plan) task
                (set_iterations (iterations a + 1) a) w) as (t1 & Ht1 & Hc1).
    pose proof (proj1 (runAgent_composes C (Predefined plan) task)
                  (set_iterations (iterations a + 1) a) w) as Hi1.
    destruct (runAgent C (Predefined plan) task (set_iterations (iterations a + 1) a) w)
      as [[[r|e|] a1] w1]; cbn in Ht1, Hi1, Hc1.
    2,3: cbn; exists ((t1 ++ []) ++ []); rewrite !app_nil_r; (split; [exact Ht1|]);
      rewrite <- (app_nil_r t1), <- (app_nil_r (t1 ++ []));
      apply calls_within_iteration;
        [exact Hlt | exact Hc1 | reflexivity | apply calls_within_quiet; reflexivity].
    destruct (doneToolCalled r).
    { cbn. eexists ((t1 ++ []) ++ [_]). split.
      - rewrite Ht1, app_nil_r, !app_assoc. reflexivity.
      - apply calls_within_iteration;
          [exact Hlt | exact Hc1 | reflexivity | apply calls_within_quiet; reflexivity]. }
    destruct (handleHumanInput_quiet polls r a1 w1) as (t2 & Ht2 & Hc2).
    pose proof (handleHumanInput_keeps C polls r a1 w1) as Hi2.
    destruct (handleHumanInput C polls r a1 w1) as [[[[]|e|] a2] w2]; cbn in Ht2, Hi2.
    2,3: cbn; exists ((t1 ++ t2) ++ []); rewrite app_nil_r;
      (split; [rewrite Ht2, Ht1, app_assoc; reflexivity|]);
      rewrite <- (app_nil_r (t1 ++ t2));
      apply calls_within_iteration;
        [exact Hlt | exact Hc1 | exact Hc2 | apply calls_within_quiet; reflexivity].
    destruct (IH a2 w2) as (t3 & Ht3 & Hc3).
    exists ((t1 ++ t2) ++ t3). split.
    + rewrite Ht3, Ht2, Ht1, !app_assoc. reflexivity.
    + apply calls_within_iteration; [exact Hlt | exact Hc1 | exact Hc2 |].
      rewrite Hi2, Hi1 in Hc3. exact Hc3.
Qed.

Lemma calls_within_published mode task lo m tr :
  calls_within mode task lo tr -> calls_within mode task lo (tr ++ [EvPublish m]).
Proof.
  unfold calls_within. rewrite model_calls_app. cbn [model_calls]. rewrite app_nil_r.
  intros H. exact H.
Qed.

(** The model invocations of a run of [execute]. *)
Lemma execute_calls polls mode task a w :
  exists tr,
    trace (snd (fst (execute C polls mode task a w))) = trace a ++ tr
    /\ calls_within mode task 0 tr.
Proof.
  unfold execute.
  assert (Hrun : forall (loop : nat -> @M World bool) text1 text2 type1 type2
                        (b : @M World unit),
            (forall fuel a w, exists tr,
                trace (snd (fst (loop fuel a w))) = trace a ++ tr
                /\ calls_within mode task (iterations a) tr) ->
            b = (bind (_publishMessage text1 type1) (fun _ =>
                 bind get (fun a0 =>
                 bind (loop (iterations_left a0)) (fun done =>
                 bind get (fun a =>
                 if negb done && (MAX_UNIFIED_ITERATIONS <=? iterations a)
                 then bind (_publishMessage text2 type2)
                           (fun _ => throw (Error MAX_ITERATIONS_ERROR))
                 else ret tt))))) ->
            exists tr,
              trace (snd (fst
                (match bind (modify _cleanup) (fun _ => b) a w with
                 | (Thrown e, a1, w1) =>
                     match _handleExecutionError e a1 w1 with
                     | (_, a2, w2) => (Thrown e, _cleanup a2, w2)
                     end
                 | (Returned x, a1, w1) => (Returned x, _cleanup a1, w1)
                 | (Unfinished, a1, w1) => (Unfinished, a1, w1)
                 end))) = trace a ++ tr
              /\ calls_within mode task 0 tr).
  { intros loop text1 text2 type1 type2 b Hloop ->.
    unfold bind at 1, modify at 1. unfold bind at 1.
    unfold _publishMessage at 1, publishMessage at 1, modify at 1.
    unfold bind at 1, get at 1. unfold bind at 1.
    match goal with
    | |- context [loop ?f ?a1 w] =>
        destruct (Hloop f a1 w) as (t1 & Ht1 & Hc1);
        destruct (loop f a1 w) as [[[done|e|] a2] w2]
    end; cbn in Ht1, Hc1.
    - unfold bind at 1, get at 1.
      destruct (negb done && (MAX_UNIFIED_ITERATIONS <=? iterations a2)).
      + munfold. unfold _publishMessage, publishMessage. munfold. cbn.
        eexists (((_ :: t1) ++ [_]) ++ [_]). split.
        * rewrite Ht1. rewrite <- !app_assoc. reflexivity.
        * apply calls_within_published, calls_within_published. exact Hc1.
      + munfold. cbn. eexists (_ :: t1). split.
        * rewrite Ht1. rewrite <- !app_assoc. reflexivity.
        * exact Hc1.
    - destruct e as [m|m]; unfold _handleExecutionError, _publishMessage, publishMessage;
        munfold; cbn.
      + eexists (_ :: t1). split.
        * rewrite Ht1. rewrite <- !app_assoc. reflexivity.
        * exact Hc1.
      + eexists ((_ :: t1) ++ [_]). split.
        * rewrite Ht1. rewrite <- !app_assoc. reflexivity.
        * apply calls_within_published. exact Hc1.
    - cbn. eexists (_ :: t1). split.
      + rewrite Ht1. rewrite <- !app_assoc. reflexivity.
      + exact Hc1. }
  destruct mode as [|plan].
  - eapply Hrun; [apply executeDynamic_loop_calls | reflexivity].
  - eapply Hrun; [apply executePredefined_loop_calls | reflexivity].
Qed.

(** X3.  In a run of [execute], in either mode and whatever the model,
    the tools, the human and the cancelling user do, the model is
    invoked at most once per iteration: the prompts carry strictly
    increasing iteration numbers between 1 and 30, with the mode and the
    task of the run, so that a run invokes the model at most 30 times. *)
Theorem model_is_invoked_at_most_once_per_iteration :
  forall polls mode task a w,
  exists tr,
    trace (snd (fst (execute C polls mode task a w))) = trace a ++ tr
    /\ StronglySorted Z.lt (map prompt_iterations (model_calls tr))
    /\ Forall (fun p => 1 <= prompt_iterations p <= MAX_UNIFIED_ITERATIONS
                        /\ prompt_mode p = mode /\ prompt_task p = task)
              (model_calls tr)
    /\ (List.length (model_calls tr) <= 30)%nat.
Proof.
  intros polls mode task a w.
  destruct (execute_calls polls mode task a w) as (tr & Htr & Hc).
  exists tr. split; [exact Htr|]. split; [exact (proj1 Hc)|]. split.
  - eapply Forall_impl; [|exact (proj2 Hc)]. cbv beta. intros p (Hp & Hm & Ht).
    repeat split; try assumption; lia.
  - pose proof (calls_within_count mode task 0 tr) as H.
    unfold MAX_UNIFIED_ITERATIONS in H. specialize (H ltac:(lia) Hc). lia.
Qed.

(** *** The execution history stays in iteration order *)

Lemma Sorted_le_snoc (l : list Z) (x : Z) :
  Sorted Z.le l -> Forall (fun y => y <= x) l -> Sorted Z.le (l ++ [x]).
Proof.
  induction l as [|y l IH]; intros Hs Hf; cbn [app].
  - repeat constructor.
  - inversion Hs as [|? ? Hs' Hhd]; subst. inversion Hf as [|? ? Hy Hf']; subst.
    constructor; [apply IH; assumption|].
    destruct l as [|z l]; cbn [app]; constructor.
    + exact Hy.
    + inversion Hhd; assumption.
Qed.

Lemma history_ordered_record a toolName arguments toolResult now :
  history_ordered a ->
  history_ordered
    (set_executionHistory
       (executionHistory a ++
          [{| iteration := iterations a; tool := Some toolName;
              args := Some arguments; result := Some toolResult;
              summary := None; timestamp := now |}]) a).
Proof.
  unfold history_ordered. cbn [executionHistory iterations set_executionHistory].
  intros (Hs & Hf & Hl). repeat split.
  - rewrite map_app. cbn [map iteration]. apply Sorted_le_snoc; [exact Hs|].
    rewrite Forall_map. exact Hf.
  - apply Forall_app. split; [exact Hf|]. constructor; [cbn; lia | constructor].
  - destruct (executionHistory a) as [|e rest]; cbn [app summary_leads] in *.
    + split; [constructor|]. cbn. intros H. congruence.
    + destruct Hl as [Hn Hl]. split.
      * apply Forall_app. split; [exact Hn|]. constructor; [reflexivity | constructor].
      * intros He. destruct (Hl He) as [Hlt Hr]. split; [exact Hlt|].
        apply Forall_app. split; [exact Hr|]. constructor; [cbn; exact Hlt | constructor].
Qed.

Lemma history_ordered_compact a summaryText now :
  history_ordered a ->
  history_ordered
    (set_executionHistory
       [{| iteration := iterations a - 1; tool := None; args := None;
           result := None; summary := Some summaryText; timestamp := now |}] a).
Proof.
  unfold history_ordered. cbn [executionHistory iterations set_executionHistory].
  intros _. repeat split.
  - cbn. repeat constructor.
  - constructor; [cbn; lia | constructor].
  - constructor.
  - cbn. lia.
  - constructor.
Qed.

Lemma history_ordered_next a :
  history_ordered a -> history_ordered (set_iterations (iterations a + 1) a).
Proof.
  unfold history_ordered. cbn [executionHistory iterations set_iterations].
  intros (Hs & Hf & Hl). repeat split.
  - exact Hs.
  - eapply Forall_impl; [|exact Hf]. cbv beta. intros e He. lia.
  - destruct (executionHistory a) as [|e rest]; cbn [summary_leads] in *; [exact I|].
    destruct Hl as [Hn Hl]. split; [exact Hn|].
    intros He. destruct (Hl He) as [Hlt Hr]. split; [lia | exact Hr].
Qed.

(** X4.  A run of either loop keeps the execution history in order: if,
    before [_executeDynamic] or [_executePredefined], the entries are in
    non-decreasing iteration order, none is ahead of the iteration
    counter, and a summary record can only be the first entry, covering
    iterations strictly before the counter and before every entry after
    it, then the same holds when the run ends, however it ends. *)
Theorem history_stays_in_iteration_order :
  forall polls task a w,
    history_ordered a ->
    history_ordered (snd (fst (_executeDynamic C polls task a w)))
    /\ forall predefinedPlan,
         history_ordered (snd (fst (_executePredefined C polls task predefinedPlan a w))).
Proof.
  intros polls task a w H.
  split; [|intros predefinedPlan];
    [ apply (executeDynamic_preserves history_ordered)
    | apply (executePredefined_preserves history_ordered) ];
    try exact H;
    first [ exact (fun e x Hx => Hx) | exact (fun x Hx => Hx) | exact (fun n x Hx => Hx)
          | exact history_ordered_next
          | exact history_ordered_record
          | exact history_ordered_compact ].
Qed.

(** *** The human-input wait *)

(** The body of the poll loop, whatever the bound on the timer waits. *)
Lemma pollHumanInput_eq polls startTime a w :
  pollHumanInput C polls startTime a w
  = if shouldAbort C w then (Returned human_abort, a, w)
    else match getHumanInputResponse C w with
         | Some action_done => (Returned human_done, a, w)
         | Some action_abort => (Returned human_abort, a, w)
         | None =>
             if HUMAN_INPUT_TIMEOUT <? Date_now C w - startTime then
               (Returned human_timeout,
                record_event
                  (EvPublish {| msgId := None;
                                content := "⏱️ Human input timed out after 10 minutes";
                                msgType := error |}) a,
                w)
             else
               match polls with
               | O => (Unfinished, a, w)
               | S polls' =>
                   pollHumanInput C polls' startTime a
                                  (setTimeout C HUMAN_INPUT_CHECK_INTERVAL w)
               end
         end.
Proof.
  destruct polls as [|polls]; cbn [pollHumanInput]; munfold;
    destruct (shouldAbort C w); try reflexivity;
    destruct (getHumanInputResponse C w) as [[]|]; try reflexivity;
    destruct (HUMAN_INPUT_TIMEOUT <? Date_now C w - startTime); reflexivity.
Qed.

Lemma pollHumanInput_report polls :
  forall startTime a w,
  exists o a' w',
    pollHumanInput C polls startTime a w = (o, a', w')
    /\ match o with
       | Returned human_done =>
           a' = a /\ shouldAbort C w' = false
           /\ getHumanInputResponse C w' = Some action_done
       | Returned human_abort =>
           a' = a
           /\ (shouldAbort C w' = true
               \/ getHumanInputResponse C w' = Some action_abort)
       | Returned human_timeout =>
           a' = record_event
                  (EvPublish {| msgId := None;
                                content := "⏱️ Human input timed out after 10 minutes";
                                msgType := error |}) a
           /\ shouldAbort C w' = false
           /\ getHumanInputResponse C w' = None
           /\ HUMAN_INPUT_TIMEOUT < Date_now C w' - startTime
       | Thrown _ => False
       | Unfinished => a' = a
       end.
Proof.
  induction polls as [|polls IH]; intros startTime a w; rewrite pollHumanInput_eq;
    (destruct (shouldAbort C w) eqn:Hab;
     [do 3 eexists; split; [reflexivity | cbv beta iota; auto]|]);
    (destruct (getHumanInputResponse C w) as [[]|] eqn:Hr;
     [do 3 eexists; split; [reflexivity | cbv beta iota; auto] ..|]);
    (destruct (HUMAN_INPUT_TIMEOUT <? Date_now C w - startTime) eqn:Ht;
     [apply Z.ltb_lt in Ht; do 3 eexists; split; [reflexivity | cbv beta iota; auto]|]).
  - do 3 eexists. split; [reflexivity | cbv beta iota; auto].
  - apply IH.
Qed.

(** With a clock that timers move forward, a bound that covers the time
    left to the timeout is never reached, and a larger one changes
    nothing. *)
Lemma pollHumanInput_returns :
  clock_advances C ->
  forall polls startTime a w,
    HUMAN_INPUT_TIMEOUT
      < Date_now C w - startTime + HUMAN_INPUT_CHECK_INTERVAL * Z.of_nat polls ->
    (exists r a' w', pollHumanInput C polls startTime a w = (Returned r, a', w'))
    /\ forall more,
         pollHumanInput C (polls + more) startTime a w
         = pollHumanInput C polls startTime a w.
Proof.
  intros Hclock. induction polls as [|polls IH]; intros startTime a w Hleft.
  - assert (Ht : (HUMAN_INPUT_TIMEOUT <? Date_now C w - startTime) = true)
      by (apply Z.ltb_lt; lia).
    split.
    + rewrite pollHumanInput_eq, Ht.
      destruct (shouldAbort C w); [do 3 eexists; reflexivity|].
      destruct (getHumanInputResponse C w) as [[]|]; do 3 eexists; reflexivity.
    + intros more. rewrite !pollHumanInput_eq, Ht.
      destruct (shouldAbort C w); [reflexivity|].
      destruct (getHumanInputResponse C w) as [[]|]; reflexivity.
  - specialize (IH startTime a (setTimeout C HUMAN_INPUT_CHECK_INTERVAL w)).
    destruct IH as [IHr IHm].
    { specialize (Hclock HUMAN_INPUT_CHECK_INTERVAL w). lia. }
    split.
    + rewrite pollHumanInput_eq.
      destruct (shouldAbort C w); [do 3 eexists; reflexivity|].
      destruct (getHumanInputResponse C w) as [[]|]; try (do 3 eexists; reflexivity).
      destruct (HUMAN_INPUT_TIMEOUT <? Date_now C w - startTime);
        [do 3 eexists; reflexivity | exact IHr].
    + intros more. cbn [Nat.add]. rewrite !(pollHumanInput_eq (S _)).
      destruct (shouldAbort C w); [reflexivity|].
      destruct (getHumanInputResponse C w) as [[]|]; try reflexivity.
      destruct (HUMAN_INPUT_TIMEOUT <? Date_now C w - startTime); [reflexivity|].
      apply IHm.
Qed.

(** The wait returns or is cut off by the bound on the polls. *)
Lemma waitForHumanInput_never_throws polls a w :
  exists o a' w',
    _waitForHumanInput C polls a w = (o, a', w')
    /\ match o with
       | Thrown _ => False
       | _ => True
       end.
Proof.
  unfold _waitForHumanInput. munfold.
  destruct (getHumanInputRequestId C w) as [requestId|].
  - destruct (pollHumanInput_report polls (Date_now C w) a w) as (o & a' & w' & Hrun & H).
    exists o, a', w'. split; [exact Hrun|]. destruct o as [[]| |]; auto.
  - do 3 eexists. split; [reflexivity | exact I].
Qed.

(** X5.  The human-input wait never throws, and each of its results
    says what it should: [done] only when the stored response is
    [done] and no abort is pending; [abort] only when no request is
    pending (nothing is awaited then), an abort is pending or the
    response is [abort]; [timeout] only when more than 600000 ms have
    passed on the clock since the wait began with neither a response
    nor an abort, and then, and only then, the timeout message is
    published.  The agent's fields are otherwise left as they were. *)
Theorem human_input_wait_outcomes :
  forall polls a w,
  exists o a' w',
    _waitForHumanInput C polls a w = (o, a', w')
    /\ match o with
       | Returned human_done =>
           a' = a /\ shouldAbort C w' = false
           /\ getHumanInputResponse C w' = Some action_done
       | Returned human_abort =>
           a' = a
           /\ (getHumanInputRequestId C w = None /\ w' = w
               \/ shouldAbort C w' = true
               \/ getHumanInputResponse C w' = Some action_abort)
       | Returned human_timeout =>
           a' = record_event
                  (EvPublish {| msgId := None;
                                content := "⏱️ Human input timed out after 10 minutes";
                                msgType := error |}) a
           /\ shouldAbort C w' = false
           /\ getHumanInputResponse C w' = None
           /\ HUMAN_INPUT_TIMEOUT < Date_now C w' - Date_now C w
       | Thrown _ => False
       | Unfinished => a' = a
       end.
Proof.
  intros polls a w. unfold _waitForHumanInput. munfold.
  destruct (getHumanInputRequestId C w) as [requestId|] eqn:Hreq.
  - destruct (pollHumanInput_report polls (Date_now C w) a w) as (o & a' & w' & Hrun & H).
    exists o, a', w'. split; [exact Hrun|].
    destruct o as [[]| |]; try exact H.
    destruct H as [Ha H]. split; [exact Ha | right; exact H].
  - exists (Returned human_abort), a, w. split; [reflexivity|]. cbv beta iota. auto.
Qed.

(** X6.  When every timer moves the clock forward by at least its delay,
    the human-input wait ends within 1201 polls of 500 ms: it returns a
    result for every bound of at least 1201 timer waits, and the same
    one as for 1201. *)
Theorem human_input_wait_ends_within_the_timeout :
  clock_advances C ->
  forall polls a w,
    (1201 <= polls)%nat ->
    (exists r a' w', _waitForHumanInput C polls a w = (Returned r, a', w'))
    /\ _waitForHumanInput C polls a w = _waitForHumanInput C 1201 a w.
Proof.
  intros Hclock polls a w Hpolls.
  replace polls with (1201 + (polls - 1201))%nat by lia.
  generalize (polls - 1201)%nat as more. intros more.
  unfold _waitForHumanInput. munfold.
  destruct (getHumanInputRequestId C w) as [requestId|].
  - destruct (pollHumanInput_returns Hclock 1201 (Date_now C w) a w) as [Hr Hm].
    { unfold HUMAN_INPUT_TIMEOUT, HUMAN_INPUT_CHECK_INTERVAL. lia. }
    rewrite Hm. split; [exact Hr | reflexivity].
  - split; [do 3 eexists; reflexivity | reflexivity].
Qed.

(** *** How a run can end *)

Lemma handleHumanInput_outcome polls r a w :
  exists o a' w',
    handleHumanInput C polls r a w = (o, a', w')
    /\ (o = Returned tt
        \/ o = Thrown (AbortError (Some "Task aborted by human"))
        \/ o = Unfinished).
Proof.
  unfold handleHumanInput. destruct (requiresHumanInput r).
  2: { do 3 eexists. split; [reflexivity | auto]. }
  unfold bind at 1.
  destruct (waitForHumanInput_never_throws polls a w) as (o & a1 & w1 & -> & H).
  destruct o as [[]|e|]; try contradiction;
    unfold _publishMessage, publishMessage; munfold;
    do 3 eexists; (split; [reflexivity | auto]).
Qed.

Lemma executeDynamic_loop_outcome polls task :
  forall fuel a w,
  exists o a' w',
    _executeDynamic_loop C polls fuel task a w = (o, a', w')
    /\ loop_outcome Dynamic o a'.
Proof.
  induction fuel as [|fuel IH]; intros a w.
  - cbn [_executeDynamic_loop]. munfold.
    destruct (iterations a <? MAX_UNIFIED_ITERATIONS) eqn:Hlt;
      do 3 eexists; (split; [reflexivity|]); cbn; [exact I|].
    apply Z.ltb_ge in Hlt. exact Hlt.
  - rewrite executeDynamic_loop_pass.
    destruct (iterations a <? MAX_UNIFIED_ITERATIONS) eqn:Hlt.
    2: { do 3 eexists. split; [reflexivity|]. cbn. apply Z.ltb_ge in Hlt. exact Hlt. }
    destruct (checkIfAborted_cases a w) as [-> | ->].
    2: { do 3 eexists. split; [reflexivity|]. cbn. left. reflexivity. }
    unfold _runDynamicAgent.
    destruct (runAgent_always_returns C Dynamic task (set_iterations (iterations a + 1) a) w)
      as (r & a1 & w1 & ->).
    destruct (handleHumanInput_outcome polls r a1 w1) as (o & a2 & w2 & -> & Ho).
    destruct Ho as [-> | [-> | ->]].
    + destruct (doneToolCalled r).
      * do 3 eexists. split; [reflexivity|]. cbn. eexists. reflexivity.
      * apply IH.
    + do 3 eexists. split; [reflexivity|]. cbn. right. reflexivity.
    + do 3 eexists. split; [reflexivity|]. exact I.
Qed.

Lemma executePredefined_loop_outcome polls task plan :
  forall fuel a w,
  exists o a' w',
    _executePredefined_loop C polls fuel task plan a w = (o, a', w')
    /\ loop_outcome (Predefined plan) o a'.
Proof.
  induction fuel as [|fuel IH]; intros a w.
  - cbn [_executePredefined_loop]. munfold.
    destruct (iterations a <? MAX_UNIFIED_ITERATIONS) eqn:Hlt;
      do 3 eexists; (split; [reflexivity|]); cbn; [exact I|].
    apply Z.ltb_ge in Hlt. exact Hlt.
  - rewrite executePredefined_loop_pass.
    destruct (iterations a <? MAX_UNIFIED_ITERATIONS) eqn:Hlt.
    2: { do 3 eexists. split; [reflexivity|]. cbn. apply Z.ltb_ge in Hlt. exact Hlt. }
    destruct (checkIfAborted_cases a w) as [-> | ->].
    2: { do 3 eexists. split; [reflexivity|]. cbn. left. reflexivity. }
    unfold _runPredefinedAgent.
    destruct (runAgent_always_returns C (Predefined plan) task
                (set_iterations (iterations a + 1) a) w) as (r & a1 & w1 & ->).
    destruct (doneToolCalled r).
    { do 3 eexists. split; [reflexivity|]. cbn. eexists. reflexivity. }
    destruct (handleHumanInput_outcome polls r a1 w1) as (o & a2 & w2 & -> & Ho).
    destruct Ho as [-> | [-> | ->]].
    + apply IH.
    + do 3 eexists. split; [reflexivity|]. cbn. right. reflexivity.
    + do 3 eexists. split; [reflexivity|]. exact I.
Qed.

(** How [execute] can end, and what it has published last. *)
Lemma execute_outcome polls mode task a w :
  exists o a' w',
    execute C polls mode task a w = (o, a', w')
    /\ match o with
       | Returned _ =>
           exists tr, trace a' = tr ++ [EvPublish (completion_message mode)]
       | Thrown (Error message) =>
           message = MAX_ITERATIONS_ERROR
           /\ exists tr,
                trace a'
                = tr ++ [EvPublish (limit_message mode);
                         EvPublish {| msgId := None; content := "Error: " ++ message;
                                      msgType := error |}]
       | Thrown (AbortError message) => is_cancellation (AbortError message)
       | Unfinished => True
       end.
Proof.
  unfold execute.
  assert (Hrun : forall (loop : nat -> @M World bool) text1 type1 (b : @M World unit),
            (forall fuel a w, exists o a' w',
                loop fuel a w = (o, a', w') /\ loop_outcome mode o a') ->
            b = (bind (_publishMessage text1 type1) (fun _ =>
                 bind get (fun a0 =>
                 bind (loop (iterations_left a0)) (fun done =>
                 bind get (fun a =>
                 if negb done && (MAX_UNIFIED_ITERATIONS <=? iterations a)
                 then bind (publishMessage (limit_message mode))
                           (fun _ => throw (Error MAX_ITERATIONS_ERROR))
                 else ret tt))))) ->
            exists o a' w',
              match bind (modify _cleanup) (fun _ => b) a w with
              | (Thrown e, a1, w1) =>
                  match _handleExecutionError e a1 w1 with
                  | (_, a2, w2) => (Thrown e, _cleanup a2, w2)
                  end
              | (Returned x, a1, w1) => (Returned x, _cleanup a1, w1)
              | (Unfinished, a1, w1) => (Unfinished, a1, w1)
              end = (o, a', w')
              /\ match o with
                 | Returned _ =>
                     exists tr, trace a' = tr ++ [EvPublish (completion_message mode)]
                 | Thrown (Error message) =>
                     message = MAX_ITERATIONS_ERROR
                     /\ exists tr,
                          trace a'
                          = tr ++ [EvPublish (limit_message mode);
                                   EvPublish {| msgId := None;
                                                content := "Error: " ++ message;
                                                msgType := error |}]
                 | Thrown (AbortError message) => is_cancellation (AbortError message)
                 | Unfinished => True
                 end).
  { intros loop text1 type1 b Hloop ->.
    unfold bind at 1, modify at 1. unfold bind at 1.
    unfold _publishMessage at 1, publishMessage at 1, modify at 1.
    unfold bind at 1, get at 1. unfold bind at 1.
    match goal with
    | |- context [loop ?f ?a1 w] =>
        destruct (Hloop f a1 w) as (o & a2 & w2 & -> & Ho)
    end.
    destruct o as [[|]|e|]; cbn in Ho.
    - munfold. cbn. do 3 eexists. split; [reflexivity|]. exact Ho.
    - apply Z.leb_le in Ho. unfold bind at 1, get at 1. cbn [negb andb]. rewrite Ho.
      unfold publishMessage. munfold. unfold _handleExecutionError, _publishMessage,
        publishMessage. munfold. do 3 eexists. split; [reflexivity|].
      split; [reflexivity|]. cbn. exists (trace a2). rewrite <- app_assoc. reflexivity.
    - destruct Ho as [-> | ->]; cbn; do 3 eexists; (split; [reflexivity|]);
        [left | right]; reflexivity.
    - do 3 eexists. split; [reflexivity | exact I]. }
  destruct mode as [|plan].
  - eapply Hrun; [apply executeDynamic_loop_outcome | reflexivity].
  - eapply Hrun; [apply executePredefined_loop_outcome | reflexivity].
Qed.

(** X7.  A run of [execute], once the tools are registered and bound,
    can end in four ways only.  When it returns, the completion message
    of its mode is the last event of the trace.  The only failure it can
    end with is the iteration-limit error, and the trace then ends with
    two error messages, the one of the loop and
    [Error: Maximum unified iterations (30) reached]; whatever an
    iteration throws is absorbed by the iteration.  The remaining two
    outcomes are the cancellation error of the abort signal and the one
    raised when the human aborts. *)
Theorem execute_ends_in_one_of_four_ways :
  forall polls mode task a w,
  exists o a' w',
    execute C polls mode task a w = (o, a', w')
    /\ match o with
       | Returned _ =>
           exists tr, trace a' = tr ++ [EvPublish (completion_message mode)]
       | Thrown (Error message) =>
           message = MAX_ITERATIONS_ERROR
           /\ exists tr,
                trace a'
                = tr ++ [EvPublish (limit_message mode);
                         EvPublish {| msgId := None; content := "Error: " ++ message;
                                      msgType := error |}]
       | Thrown (AbortError message) => message = None \/ message = Some "Task aborted by human"
       | Unfinished => True
       end.
Proof.
  intros polls mode task a w.
  destruct (execute_outcome polls mode task a w) as (o & a' & w' & Hrun & H).
  exists o, a', w'. split; [exact Hrun|].
  destruct o as [x|[m|m]|]; try exact H.
  destruct H as [H | H]; [left | right]; congruence.
Qed.

(** *** A run always ends *)

Lemma handleHumanInput_ends polls r a w :
  clock_advances C -> (1201 <= polls)%nat ->
  fst (fst (handleHumanInput C polls r a w)) <> Unfinished.
Proof.
  intros Hclock Hpolls. unfold handleHumanInput. destruct (requiresHumanInput r).
  2: { cbn. discriminate. }
  unfold bind at 1.
  assert (Hwait : exists x a' w', _waitForHumanInput C polls a w = (Returned x, a', w')).
  { replace polls with (1201 + (polls - 1201))%nat by lia.
    unfold _waitForHumanInput. munfold.
    destruct (getHumanInputRequestId C w) as [requestId|]; [|do 3 eexists; reflexivity].
    destruct (pollHumanInput_returns Hclock 1201 (Date_now C w) a w) as [Hr Hm].
    { unfold HUMAN_INPUT_TIMEOUT, HUMAN_INPUT_CHECK_INTERVAL. lia. }
    rewrite Hm. exact Hr. }
  destruct Hwait as (x & a1 & w1 & ->).
  destruct x; unfold _publishMessage, publishMessage; munfold; cbn; discriminate.
Qed.

Lemma iterations_left_next a a' fuel :
  iterations a < MAX_UNIFIED_ITERATIONS ->
  iterations a' = iterations a + 1 ->
  (iterations_left a <= S fuel)%nat -> (iterations_left a' <= fuel)%nat.
Proof. unfold iterations_left. intros Hlt -> Hle. lia. Qed.

Lemma executeDynamic_loop_ends polls task :
  clock_advances C -> (1201 <= polls)%nat ->
  forall fuel a w,
    (iterations_left a <= fuel)%nat ->
    fst (fst (_executeDynamic_loop C polls fuel task a w)) <> Unfinished.
Proof.
  intros Hclock Hpolls. induction fuel as [|fuel IH]; intros a w Hleft.
  - cbn [_executeDynamic_loop]. munfold.
    destruct (iterations a <? MAX_UNIFIED_ITERATIONS) eqn:Hlt; [|cbn; discriminate].
    apply Z.ltb_lt in Hlt. unfold iterations_left in Hleft. lia.
  - rewrite executeDynamic_loop_pass.
    destruct (iterations a <? MAX_UNIFIED_ITERATIONS) eqn:Hlt; [|cbn; discriminate].
    apply Z.ltb_lt in Hlt.
    destruct (checkIfAborted_cases a w) as [-> | ->]; [|cbn; discriminate].
    unfold _runDynamicAgent.
    pose proof (proj1 (runAgent_composes C Dynamic task)
                  (set_iterations (iterations a + 1) a) w) as Hi1.
    destruct (runAgent_always_returns C Dynamic task (set_iterations (iterations a + 1) a) w)
      as (r & a1 & w1 & Hrun). rewrite Hrun in Hi1 |- *. cbn in Hi1.
    pose proof (handleHumanInput_ends polls r a1 w1 Hclock Hpolls) as Hh.
    pose proof (handleHumanInput_keeps C polls r a1 w1) as Hi2.
    destruct (handleHumanInput C polls r a1 w1) as [[[[]|e|] a2] w2]; cbn in Hh, Hi2;
      [|cbn; discriminate | congruence].
    destruct (doneToolCalled r); [cbn; discriminate|].
    apply IH. apply (iterations_left_next a); [exact Hlt | lia | exact Hleft].
Qed.

Lemma executePredefined_loop_ends polls task plan :
  clock_advances C -> (1201 <= polls)%nat ->
  forall fuel a w,
    (iterations_left a <= fuel)%nat ->
    fst (fst (_executePredefined_loop C polls fuel task plan a w)) <> Unfinished.
Proof.
  intros Hclock Hpolls. induction fuel as [|fuel IH]; intros a w Hleft.
  - cbn [_executePredefined_loop]. munfold.
    destruct (iterations a <? MAX_UNIFIED_ITERATIONS) eqn:Hlt; [|cbn; discriminate].
    apply Z.ltb_lt in Hlt. unfold iterations_left in Hleft. lia.
  - rewrite executePredefined_loop_pass.
    destruct (iterations a <? MAX_UNIFIED_ITERATIONS) eqn:Hlt; [|cbn; discriminate].
    apply Z.ltb_lt in Hlt.
    destruct (checkIfAborted_cases a w) as [-> | ->]; [|cbn; discriminate].
    unfold _runPredefinedAgent.
    pose proof (proj1 (runAgent_composes C (Predefined plan) task)
                  (set_iterations (iterations a + 1) a) w) as Hi1.
    destruct (runAgent_always_returns C (Predefined plan) task
                (set_iterations (iterations a + 1) a) w) as (r & a1 & w1 & Hrun).
    rewrite Hrun in Hi1 |- *. cbn in Hi1.
    destruct (doneToolCalled r); [cbn; discriminate|].
    pose proof (handleHumanInput_ends polls r a1 w1 Hclock Hpolls) as Hh.
    pose proof (handleHumanInput_keeps C polls r a1 w1) as Hi2.
    destruct (handleHumanInput C polls r a1 w1) as [[[[]|e|] a2] w2]; cbn in Hh, Hi2;
      [|cbn; discriminate | congruence].
    apply IH. apply (iterations_left_next a); [exact Hlt | lia | exact Hleft].
Qed.

(** X8.  A run always ends.  When every timer moves the clock forward
    by at least its delay, [execute] returns or throws in either mode
    (every awaited collaborator being one that settles, and every stream
    of the model a finite one): the loop makes at most 30 passes and
    each human-input wait ends within the timeout, so that no bound is
    reached, provided the wait is given at least 1201 polls; and the
    fields of the agent are then reset: no iteration counted, no call
    without tool counted, an empty execution history. *)
Theorem execute_always_ends :
  clock_advances C ->
  forall polls mode task a w,
    (1201 <= polls)%nat ->
    exists o a' w',
      execute C polls mode task a w = (o, a', w')
      /\ o <> Unfinished
      /\ iterations a' = 0 /\ consecutiveNoToolCalls a' = 0 /\ executionHistory a' = [].
Proof.
  intros Hclock polls mode task a w Hpolls. unfold execute.
  assert (Hrun : forall (loop : nat -> @M World bool) text1 type1 text2 type2
                        (b : @M World unit),
            (forall fuel a w, (iterations_left a <= fuel)%nat ->
                              fst (fst (loop fuel a w)) <> Unfinished) ->
            b = (bind (_publishMessage text1 type1) (fun _ =>
                 bind get (fun a0 =>
                 bind (loop (iterations_left a0)) (fun done =>
                 bind get (fun a =>
                 if negb done && (MAX_UNIFIED_ITERATIONS <=? iterations a)
                 then bind (_publishMessage text2 type2)
                           (fun _ => throw (Error MAX_ITERATIONS_ERROR))
                 else ret tt))))) ->
            exists o a' w',
              match bind (modify _cleanup) (fun _ => b) a w with
              | (Thrown e, a1, w1) =>
                  match _handleExecutionError e a1 w1 with
                  | (_, a2, w2) => (Thrown e, _cleanup a2, w2)
                  end
              | (Returned x, a1, w1) => (Returned x, _cleanup a1, w1)
              | (Unfinished, a1, w1) => (Unfinished, a1, w1)
              end = (o, a', w')
              /\ o <> Unfinished
              /\ iterations a' = 0 /\ consecutiveNoToolCalls a' = 0
              /\ executionHistory a' = []).
  { intros loop text1 type1 text2 type2 b Hloop ->.
    unfold bind at 1, modify at 1. unfold bind at 1.
    unfold _publishMessage at 1, publishMessage at 1, modify at 1.
    unfold bind at 1, get at 1. unfold bind at 1.
    match goal with
    | |- context [loop ?f ?a1 w] =>
        pose proof (Hloop f a1 w (le_n _)) as Hends;
        destruct (loop f a1 w) as [[[done|e|] a2] w2]
    end; cbn in Hends; [| |congruence].
    - unfold bind at 1, get at 1.
      destruct (negb done && (MAX_UNIFIED_ITERATIONS <=? iterations a2)).
      + unfold _publishMessage, publishMessage. munfold.
        unfold _handleExecutionError, _publishMessage, publishMessage. munfold.
        do 3 eexists. split; [reflexivity|]. repeat split. discriminate.
      + munfold. do 3 eexists. split; [reflexivity|]. repeat split. discriminate.
    - destruct (_handleExecutionError e a2 w2) as [[o3 a3] w3].
      do 3 eexists. split; [reflexivity|]. repeat split. discriminate. }
  destruct mode as [|plan].
  - eapply (Hrun (fun fuel => _executeDynamic_loop C polls fuel task));
      [intros; apply executeDynamic_loop_ends; assumption | reflexivity].
  - eapply (Hrun (fun fuel => _executePredefined_loop C polls fuel task plan));
      [intros; apply executePredefined_loop_ends; assumption | reflexivity].
Qed.

(** *** The execution singleton: cancellation and overlapping runs *)

Lemma abort_at_length c reason cs :
  List.length (Exec.abort_at c reason cs) = List.length cs.
Proof.
  revert c. induction cs as [|signal cs IH]; intros [|c]; cbn; auto.
Qed.

Lemma nth_error_abort_at c reason cs :
  nth_error (Exec.abort_at c reason cs) c
  = option_map (Exec.abort_signal reason) (nth_error cs c).
Proof.
  revert c. induction cs as [|signal cs IH]; intros [|c]; cbn; auto.
Qed.

Lemma nth_error_abort_at_other c c' reason cs :
  c <> c' -> nth_error (Exec.abort_at c reason cs) c' = nth_error cs c'.
Proof.
  revert c c'. induction cs as [|signal cs IH]; intros [|c] [|c'] Hne; cbn; auto;
    congruence.
Qed.

Lemma cancel_report (x : Exec.Execution) :
  match Exec.currentAbortController x with
  | None => Exec.cancel x = x
  | Some c =>
      Exec.currentAbortController (Exec.cancel x) = None
      /\ Exec.log (Exec.cancel x)
         = Exec.log x
           ++ (if Exec.pubsub x
               then [Exec.Published "pause_message_id" Exec.PAUSE_MESSAGE "assistant"]
               else [])
      /\ nth_error (Exec.controllers (Exec.cancel x)) c
         = option_map (Exec.abort_signal Exec.USER_CANCELLED)
                      (nth_error (Exec.controllers x) c)
      /\ forall c', c <> c' ->
           nth_error (Exec.controllers (Exec.cancel x)) c'
           = nth_error (Exec.controllers x) c'
  end.
Proof.
  unfold Exec.cancel. destruct (Exec.currentAbortController x) as [c|]; [|reflexivity].
  destruct (Exec.pubsub x); cbn; rewrite ?app_nil_r;
    (split; [reflexivity|]); (split; [reflexivity|]);
    (split; [apply nth_error_abort_at | intros c' Hne; apply nth_error_abort_at_other; exact Hne]).
Qed.

(** X9.  [cancel] acts once: with no run in progress it changes nothing
    and publishes nothing; otherwise it publishes the pause message
    (when the channel is there), aborts the signal of the current
    controller with the user-initiated reason unless that signal was
    aborted before, leaves every other signal alone, and forgets the
    controller, so that [isRunning] is false afterwards and a second
    [cancel] does nothing. *)
Theorem cancel_acts_once :
  forall x : Exec.Execution,
    Exec.isRunning (Exec.cancel x) = false
    /\ Exec.cancel (Exec.cancel x) = Exec.cancel x
    /\ match Exec.currentAbortController x with
       | None => Exec.cancel x = x
       | Some c =>
           Exec.log (Exec.cancel x)
           = Exec.log x
             ++ (if Exec.pubsub x
                 then [Exec.Published "pause_message_id" Exec.PAUSE_MESSAGE "assistant"]
                 else [])
           /\ nth_error (Exec.controllers (Exec.cancel x)) c
              = option_map (Exec.abort_signal Exec.USER_CANCELLED)
                           (nth_error (Exec.controllers x) c)
           /\ forall c', c <> c' ->
                nth_error (Exec.controllers (Exec.cancel x)) c'
                = nth_error (Exec.controllers x) c'
       end.
Proof.
  intros x. pose proof (cancel_report x) as H.
  assert (Hnone : Exec.currentAbortController (Exec.cancel x) = None).
  { destruct (Exec.currentAbortController x) as [c|] eqn:Hc.
    - exact (proj1 H).
    - rewrite H. exact Hc. }
  split; [unfold Exec.isRunning; rewrite Hnone; reflexivity|].
  split.
  - pose proof (cancel_report (Exec.cancel x)) as H2. rewrite Hnone in H2. exact H2.
  - destruct (Exec.currentAbortController x) as [c|]; [exact (proj2 H) | exact H].
Qed.

Lemma run_enter_report (x : Exec.Execution) :
  Exec.currentAbortController (Exec.run_enter x) = None
  /\ List.length (Exec.controllers (Exec.run_enter x)) = List.length (Exec.controllers x)
  /\ match Exec.currentAbortController x with
     | Some c =>
         nth_error (Exec.controllers (Exec.run_enter x)) c
         = option_map (Exec.abort_signal Exec.DefaultReason)
                      (nth_error (Exec.controllers x) c)
     | None => Exec.run_enter x = x
     end.
Proof.
  unfold Exec.run_enter. destruct (Exec.currentAbortController x) as [c|] eqn:Hc; cbn.
  - split; [reflexivity|]. split; [apply abort_at_length | apply nth_error_abort_at].
  - auto.
Qed.

Lemma run_arm_report (x : Exec.Execution) :
  Exec.currentAbortController (Exec.run_arm x) = Some (List.length (Exec.controllers x))
  /\ Exec.controllers (Exec.run_arm x) = Exec.controllers x ++ [None].
Proof. split; reflexivity. Qed.

Lemma run_finally_report (x : Exec.Execution) :
  Exec.currentAbortController (Exec.run_finally x) = None
  /\ Exec.controllers (Exec.run_finally x) = Exec.controllers x.
Proof.
  unfold Exec.run_finally. cbn. destruct (Exec.browserContext x); split; reflexivity.
Qed.

Lemma nth_error_snoc {A} (l : list A) (x : A) : nth_error (l ++ [x]) (List.length l) = Some x.
Proof. rewrite nth_error_app2, Nat.sub_diag by lia. reflexivity. Qed.

(** X10.  Two overlapping runs lose the controller of the second.  When
    a second [run] starts while a first one is still in progress, the
    first run's signal is aborted and the second gets a fresh controller;
    when the [finally] block of the first run runs after that, it clears
    [currentAbortController], which is the second run's: [isRunning]
    answers false while the second run is in progress, [cancel] does
    nothing, and the second run's signal is not aborted by it. *)
Theorem finishing_run_forgets_the_controller_of_the_next :
  forall x : Exec.Execution,
    let first := List.length (Exec.controllers x) in
    let second := S first in
    let overlapped :=
      Exec.schedule [Exec.RunEnter; Exec.RunInitialized; Exec.RunArm;
                     Exec.RunEnter; Exec.RunInitialized; Exec.RunArm] x in
    let after := Exec.run_finally overlapped in
    Exec.currentAbortController overlapped = Some second
    /\ Exec.aborted first overlapped = true
    /\ Exec.aborted second overlapped = false
    /\ Exec.isRunning after = false
    /\ Exec.cancel after = after
    /\ Exec.aborted second (Exec.cancel after) = false.
Proof.
  intros x first second overlapped after.
  destruct (run_enter_report x) as (Hc0 & Hl0 & _).
  set (x0 := Exec._ensureInitialized (Exec.run_enter x)) in *.
  change (Exec.controllers (Exec.run_enter x)) with (Exec.controllers x0) in Hl0.
  destruct (run_arm_report x0) as (Hc1 & Hcs1).
  set (x1 := Exec.run_arm x0) in *.
  destruct (run_enter_report x1) as (Hc2 & Hl2 & Hab2). rewrite Hc1 in Hab2.
  set (x2 := Exec._ensureInitialized (Exec.run_enter x1)) in *.
  change (Exec.controllers (Exec.run_enter x1)) with (Exec.controllers x2) in Hl2, Hab2.
  destruct (run_arm_report x2) as (Hc3 & Hcs3).
  assert (Hover : overlapped = Exec.run_arm x2) by reflexivity.
  assert (Hlen1 : List.length (Exec.controllers x1) = second).
  { rewrite Hcs1, length_app, Hl0. cbn. subst second first. lia. }
  assert (Hfirst : nth_error (Exec.controllers x2) first = Some (Some Exec.DefaultReason)).
  { rewrite Hl0 in Hab2. fold first in Hab2. rewrite Hab2, Hcs1.
    subst first. rewrite <- Hl0, nth_error_snoc. reflexivity. }
  assert (Hsecond : nth_error (Exec.controllers overlapped) second = Some None).
  { rewrite Hover, Hcs3. rewrite <- Hlen1, <- Hl2. apply nth_error_snoc. }
  destruct (run_finally_report overlapped) as [Hafter Hcs]. fold after in Hafter, Hcs.
  assert (Hcancel : Exec.cancel after = after).
  { pose proof (cancel_report after) as H. rewrite Hafter in H. exact H. }
  split; [rewrite Hover, Hc3, Hl2, Hlen1; reflexivity|].
  split.
  { unfold Exec.aborted. rewrite Hover, Hcs3, nth_error_app1, Hfirst; [reflexivity|].
    apply nth_error_Some. rewrite Hfirst. discriminate. }
  split; [unfold Exec.aborted; rewrite Hsecond; reflexivity|].
  split; [unfold Exec.isRunning; rewrite Hafter; reflexivity|].
  split; [exact Hcancel|].
  rewrite Hcancel. unfold Exec.aborted. rewrite Hcs, Hsecond. reflexivity.
Qed.

Lemma perform_live act (x : Exec.Execution) :
  Exec.current_is_live x -> Exec.current_is_live (Exec.perform act x).
Proof.
  intros Hlive. destruct act; cbn [Exec.perform].
  - destruct (run_enter_report x) as (Hc & _). intros c H. congruence.
  - exact Hlive.
  - destruct (run_arm_report x) as (Hc & Hcs). intros c H. rewrite Hc in H.
    injection H as <-. rewrite Hcs. apply nth_error_snoc.
  - intros c H. rewrite (proj1 (run_finally_report x)) in H. discriminate.
  - pose proof (cancel_report x) as H.
    destruct (Exec.currentAbortController x) as [c0|] eqn:Hc0.
    + intros c Hc. rewrite (proj1 H) in Hc. discriminate.
    + rewrite H. exact Hlive.
  - intros c H. unfold Exec.reset in H.
    destruct (Exec.currentAbortController x) as [c0|] eqn:Hc0;
      repeat match type of H with
             | context [if ?b then _ else _] => destruct b
             end; cbn in H; congruence.
Qed.

Lemma schedule_live acts :
  forall x : Exec.Execution,
    Exec.current_is_live x -> Exec.current_is_live (Exec.schedule acts x).
Proof.
  unfold Exec.schedule.
  induction acts as [|act acts IH]; intros x Hlive; cbn [fold_left]; [exact Hlive|].
  apply IH, perform_live, Hlive.
Qed.

(** X11.  However the segments of [run] and the calls of [cancel] and
    [reset] are interleaved, the controller the singleton holds is one
    that exists and whose signal is not aborted yet: whenever
    [isRunning] is true, [cancel] aborts that signal with the
    user-initiated reason. *)
Theorem current_controller_is_never_aborted :
  forall (acts : list Exec.Action) (x : Exec.Execution),
    Exec.current_is_live x ->
    Exec.current_is_live (Exec.schedule acts x)
    /\ forall c,
         Exec.currentAbortController (Exec.schedule acts x) = Some c ->
         nth_error (Exec.controllers (Exec.cancel (Exec.schedule acts x))) c
         = Some (Some Exec.USER_CANCELLED).
Proof.
  intros acts x Hlive. pose proof (schedule_live acts x Hlive) as H.
  split; [exact H|]. intros c Hc.
  pose proof (cancel_report (Exec.schedule acts x)) as Hcancel. rewrite Hc in Hcancel.
  destruct Hcancel as (_ & _ & -> & _). rewrite (H c Hc). reflexivity.
Qed.

(** *** Edge cases of a run and of the context builder *)

(** The run of the model on a signal that is already raised. *)
Lemma execute_on_aborted_signal polls mode task a w :
  abortSignal_aborted C w = true ->
  execute C polls mode task a w
  = (Thrown (AbortError None),
     record_event (EvPublish (start_message mode)) (_cleanup a), w).
Proof.
  intros Hab. unfold execute.
  destruct mode as [|plan].
  - unfold _executeDynamic. unfold bind at 1, modify at 1. unfold bind at 1.
    unfold _publishMessage at 1, publishMessage at 1, modify at 1.
    unfold bind at 1, get at 1. unfold bind at 1.
    change (iterations_left _) with (S 29).
    rewrite (executeDynamic_loop_cancelled C polls 29 task _ w); [reflexivity | | exact Hab].
    cbn. unfold MAX_UNIFIED_ITERATIONS. lia.
  - unfold _executePredefined. unfold bind at 1, modify at 1. unfold bind at 1.
    unfold _publishMessage at 1, publishMessage at 1, modify at 1.
    unfold bind at 1, get at 1. unfold bind at 1.
    change (iterations_left _) with (S 29).
    rewrite executePredefined_loop_pass.
    cbn [iterations record_event _cleanup set_iterations]. cbn [Z.ltb Z.compare].
    unfold checkIfAborted. munfold. rewrite Hab. reflexivity.
Qed.

(** X12.  Once the tools are registered and the model is bound, a run
    whose abort signal is already raised stops at the first check of its
    loop: in either mode [execute] ends with the cancellation error, and
    of the agent's own doing the trace holds the starting message only;
    the agent invokes no model and dispatches no tool, it publishes no
    error message, and its fields are reset. *)
Theorem run_on_an_aborted_signal_stops_at_the_first_check :
  forall polls mode task a w,
    abortSignal_aborted C w = true ->
    fst (fst (execute C polls mode task a w)) = Thrown (AbortError None)
    /\ snd (fst (execute C polls mode task a w))
       = record_event (EvPublish (start_message mode)) (_cleanup a).
Proof.
  intros polls mode task a w Hab.
  rewrite (execute_on_aborted_signal polls mode task a w Hab). split; reflexivity.
Qed.

Lemma summary_budget_at_least_100 tokenLimit : 100 <= summary_budget tokenLimit.
Proof.
  unfold summary_budget, Qltb.
  destruct (Qle_bool (inject_Z 100) tokenLimit) eqn:Hle; cbn [negb].
  - apply Qle_bool_iff in Hle. apply Qfloor_resp_le in Hle.
    rewrite Qfloor_Z in Hle. exact Hle.
  - rewrite Qfloor_Z. lia.
Qed.

(** X13.  The context builder never throws and asks for at most one
    summary.  With an empty history, or one whose rendering is within
    the token limit, it returns the fixed text or the full rendering and
    touches neither the agent nor the world.  Otherwise it asks the
    summarizer once, for at least 100 tokens, and the history is then
    either the single summary record or, when the summarizer failed,
    what it was. *)
Theorem context_builder_never_throws :
  forall tokenLimit userTask a w,
  exists text a' w' tr,
    _buildExecutionHistoryContext C tokenLimit userTask a w = (Returned text, a', w')
    /\ trace a' = trace a ++ tr
    /\ match executionHistory a with
       | [] => text = "No previous actions attempted"%string /\ a' = a /\ w' = w
       | _ :: _ =>
           if history_exceeds C tokenLimit a then
             tr = [EvSummarize (summary_budget tokenLimit) userTask
                               (render_history (executionHistory a))]
             /\ 100 <= summary_budget tokenLimit
             /\ (executionHistory a' = [summary_entry a text (Date_now C w')]
                 \/ executionHistory a' = executionHistory a)
           else text = render_history (executionHistory a) /\ a' = a /\ w' = w
       end.
Proof.
  intros tokenLimit userTask a w.
  destruct (executionHistory a) as [|e h] eqn:Hh.
  - rewrite (buildExecutionHistoryContext_empty C tokenLimit userTask a w Hh).
    exists "No previous actions attempted"%string, a, w, [].
    rewrite app_nil_r. auto.
  - destruct (history_exceeds C tokenLimit a) eqn:Hex.
    + rewrite (buildExecutionHistoryContext_over_limit C tokenLimit userTask a w);
        [|rewrite Hh; discriminate | exact Hex].
      cbv zeta. rewrite Hh.
      destruct (invokeWithRetry C (summary_request tokenLimit userTask a) w)
        as [[content|reason] w'].
      * do 3 eexists. eexists [_]. split; [reflexivity|]. split; [reflexivity|].
        split; [reflexivity|]. split; [apply summary_budget_at_least_100|].
        left. reflexivity.
      * do 3 eexists. eexists [_]. split; [reflexivity|]. split; [reflexivity|].
        split; [reflexivity|]. split; [apply summary_budget_at_least_100|].
        right. cbn. exact Hh.
    + unfold _buildExecutionHistoryContext. munfold. rewrite Hh.
      unfold history_exceeds in Hex. rewrite Hh in Hex. rewrite Hex.
      exists (render_history (e :: h)), a, w, []. rewrite app_nil_r. auto.
Qed.

(** *** What an agent call and a batch count *)

(** X14.  One call of [_runDynamicAgent] or [_runPredefinedAgent] never
    throws: whatever fails inside it, the browser state, the model, a
    cancellation or the stall check, it returns a result.  It counts
    exactly one observation, never lowers the error metric, keeps the
    iteration counter and invokes the model at most once. *)
Theorem agent_call_never_throws :
  forall mode task a w,
  exists r a' w' tr,
    runAgent C mode task a w = (Returned r, a', w')
    /\ trace a' = trace a ++ tr
    /\ (List.length (model_calls tr) <= 1)%nat
    /\ iterations a' = iterations a
    /\ metric_observations a' = metric_observations a + 1
    /\ metric_errors a <= metric_errors a'.
Proof.
  intros mode task a w.
  destruct (runAgent_model_calls mode task a w) as (tr & Htr & Hcalls).
  pose proof (proj1 (runAgent_composes C mode task) a w) as Hit.
  pose proof (runAgent_counts (fun x => metric_observations x = metric_observations a + 1)
                (fun e x H => H) (fun x H => H) (fun n x H => H)
                (fun x n ar r t H => H) (fun x s t H => H) mode task a w eq_refl) as Hobs.
  pose proof (runAgent_preserves (fun x => metric_errors a <= metric_errors x)
                (fun e x H => H)
                (fun x (H : metric_errors a <= metric_errors x) =>
                   Z.le_trans _ _ _ H (Z.le_succ_diag_r (metric_errors x)))
                (fun x H => H) (fun n x H => H)
                (fun x n ar r t H => H) (fun x s t H => H) mode task a w (Z.le_refl _))
    as Herr.
  destruct (runAgent_always_returns C mode task a w) as (r & a' & w' & Hrun).
  rewrite Hrun in Htr, Hit, Hobs, Herr. cbn in Htr, Hit, Hobs, Herr.
  exists r, a', w', tr. repeat split; try assumption.
  destruct Hcalls as [-> | (p & -> & _)]; cbn; lia.
Qed.

Lemma handler_failures_app tr1 tr2 :
  handler_failures (tr1 ++ tr2) = (handler_failures tr1 + handler_failures tr2)%nat.
Proof.
  unfold handler_failures. rewrite dispatches_app, filter_app, length_app. reflexivity.
Qed.

Section Accounts.

Lemma accounts_same {A} (c : @M World A) :
  (forall a w, snd (fst (c a w)) = a) -> accounts c.
Proof.
  intros H a w. exists []. rewrite H, app_nil_r. cbn. repeat split. lia.
Qed.

Lemma accounts_modify (f : Agent -> Agent) :
  (forall a, exists tr, trace (f a) = trace a ++ tr
                        /\ metric_errors (f a)
                           = metric_errors a + Z.of_nat (handler_failures tr)
                        /\ metric_observations (f a) = metric_observations a) ->
  accounts (World := World) (modify f).
Proof. intros H a w. apply H. Qed.

Lemma accounts_bind {A B} (c : @M World A) (k : A -> @M World B) :
  accounts c -> (forall x, accounts (k x)) -> accounts (bind c k).
Proof.
  intros Hc Hk a w. unfold bind. destruct (Hc a w) as (tr & Htr & He & Ho).
  destruct (c a w) as [[[x|e|] a1] w1]; cbn in Htr, He, Ho |- *;
    try (exists tr; repeat split; assumption).
  destruct (Hk x a1 w1) as (tr2 & Htr2 & He2 & Ho2).
  exists (tr ++ tr2). rewrite Htr2, Htr, app_assoc, He2, He, Ho2, Ho, handler_failures_app.
  repeat split. lia.
Qed.

Lemma accounts_try_catch {A} (c : @M World A) (handler : Exn -> @M World A) :
  accounts c -> (forall e, accounts (handler e)) -> accounts (try_catch c handler).
Proof.
  intros Hc Hh a w. unfold try_catch. destruct (Hc a w) as (tr & Htr & He & Ho).
  destruct (c a w) as [[[x|e|] a1] w1]; cbn in Htr, He, Ho |- *;
    try (exists tr; repeat split; assumption).
  destruct (Hh e a1 w1) as (tr2 & Htr2 & He2 & Ho2).
  exists (tr ++ tr2). rewrite Htr2, Htr, app_assoc, He2, He, Ho2, Ho, handler_failures_app.
  repeat split. lia.
Qed.

Ltac account_leaf :=
  first
    [ apply accounts_same; intros ? ?; reflexivity
    | apply accounts_same; intros ? ?; unfold call, await;
      match goal with |- context [let '(_, _) := ?f ?w in _] => destruct (f w) end;
      reflexivity
    | apply accounts_same; intros ? ?; unfold await;
      match goal with |- context [match ?f ?w with _ => _ end] =>
        destruct (f w) as [[?|?] ?] end;
      reflexivity
    | apply accounts_modify; intros ?; exists []; cbn; rewrite app_nil_r;
      repeat split; lia
    | apply accounts_modify; intros ?; eexists [_]; cbn; repeat split; cbn; lia ].

Ltac account_with known :=
  repeat first
    [ known
    | apply accounts_bind | apply accounts_try_catch
    | account_leaf
    | match goal with
      | |- forall _, _ => intro
      | |- accounts (if ?b then _ else _) => destruct b
      | |- accounts (match ?x with _ => _ end) => destruct x
      end ].

Lemma checkIfAborted_accounts : accounts (checkIfAborted C).
Proof. unfold checkIfAborted. account_with fail. Qed.

Lemma emitDevModeDebug_accounts action details :
  accounts (_emitDevModeDebug C action details).
Proof. unfold _emitDevModeDebug, _publishMessage, publishMessage. account_with fail. Qed.

Lemma invokeTool_accounts name arguments : accounts (invokeTool C name arguments).
Proof.
  unfold invokeTool. destruct (toolManager_get C name) as [toolFunc|].
  - intros a w. unfold try_catch.
    destruct (toolFunc arguments w) as [[output|message] w1].
    + eexists [_]. cbn. repeat split. cbn. lia.
    + cbv beta iota zeta.
      match goal with
      | |- context [bind (modify incr_errors) ?k ?a1 w1] =>
          change (bind (modify incr_errors) k a1 w1) with (k tt (incr_errors a1) w1)
      end.
      cbv beta.
      match goal with
      | |- context [bind ?c ?k ?a1 w1] =>
          assert (Hrest : accounts (bind c k))
            by (account_with ltac:(apply emitDevModeDebug_accounts));
          destruct (Hrest a1 w1) as (tr & Htr & He & Ho);
          destruct (bind c k a1 w1) as [[o2 a2] w2]
      end.
      cbn in Htr, He, Ho |- *.
      exists (EvDispatch name arguments (HandlerThrew message) :: tr).
      rewrite Htr, He, Ho. rewrite <- app_assoc.
      repeat split. unfold handler_failures. cbn [dispatches filter threw snd List.length].
      fold (handler_failures tr). lia.
  - account_with ltac:(apply emitDevModeDebug_accounts).
Qed.

Lemma processToolCalls_accounts toolCalls : accounts (_processToolCalls C toolCalls).
Proof.
  unfold _processToolCalls.
  generalize {| doneToolCalled := false; requiresHumanInput := false |}.
  induction toolCalls as [|toolCall rest IH]; intros result; cbn [processToolCalls_from].
  - account_with fail.
  - unfold processToolCall, _maybeStartGlowAnimation.
    account_with ltac:(first [apply checkIfAborted_accounts | apply emitDevModeDebug_accounts
                             | apply invokeTool_accounts | apply IH]).
Qed.

End Accounts.

(** X15.  Of its own doing, the dispatcher counts one error for each
    handler that threw, and no other: [_processToolCalls] itself calls
    [incrementMetric] for errors once per handler that threw, and not
    for a name absent from the registry, for a result that is not ok or
    for a cancelled batch; it counts no observation.  (What a tool adds
    to the metrics through the execution context it is given is the
    tool's and is not in this count.) *)
Theorem dispatcher_counts_an_error_per_throwing_handler :
  forall toolCalls a w,
  exists o a' w' tr,
    _processToolCalls C toolCalls a w = (o, a', w')
    /\ trace a' = trace a ++ tr
    /\ metric_errors a'
       = metric_errors a + Z.of_nat (List.length (filter threw (dispatches tr)))
    /\ metric_observations a' = metric_observations a.
Proof.
  intros toolCalls a w.
  destruct (processToolCalls_accounts toolCalls a w) as (tr & Htr & He & Ho).
  destruct (_processToolCalls C toolCalls a w) as [[o a'] w'].
  exists o, a', w', tr. split; [reflexivity|]. repeat split; assumption.
Qed.

(** *** The error messages of a run *)

Lemma error_messages_app tr1 tr2 :
  error_messages (tr1 ++ tr2) = error_messages tr1 ++ error_messages tr2.
Proof. unfold error_messages. rewrite publications_app, filter_app. reflexivity. Qed.

Lemma quiet_no_error_message e : quiet e = true -> error_messages [e] = [].
Proof.
  destruct e as [m| | | |]; cbn; try congruence.
  unfold error_messages. cbn. destruct (is_error_message m); cbn; congruence.
Qed.

(** The error messages published before [_handleExecutionError]. *)
Lemma run_error_messages polls mode task a w :
  exists tr,
    trace (snd (fst ((bind (modify _cleanup)
                       (fun _ => match mode with
                                 | Dynamic => _executeDynamic C polls task
                                 | Predefined predefinedPlan =>
                                     _executePredefined C polls task predefinedPlan
                                 end)) a w)))
    = trace a ++ tr
    /\ Forall (fun m => In m [timeout_message; limit_message mode]) (error_messages tr).
Proof.
  set (P := fun tr => Forall (fun m => In m [timeout_message; limit_message mode])
                             (error_messages tr)).
  assert (P_nil : P []) by constructor.
  assert (P_app : forall t1 t2, P t1 -> P t2 -> P (t1 ++ t2)).
  { intros t1 t2 H1 H2. unfold P. rewrite error_messages_app. apply Forall_app. auto. }
  assert (P_quiet : forall e, quiet e = true -> P [e]).
  { intros e He. unfold P. rewrite (quiet_no_error_message e He). constructor. }
  assert (P_timeout : P [EvPublish timeout_message]).
  { unfold P, error_messages. cbn. constructor; [cbn; auto | constructor]. }
  assert (P_model : forall p, P [EvModelCall p]) by (intros p; constructor).
  assert (Hclean : emits (World := World) P (modify _cleanup)).
  { intros a0 w0. exists []. cbn. rewrite app_nil_r. auto. }
  apply (emits_bind P P P); auto.
  intros _. destruct mode as [|plan].
  - apply executeDynamic_emits; auto. unfold P, error_messages. cbn.
    constructor; [cbn; auto | constructor].
  - apply executePredefined_emits; auto. intros plan'. unfold P, error_messages. cbn.
    constructor; [cbn; auto | constructor].
Qed.

(** X16.  The failures of tools and of the model are never published as
    error messages.  In a run of [execute], once the tools are registered
    and bound and whatever the collaborators do, the only messages of
    type [error] are the timeout message of the human-input wait, the
    message of the loop at the iteration cap, and the report of
    [_handleExecutionError], which can only be
    [Error: Maximum unified iterations (30) reached]. *)
Theorem only_three_error_messages :
  forall polls mode task a w,
  exists tr,
    trace (snd (fst (execute C polls mode task a w))) = trace a ++ tr
    /\ Forall (fun m => In m [timeout_message; limit_message mode;
                              error_report MAX_ITERATIONS_ERROR])
              (filter is_error_message (publications tr)).
Proof.
  intros polls mode task a w.
  destruct (execute_outcome polls mode task a w) as (o & a' & w' & Heq & Hout).
  destruct (run_error_messages polls mode task a w) as (tr & Htr & Hp).
  assert (Hweak : Forall (fun m => In m [timeout_message; limit_message mode;
                                         error_report MAX_ITERATIONS_ERROR])
                         (error_messages tr)).
  { eapply Forall_impl; [|exact Hp]. cbn. intros m [H | [H | []]]; auto. }
  unfold execute in *.
  match type of Htr with
  | trace (snd (fst (?run a w))) = _ =>
      change (fun a0 w0 => run a0 w0) with run in *;
      destruct (run a w) as [[[x|e|] a1] w1]
  end; cbn in Htr.
  - exists tr. split; [exact Htr | exact Hweak].
  - destruct e as [m|m].
    + exists tr. split; [exact Htr | exact Hweak].
    + unfold _handleExecutionError, _publishMessage, publishMessage in *. munfold.
      injection Heq as <- <- <-. destruct Hout as [-> _].
      exists (tr ++ [EvPublish (error_report MAX_ITERATIONS_ERROR)]). split.
      * cbn. rewrite Htr, <- app_assoc. reflexivity.
      * change (Forall (fun m => In m [timeout_message; limit_message mode;
                                       error_report MAX_ITERATIONS_ERROR])
                  (error_messages (tr ++ [EvPublish (error_report MAX_ITERATIONS_ERROR)]))).
        rewrite error_messages_app. apply Forall_app. split; [exact Hweak|].
        unfold error_messages. cbn [publications filter is_error_message error_report msgType].
        constructor; [cbn; auto | constructor].
  - exists tr. split; [exact Htr | exact Hweak].
Qed.

(** *** One message identifier per invocation of the model *)

Lemma shown_under_app id tr1 tr2 :
  shown_under id tr1 -> shown_under id tr2 -> shown_under id (tr1 ++ tr2).
Proof.
  unfold shown_under. rewrite publications_app. destruct id as [i|].
  - intros H1 H2. apply Forall_app. split; assumption.
  - intros -> ->. reflexivity.
Qed.

Lemma shown_under_later id tr1 tr2 :
  shown_under None tr1 -> shown_under id tr2 -> shown_under id (tr1 ++ tr2).
Proof.
  unfold shown_under. rewrite publications_app. intros ->. cbn [app]. auto.
Qed.

Lemma shown_under_nil id : shown_under id [].
Proof. destruct id; cbn; [constructor | reflexivity]. Qed.

Lemma streamText_ids text (s : StreamState) a w :
  started_ok s ->
  exists s' a' w' tr,
    streamText C text s a w = (Returned s', a', w')
    /\ trace a' = trace a ++ tr
    /\ started_ok s'
    /\ shown_under (currentMsgId s') tr
    /\ (currentMsgId s = None \/ currentMsgId s' = currentMsgId s).
Proof.
  intros Hok. unfold streamText.
  assert (Hdone : forall (s' : @StreamState Chunk) (a' : Agent) (w' : World) tr,
             trace a' = trace a ++ tr -> started_ok s' ->
             shown_under (currentMsgId s') tr ->
             (currentMsgId s = None \/ currentMsgId s' = currentMsgId s) ->
             exists (s'' : @StreamState Chunk) (a'' : Agent) (w'' : World) tr',
               (Returned s', a', w') = (Returned s'', a'', w'')
               /\ trace a'' = trace a ++ tr'
               /\ started_ok s''
               /\ shown_under (currentMsgId s'') tr'
               /\ (currentMsgId s = None \/ currentMsgId s'' = currentMsgId s)).
  { intros s' a' w' tr H1 H2 H3 H4. exists s', a', w', tr. auto. }
  destruct (hasProhibitedContent s) eqn:Hp.
  - munfold. cbn. apply (Hdone _ _ _ []).
    + rewrite app_nil_r. reflexivity.
    + exact Hok.
    + apply shown_under_nil.
    + right. reflexivity.
  - destruct (detect_prohibited (accumulatedText s ++ text)%string) as [tag|] eqn:Hd.
    + destruct (currentMsgId s) as [id|] eqn:Hid; munfold; cbn.
      * eapply (Hdone _ _ _ [_; _]).
        -- cbn. rewrite <- app_assoc. reflexivity.
        -- intros H. cbn in H. rewrite (Hok H) in Hid. discriminate.
        -- cbn. repeat constructor.
        -- right. reflexivity.
      * eapply (Hdone _ _ _ [_]).
        -- reflexivity.
        -- intros _. reflexivity.
        -- reflexivity.
        -- left. reflexivity.
    + destruct (hasStartedThinking s) eqn:Hs.
      * destruct (currentMsgId s) as [id|] eqn:Hid; munfold; cbn.
        -- eapply (Hdone _ _ _ [_]).
           ++ reflexivity.
           ++ intros H. discriminate H.
           ++ cbn. repeat constructor.
           ++ right. reflexivity.
        -- apply (Hdone _ _ _ []).
           ++ rewrite app_nil_r. reflexivity.
           ++ intros _. reflexivity.
           ++ reflexivity.
           ++ left. reflexivity.
      * munfold. cbn.
        destruct (PubSub_generateId C "msg_assistant" w) as [id w1]. cbn.
        eapply (Hdone _ _ _ [_]).
        -- reflexivity.
        -- intros H. discriminate H.
        -- cbn. repeat constructor.
        -- left. exact (Hok Hs).
Qed.

Lemma streamChunk_ids chunk (s : StreamState) a w :
  started_ok s ->
  exists o a' w' tr last,
    streamChunk C chunk s a w = (o, a', w')
    /\ trace a' = trace a ++ tr
    /\ shown_under last tr
    /\ (currentMsgId s = None \/ last = currentMsgId s)
    /\ match o with
       | Returned s' => last = currentMsgId s' /\ started_ok s'
       | _ => True
       end.
Proof.
  intros Hok. unfold streamChunk. unfold bind at 1.
  destruct (checkIfAborted_cases a w) as [-> | ->].
  2: { do 3 eexists. exists [], (currentMsgId s). split; [reflexivity|].
       rewrite app_nil_r. repeat split; [apply shown_under_nil | right; reflexivity]. }
  unfold bind at 1.
  assert (Hsame : exists s' a' w' tr,
             @ret World _ s a w = (Returned s', a', w')
             /\ trace a' = trace a ++ tr
             /\ started_ok s'
             /\ shown_under (currentMsgId s') tr
             /\ (currentMsgId s = None \/ currentMsgId s' = currentMsgId s)).
  { exists s, a, w, []. rewrite app_nil_r.
    repeat split; [exact Hok | apply shown_under_nil | right; reflexivity]. }
  assert (Hstep : exists s' a' w' tr,
             match chunk_content C chunk with
             | ContentString text => if truthy text then streamText C text s else ret s
             | ContentOther => ret s
             end a w = (Returned s', a', w')
             /\ trace a' = trace a ++ tr
             /\ started_ok s'
             /\ shown_under (currentMsgId s') tr
             /\ (currentMsgId s = None \/ currentMsgId s' = currentMsgId s)).
  { destruct (chunk_content C chunk) as [text|]; [destruct (truthy text)|];
      [apply streamText_ids; exact Hok | exact Hsame | exact Hsame]. }
  destruct Hstep as (s1 & a1 & w1 & tr & -> & Htr & Hok1 & Hshown & Hrel).
  unfold ret. do 3 eexists. exists tr, (currentMsgId s1).
  split; [reflexivity|]. cbn. repeat split; assumption.
Qed.

Lemma streamChunks_ids chunks :
  forall (s : StreamState) a w,
  started_ok s ->
  exists o a' w' tr last,
    streamChunks C chunks s a w = (o, a', w')
    /\ trace a' = trace a ++ tr
    /\ shown_under last tr
    /\ (currentMsgId s = None \/ last = currentMsgId s)
    /\ match o with
       | Returned s' => last = currentMsgId s'
       | _ => True
       end.
Proof.
  induction chunks as [|chunk rest IH]; intros s a w Hok; cbn [streamChunks].
  - do 3 eexists. exists [], (currentMsgId s). split; [reflexivity|].
    rewrite app_nil_r. repeat split; [apply shown_under_nil | right; reflexivity].
  - unfold bind at 1, step at 1. unfold bind at 1.
    destruct (streamChunk_ids chunk s a (next_chunk C w) Hok)
      as (o & a1 & w1 & tr1 & last1 & -> & Htr1 & Hs1 & Hrel1 & Ho).
    destruct o as [s1|e|].
    2,3: do 3 eexists; exists tr1, last1; (split; [reflexivity|]);
      repeat split; assumption.
    destruct Ho as [-> Hok1].
    destruct (IH s1 a1 w1 Hok1) as (o & a2 & w2 & tr2 & last & -> & Htr2 & Hs2 & Hrel2 & Ho).
    do 3 eexists. exists (tr1 ++ tr2), last. split; [reflexivity|].
    split; [rewrite Htr2, Htr1, app_assoc; reflexivity|].
    split.
    { destruct Hrel2 as [Hnone | ->].
      - rewrite Hnone in Hs1. apply shown_under_later; assumption.
      - apply shown_under_app; assumption. }
    split; [|exact Ho].
    destruct Hrel1 as [Hnone | Heq]; [left; exact Hnone|].
    destruct Hrel2 as [Hnone | ->]; [left; congruence | right; exact Heq].
Qed.

Lemma invokeLLMWithStreaming_ids prompt a w :
  exists o a' w' tr last,
    _invokeLLMWithStreaming C prompt a w = (o, a', w')
    /\ trace a' = trace a ++ tr
    /\ shown_under last tr.
Proof.
  assert (Hany : forall (o : Outcome AIMessage) (a' : Agent) (w' : World) tr last,
             trace a' = trace a ++ tr -> shown_under last tr ->
             exists (o0 : Outcome AIMessage) (a0 : Agent) (w0 : World) tr0 last0,
               (o, a', w') = (o0, a0, w0)
               /\ trace a0 = trace a ++ tr0
               /\ shown_under last0 tr0).
  { intros o a' w' tr last Htr Hs. exists o, a', w', tr, last. auto. }
  unfold _invokeLLMWithStreaming.
  unfold bind at 1, modify at 1. unfold bind at 1, await at 1.
  destruct (llm_stream C prompt w) as [[stream|reason] w1].
  2: { eapply (Hany _ _ _ [EvModelCall prompt] None); reflexivity. }
  unfold bind at 1.
  destruct (streamChunks_ids (stream_chunks stream) initial_stream_state
              (record_event (EvModelCall prompt) a) w1 (fun _ => eq_refl))
    as (o & a2 & w2 & tr2 & last & -> & Htr2 & Hs2 & _ & Ho).
  cbn in Htr2.
  assert (Hs : shown_under last (EvModelCall prompt :: tr2)).
  { destruct last; exact Hs2. }
  assert (Htr : trace a2 = trace a ++ EvModelCall prompt :: tr2).
  { rewrite Htr2, <- app_assoc. reflexivity. }
  destruct o as [s|e|].
  2,3: apply (Hany _ _ _ _ last Htr Hs).
  subst last. unfold bind at 1.
  destruct (stream_failure stream) as [reason|]; munfold.
  { apply (Hany _ _ _ _ (currentMsgId s) Htr Hs). }
  destruct (currentMsgId s) as [id|] eqn:Hid.
  - destruct (hasStartedThinking s && negb (hasProhibitedContent s)
              && truthy (trim (accumulatedText s))).
    + cbn. destruct (accumulatedChunk s);
        eapply (Hany _ _ _ ((EvModelCall prompt :: tr2) ++ [_]) (Some id));
        try (cbn; rewrite Htr, <- app_assoc; reflexivity);
        (apply shown_under_app; [exact Hs | repeat constructor]).
    + cbn. destruct (accumulatedChunk s); apply (Hany _ _ _ _ (Some id) Htr Hs).
  - cbn. destruct (accumulatedChunk s); apply (Hany _ _ _ _ None Htr Hs).
Qed.

(** X17.  All the messages published during one invocation of the
    model carry one and the same message identifier and are [thinking]
    messages: the partial texts, the placeholder that replaces them when
    a prohibited tag is found, and the final text update one message. *)
Theorem one_message_per_invocation :
  forall prompt a w,
  exists o a' w' tr id,
    _invokeLLMWithStreaming C prompt a w = (o, a', w')
    /\ trace a' = trace a ++ tr
    /\ Forall (fun m => msgId m = Some id /\ msgType m = thinking) (publications tr).
Proof.
  intros prompt a w.
  destruct (invokeLLMWithStreaming_ids prompt a w)
    as (o & a' & w' & tr & last & Hrun & Htr & Hs).
  exists o, a', w', tr.
  destruct last as [id|]; cbn in Hs.
  - exists id. auto.
  - exists EmptyString. rewrite Hs. repeat split; auto.
Qed.

(** *** A browser whose state cannot be read *)

Lemma buildExecutionHistoryContext_quiet tokenLimit userTask a w :
  exists text a' w' tr,
    _buildExecutionHistoryContext C tokenLimit userTask a w = (Returned text, a', w')
    /\ trace a' = trace a ++ tr
    /\ model_calls tr = [] /\ dispatches tr = [] /\ publications tr = []
    /\ iterations a' = iterations a
    /\ metric_errors a' = metric_errors a.
Proof.
  destruct (executionHistory a) as [|e h] eqn:Hh.
  - rewrite (buildExecutionHistoryContext_empty C tokenLimit userTask a w Hh).
    do 3 eexists. exists []. rewrite app_nil_r. repeat split.
  - destruct (history_exceeds C tokenLimit a) eqn:Hex.
    + rewrite (buildExecutionHistoryContext_over_limit C tokenLimit userTask a w);
        [|rewrite Hh; discriminate | exact Hex].
      cbv zeta.
      destruct (invokeWithRetry C (summary_request tokenLimit userTask a) w)
        as [[content|reason] w'];
        do 3 eexists; eexists [_]; (split; [reflexivity|]); repeat split.
    + unfold _buildExecutionHistoryContext. munfold. rewrite Hh.
      unfold history_exceeds in Hex. rewrite Hh in Hex. rewrite Hex.
      do 3 eexists. exists []. rewrite app_nil_r. repeat split.
Qed.

(** An agent call that cannot read the browser state. *)
Lemma runAgent_browser_fails mode task a w :
  browser_state_unavailable C ->
  exists a' w' tr,
    runAgent C mode task a w = (Returned no_result, a', w')
    /\ trace a' = trace a ++ tr
    /\ model_calls tr = [] /\ dispatches tr = [] /\ publications tr = []
    /\ iterations a' = iterations a
    /\ metric_errors a' = metric_errors a + 1.
Proof.
  intros Hbrowser. unfold runAgent, try_catch.
  unfold bind at 1, modify at 1. unfold bind at 1.
  match goal with
  | |- context [_buildExecutionHistoryContext C ?lim task ?a1 w] =>
      destruct (buildExecutionHistoryContext_quiet lim task a1 w)
        as (text & a2 & w2 & tr & -> & Htr & Hm & Hd & Hp & Hi & He)
  end.
  unfold bind at 1, await at 1.
  destruct (Hbrowser w2) as (reason & w3 & ->).
  munfold. exists (incr_errors a2), w3, tr. split; [reflexivity|].
  cbn in Htr, Hi, He |- *. repeat split; try assumption. lia.
Qed.

Lemma executeDynamic_loop_browser_fails polls task :
  never_cancelled C ->
  browser_state_unavailable C ->
  forall fuel a w,
    iterations a = MAX_UNIFIED_ITERATIONS - Z.of_nat fuel ->
    exists a' w' tr,
      _executeDynamic_loop C polls fuel task a w = (Returned false, a', w')
      /\ trace a' = trace a ++ tr
      /\ model_calls tr = [] /\ dispatches tr = [] /\ publications tr = []
      /\ iterations a' = MAX_UNIFIED_ITERATIONS
      /\ metric_errors a' = metric_errors a + Z.of_nat fuel.
Proof.
  intros Hq Hbrowser. induction fuel as [|fuel IH]; intros a w Hit.
  - exists a, w, []. cbn [_executeDynamic_loop]. munfold.
    replace (iterations a <? MAX_UNIFIED_ITERATIONS) with false
      by (symmetry; apply Z.ltb_ge; lia).
    rewrite app_nil_r. repeat split; lia.
  - rewrite executeDynamic_loop_pass.
    replace (iterations a <? MAX_UNIFIED_ITERATIONS) with true
      by (symmetry; apply Z.ltb_lt; lia).
    rewrite (checkIfAborted_quiet C _ _ Hq). unfold _runDynamicAgent.
    destruct (runAgent_browser_fails Dynamic task (set_iterations (iterations a + 1) a) w
                Hbrowser) as (a1 & w1 & tr1 & -> & Htr1 & Hm1 & Hd1 & Hp1 & Hi1 & He1).
    cbn in Htr1, Hi1, He1.
    unfold handleHumanInput. cbn [no_result requiresHumanInput doneToolCalled]. unfold ret.
    destruct (IH a1 w1) as (a' & w' & tr & -> & Htr & Hm & Hd & Hp & Hi & He).
    { rewrite Hi1. lia. }
    exists a', w', (tr1 ++ tr). split; [reflexivity|].
    rewrite Htr, Htr1, app_assoc, model_calls_app, dispatches_app, publications_app,
      Hm1, Hm, Hd1, Hd, Hp1, Hp.
    repeat split; try assumption. lia.
Qed.

Lemma executePredefined_loop_browser_fails polls task plan :
  never_cancelled C ->
  browser_state_unavailable C ->
  forall fuel a w,
    iterations a = MAX_UNIFIED_ITERATIONS - Z.of_nat fuel ->
    exists a' w' tr,
      _executePredefined_loop C polls fuel task plan a w = (Returned false, a', w')
      /\ trace a' = trace a ++ tr
      /\ model_calls tr = [] /\ dispatches tr = [] /\ publications tr = []
      /\ iterations a' = MAX_UNIFIED_ITERATIONS
      /\ metric_errors a' = metric_errors a + Z.of_nat fuel.
Proof.
  intros Hq Hbrowser. induction fuel as [|fuel IH]; intros a w Hit.
  - exists a, w, []. cbn [_executePredefined_loop]. munfold.
    replace (iterations a <? MAX_UNIFIED_ITERATIONS) with false
      by (symmetry; apply Z.ltb_ge; lia).
    rewrite app_nil_r. repeat split; lia.
  - rewrite executePredefined_loop_pass.
    replace (iterations a <? MAX_UNIFIED_ITERATIONS) with true
      by (symmetry; apply Z.ltb_lt; lia).
    rewrite (checkIfAborted_quiet C _ _ Hq). unfold _runPredefinedAgent.
    destruct (runAgent_browser_fails (Predefined plan) task
                (set_iterations (iterations a + 1) a) w Hbrowser)
      as (a1 & w1 & tr1 & -> & Htr1 & Hm1 & Hd1 & Hp1 & Hi1 & He1).
    cbn in Htr1, Hi1, He1.
    unfold handleHumanInput. cbn [no_result requiresHumanInput doneToolCalled]. unfold ret.
    destruct (IH a1 w1) as (a' & w' & tr & -> & Htr & Hm & Hd & Hp & Hi & He).
    { rewrite Hi1. lia. }
    exists a', w', (tr1 ++ tr). split; [reflexivity|].
    rewrite Htr, Htr1, app_assoc, model_calls_app, dispatches_app, publications_app,
      Hm1, Hm, Hd1, Hd, Hp1, Hp.
    repeat split; try assumption. lia.
Qed.

(** X18.  When the browser state can never be read and the run is not
    cancelled, [execute] never invokes the model and dispatches no tool:
    each of the 30 iterations absorbs the failure and counts one error,
    and the run ends with the iteration-limit error, having published
    only the starting message, the limit message and the error report. *)
Theorem unreadable_browser_burns_all_iterations :
  never_cancelled C ->
  browser_state_unavailable C ->
  forall polls mode task a w,
  exists a' w' tr,
    execute C polls mode task a w = (Thrown (Error MAX_ITERATIONS_ERROR), a', w')
    /\ trace a' = trace a ++ tr
    /\ model_calls tr = [] /\ dispatches tr = []
    /\ publications tr = [start_message mode; limit_message mode;
                          error_report MAX_ITERATIONS_ERROR]
    /\ metric_errors a' = metric_errors a + 30.
Proof.
  intros Hq Hbrowser polls mode task a w. unfold execute.
  assert (Hrun : forall (loop : nat -> @M World bool) (b : @M World unit),
            (forall fuel a w,
                iterations a = MAX_UNIFIED_ITERATIONS - Z.of_nat fuel ->
                exists a' w' tr,
                  loop fuel a w = (Returned false, a', w')
                  /\ trace a' = trace a ++ tr
                  /\ model_calls tr = [] /\ dispatches tr = [] /\ publications tr = []
                  /\ iterations a' = MAX_UNIFIED_ITERATIONS
                  /\ metric_errors a' = metric_errors a + Z.of_nat fuel) ->
            b = (bind (publishMessage (start_message mode)) (fun _ =>
                 bind get (fun a0 =>
                 bind (loop (iterations_left a0)) (fun done =>
                 bind get (fun a =>
                 if negb done && (MAX_UNIFIED_ITERATIONS <=? iterations a)
                 then bind (publishMessage (limit_message mode))
                           (fun _ => throw (Error MAX_ITERATIONS_ERROR))
                 else ret tt))))) ->
            exists a' w' tr,
              match bind (modify _cleanup) (fun _ => b) a w with
              | (Thrown e, a1, w1) =>
                  match _handleExecutionError e a1 w1 with
                  | (_, a2, w2) => (Thrown e, _cleanup a2, w2)
                  end
              | (Returned x, a1, w1) => (Returned x, _cleanup a1, w1)
              | (Unfinished, a1, w1) => (Unfinished, a1, w1)
              end = (Thrown (Error MAX_ITERATIONS_ERROR), a', w')
              /\ trace a' = trace a ++ tr
              /\ model_calls tr = [] /\ dispatches tr = []
              /\ publications tr = [start_message mode; limit_message mode;
                                    error_report MAX_ITERATIONS_ERROR]
              /\ metric_errors a' = metric_errors a + 30).
  { intros loop b Hloop ->.
    unfold bind at 1, modify at 1. unfold bind at 1.
    unfold publishMessage at 1, modify at 1.
    unfold bind at 1, get at 1. unfold bind at 1.
    match goal with
    | |- context [loop ?f ?a1 w] =>
        destruct (Hloop f a1 w) as (a2 & w2 & tr & -> & Htr & Hm & Hd & Hp & Hi & He);
        [reflexivity|]
    end.
    unfold bind at 1, get at 1. rewrite Hi. cbn [negb andb Z.leb Z.compare].
    unfold publishMessage, _handleExecutionError, _publishMessage, publishMessage. munfold.
    cbn in Htr, He.
    do 2 eexists. exists ((EvPublish (start_message mode) :: tr)
                            ++ [EvPublish (limit_message mode);
                                EvPublish (error_report MAX_ITERATIONS_ERROR)]).
    split; [reflexivity|]. cbn [trace _cleanup set_iterations set_consecutiveNoToolCalls
                                 set_executionHistory record_event metric_errors].
    rewrite Htr, He, model_calls_app, dispatches_app, publications_app.
    cbn [model_calls dispatches publications app]. rewrite Hm, Hd, Hp.
    repeat split; try reflexivity.
    rewrite <- !app_assoc. reflexivity. }
  destruct mode as [|plan].
  - apply (Hrun (fun fuel => _executeDynamic_loop C polls fuel task));
      [apply executeDynamic_loop_browser_fails; assumption | reflexivity].
  - apply (Hrun (fun fuel => _executePredefined_loop C polls fuel task plan));
      [apply executePredefined_loop_browser_fails; assumption | reflexivity].
Qed.

End Coverage.

(** ** The further properties at scripted runs *)

Lemma scripted_clock_advances (s : Script) : clock_advances (scripted s).
Proof. intros ms w. cbn. lia. Defined.

Lemma seasoned_agent_ordered : history_ordered seasoned_agent.
Proof.
  unfold history_ordered, seasoned_agent. cbn.
  split; [repeat constructor; lia|].
  split; [repeat constructor; cbn; lia|].
  split; [repeat constructor|].
  intros H. exfalso. apply H. reflexivity.
Defined.

Lemma history_stays_in_iteration_order_witness :
  history_ordered seasoned_agent
  /\ history_ordered
       (agent_of (_executeDynamic (scripted (small_context wordy_summarizer)) 0
                                  "submit the form" seasoned_agent initial_world))
  /\ forall predefinedPlan,
       history_ordered
         (agent_of (_executePredefined (scripted (small_context wordy_summarizer)) 0
                                       "submit the form" predefinedPlan
                                       seasoned_agent initial_world)).
Proof.
  split; [exact seasoned_agent_ordered|].
  exact (history_stays_in_iteration_order
           (scripted (small_context wordy_summarizer)) 0%nat "submit the form"
           seasoned_agent initial_world seasoned_agent_ordered).
Defined.

Lemma human_input_wait_ends_within_the_timeout_witness :
  clock_advances (scripted unanswered_request)
  /\ (1201 <= 1300)%nat
  /\ (exists r a' w',
         _waitForHumanInput (scripted unanswered_request) 1300 new_agent waiting_world
         = (Returned r, a', w'))
  /\ _waitForHumanInput (scripted unanswered_request) 1300 new_agent waiting_world
     = _waitForHumanInput (scripted unanswered_request) 1201 new_agent waiting_world.
Proof.
  assert (H : (1201 <= 1300)%nat) by (apply Nat.leb_le; vm_compute; reflexivity).
  split; [exact (scripted_clock_advances unanswered_request)|].
  split; [exact H|].
  exact (human_input_wait_ends_within_the_timeout
           (scripted unanswered_request) (scripted_clock_advances unanswered_request)
           1300%nat new_agent waiting_world H).
Defined.

Lemma execute_always_ends_witness :
  clock_advances (scripted unanswered_request)
  /\ (1201 <= 1300)%nat
  /\ exists o a' w',
       execute (scripted unanswered_request) 1300 Dynamic "task" new_agent initial_world
       = (o, a', w')
       /\ o <> Unfinished
       /\ iterations a' = 0 /\ consecutiveNoToolCalls a' = 0 /\ executionHistory a' = [].
Proof.
  assert (H : (1201 <= 1300)%nat) by (apply Nat.leb_le; vm_compute; reflexivity).
  split; [exact (scripted_clock_advances unanswered_request)|].
  split; [exact H|].
  exact (execute_always_ends
           (scripted unanswered_request) (scripted_clock_advances unanswered_request)
           1300%nat Dynamic "task" new_agent initial_world H).
Defined.

Lemma created_is_live : Exec.current_is_live Exec.created.
Proof. intros c H. discriminate H. Defined.

Lemma current_controller_is_never_aborted_witness :
  let acts := [Exec.RunEnter; Exec.RunInitialized; Exec.RunArm; Exec.Cancel;
            Exec.RunEnter; Exec.RunInitialized; Exec.RunArm] in
  Exec.current_is_live Exec.created
  /\ Exec.current_is_live (Exec.schedule acts Exec.created)
  /\ forall c,
       Exec.currentAbortController (Exec.schedule acts Exec.created) = Some c ->
       nth_error (Exec.controllers (Exec.cancel (Exec.schedule acts Exec.created))) c
       = Some (Some Exec.USER_CANCELLED).
Proof.
  cbv zeta. split; [exact created_is_live|].
  exact (current_controller_is_never_aborted
           [Exec.RunEnter; Exec.RunInitialized; Exec.RunArm; Exec.Cancel;
            Exec.RunEnter; Exec.RunInitialized; Exec.RunArm]
           Exec.created created_is_live).
Defined.

Lemma run_on_an_aborted_signal_stops_at_the_first_check_witness :
  let run := execute (scripted silent_model) 0 Dynamic "task" seasoned_agent
                     cancelled_world in
  abortSignal_aborted (scripted silent_model) cancelled_world = true
  /\ fst (fst run) = Thrown (AbortError None)
  /\ snd (fst run)
     = record_event (EvPublish (start_message Dynamic)) (_cleanup seasoned_agent).
Proof.
  cbv zeta.
  assert (H : abortSignal_aborted (scripted silent_model) cancelled_world = true)
    by reflexivity.
  split; [exact H|].
  exact (run_on_an_aborted_signal_stops_at_the_first_check
           (scripted silent_model) 0%nat Dynamic "task" seasoned_agent cancelled_world H).
Defined.

Lemma unreadable_browser_burns_all_iterations_witness :
  let C := without_cancellation (with_unreadable_browser (scripted silent_model)) in
  never_cancelled C
  /\ browser_state_unavailable C
  /\ exists a' w' tr,
       execute C 0 Dynamic "task" new_agent initial_world
       = (Thrown (Error MAX_ITERATIONS_ERROR), a', w')
       /\ trace a' = (trace new_agent ++ tr)%list
       /\ model_calls tr = [] /\ dispatches tr = []
       /\ publications tr = [start_message Dynamic; limit_message Dynamic;
                             error_report MAX_ITERATIONS_ERROR]
       /\ metric_errors a' = metric_errors new_agent + 30.
Proof.
  cbv zeta.
  assert (H1 : never_cancelled
                 (without_cancellation (with_unreadable_browser (scripted silent_model))))
    by (intros w; reflexivity).
  assert (H2 : browser_state_unavailable
                 (without_cancellation (with_unreadable_browser (scripted silent_model))))
    by (intros w; do 2 eexists; reflexivity).
  split; [exact H1|]. split; [exact H2|].
  exact (unreadable_browser_burns_all_iterations
           (without_cancellation (with_unreadable_browser (scripted silent_model)))
           H1 H2 0%nat Dynamic "task" new_agent initial_world).
Defined.
